(** * CCTP V2 multichain payment gateway: call encoder and payment flow

    A shallow embedding of [src/MultichainPaymentGateway.jsx]: the hand-written
    ABI encoder ([encodeFunctionCall] and its helpers), the balance aggregator
    ([getUSDCBalance], [updateBalances]), [switchNetwork] and the payment flow
    [processPayment], together with the pieces of the JavaScript runtime they
    rely on (string padding and slicing, IEEE-754 binary64 numbers,
    [parseFloat], [parseInt], [BigInt], exceptions, promises). *)

From Stdlib Require Import ZArith List String Ascii Bool Lia SpecFloat.
From stdpp Require Import base option gmap.

Import ListNotations.
Local Open Scope string_scope.
Local Open Scope Z_scope.

(** ** JavaScript strings (ASCII subset) *)

Module JsString.

(** The first [n] characters of [pad pad pad ...], continuing from [cur]. *)
Fixpoint filler (n : nat) (cur pad : string) : string :=
  match n with
  | O => ""
  | S n' =>
      match cur with
      | String ch rest => String ch (filler n' rest pad)
      | EmptyString =>
          match pad with
          | String ch rest => String ch (filler n' rest pad)
          | EmptyString => ""
          end
      end
  end.

(** [s.padStart(targetLength, padString)]. *)
Definition padStart (s : string) (targetLength : nat) (padString : string) : string :=
  let len := String.length s in
  if (targetLength <=? len)%nat then s
  else filler (targetLength - len) padString padString ++ s.

(** [s.slice(start)] for a non-negative [start]. *)
Fixpoint slice (s : string) (start : nat) : string :=
  match start, s with
  | O, _ => s
  | S _, EmptyString => ""
  | S n, String _ rest => slice rest n
  end.

(** Is [p] a prefix of [s]? *)
Fixpoint startsWith (p s : string) : bool :=
  match p, s with
  | EmptyString, _ => true
  | String a p', String b s' => Ascii.eqb a b && startsWith p' s'
  | String _ _, EmptyString => false
  end.

(** White space and line terminators, as far as ASCII has them. *)
Definition isWhiteSpace (ch : ascii) : bool :=
  let n := nat_of_ascii ch in
  ((9 <=? n) && (n <=? 13))%nat || (n =? 32)%nat.

Fixpoint trimStart (s : string) : string :=
  match s with
  | String ch rest => if isWhiteSpace ch then trimStart rest else s
  | EmptyString => ""
  end.

Fixpoint rev_acc (s acc : string) : string :=
  match s with
  | EmptyString => acc
  | String ch rest => rev_acc rest (String ch acc)
  end.

Definition trim (s : string) : string :=
  rev_acc (trimStart (rev_acc (trimStart s) "")) "".

(** The value of a digit character in bases up to 36. *)
Definition digitValue (ch : ascii) : option Z :=
  let n := Z.of_nat (nat_of_ascii ch) in
  if (48 <=? n) && (n <=? 57) then Some (n - 48)
  else if (97 <=? n) && (n <=? 122) then Some (n - 87)
  else if (65 <=? n) && (n <=? 90) then Some (n - 55)
  else None.

Definition isDigitIn (radix : Z) (ch : ascii) : bool :=
  match digitValue ch with
  | Some d => d <? radix
  | None => false
  end.

(** Longest prefix of digits of the given base, and what follows it. *)
Fixpoint spanDigits (radix : Z) (s : string) : string * string :=
  match s with
  | String ch rest =>
      if isDigitIn radix ch
      then let '(ds, tl) := spanDigits radix rest in (String ch ds, tl)
      else ("", s)
  | EmptyString => ("", "")
  end.

(** The number a string of digits denotes. *)
Fixpoint digitsValue (radix : Z) (acc : Z) (ds : string) : Z :=
  match ds with
  | String ch rest =>
      digitsValue radix (acc * radix + default 0 (digitValue ch)) rest
  | EmptyString => acc
  end.

Definition digitChar (d : Z) : ascii :=
  if d <? 10 then ascii_of_nat (Z.to_nat (48 + d))
  else ascii_of_nat (Z.to_nat (87 + d)).

Fixpoint digitsOf (fuel : nat) (radix n : Z) (acc : string) : string :=
  match fuel with
  | O => acc
  | S fuel' =>
      let acc' := String (digitChar (n mod radix)) acc in
      if n / radix =? 0 then acc' else digitsOf fuel' radix (n / radix) acc'
  end.

(** The numeral of a natural number [n] in the given base, lower case. *)
Definition numeral (radix n : Z) : string :=
  digitsOf (S (Z.to_nat (Z.log2 n))) radix n "".

(** The numeral of an integer, with a minus sign when negative. *)
Definition numeralZ (radix z : Z) : string :=
  if z <? 0 then String "-" (numeral radix (- z)) else numeral radix z.

End JsString.

(** ** JavaScript numbers: IEEE-754 binary64 *)

Module JsNumber.

Definition Number := spec_float.

Definition prec : Z := 53.
Definition emax : Z := 1024.

Definition NaN : Number := S754_nan.

(** The Number nearest to an integer (round to nearest, ties to even). *)
Definition ofZ (z : Z) : Number := binary_normalize prec emax z 0 false.

(** The Number nearest to the rational [p / q], with the given sign. *)
Definition ofRatio (neg : bool) (p q : positive) : Number :=
  SFdiv prec emax (S754_finite neg p 0) (S754_finite false q 0).

Definition mul : Number -> Number -> Number := SFmul prec emax.
Definition div : Number -> Number -> Number := SFdiv prec emax.
Definition sub : Number -> Number -> Number := SFsub prec emax.

(** [x <= y], false when either side is NaN. *)
Definition leb (x y : Number) : bool := SFleb x y.

(** [Math.floor]. *)
Definition Math_floor (x : Number) : Number :=
  match x with
  | S754_finite s m e =>
      if 0 <=? e then x
      else
        let d := 2 ^ (- e) in
        let q := Z.pos m / d in
        let r := Z.pos m mod d in
        if s then binary_normalize prec emax (- (if r =? 0 then q else q + 1)) 0 true
        else binary_normalize prec emax q 0 false
  | _ => x
  end.

(** The integer a Number equals, when it is one. *)
Definition integerValue (x : Number) : option Z :=
  match x with
  | S754_zero _ => Some 0
  | S754_finite s m e =>
      let sign := if s then -1 else 1 in
      if 0 <=? e then Some (sign * (Z.pos m * 2 ^ e))
      else if Z.pos m mod 2 ^ (- e) =? 0 then Some (sign * (Z.pos m / 2 ^ (- e)))
      else None
  | _ => None
  end.

(** Safe integers: those below 2^53 in magnitude. *)
Definition safeInteger (x : Number) : option Z :=
  match integerValue x with
  | Some z => if Z.abs z <? 2 ^ 53 then Some z else None
  | None => None
  end.

(** The canonical property key a Number denotes when used as an object
    index: [Some z] when ToString of the number is the decimal numeral of
    the safe integer [z]. Any other number yields a key that is the
    numeral of no safe integer, hence names no entry of a table keyed by
    small integers. *)
Definition propertyKey (x : Number) : option Z := safeInteger x.

(** *** parseFloat *)

(** An exponent part [e[+-]digits] at the head of [s], if there is one. *)
Definition exponentPart (s : string) : Z :=
  match s with
  | String ch rest =>
      if Ascii.eqb ch "e" || Ascii.eqb ch "E" then
        let '(neg, rest') :=
          match rest with
          | String "-" r => (true, r)
          | String "+" r => (false, r)
          | _ => (false, rest)
          end in
        let '(ds, _) := JsString.spanDigits 10 rest' in
        match ds with
        | EmptyString => 0
        | _ => let v := JsString.digitsValue 10 0 ds in if neg then - v else v
        end
      else 0
  | EmptyString => 0
  end.

(** The Number for [digits * 10^scale]. *)
Definition ofDecimal (neg : bool) (digits scale : Z) : Number :=
  match digits with
  | Z.pos m =>
      if 0 <=? scale
      then ofRatio neg (m * Z.to_pos (10 ^ scale)) 1
      else ofRatio neg m (Z.to_pos (10 ^ (- scale)))
  | _ => S754_zero neg
  end.

(** [parseFloat(s)]: the longest prefix of the trimmed string that is a
    decimal literal, correctly rounded as engines do (ECMAScript lets an
    engine look at the first 20 significant digits only); NaN when there
    is none. *)
Definition parseFloat (s : string) : Number :=
  let t := JsString.trimStart s in
  let '(neg, t1) :=
    match t with
    | String "-" r => (true, r)
    | String "+" r => (false, r)
    | _ => (false, t)
    end in
  if JsString.startsWith "Infinity" t1 then S754_infinity neg
  else
    let '(ip, t2) := JsString.spanDigits 10 t1 in
    let '(fp, t3) :=
      match t2 with
      | String "." r => JsString.spanDigits 10 r
      | _ => ("", t2)
      end in
    match ip, fp with
    | EmptyString, EmptyString => NaN
    | _, _ =>
        ofDecimal neg (JsString.digitsValue 10 0 (ip ++ fp))
                  (exponentPart t3 - Z.of_nat (String.length fp))
    end.

(** *** parseInt *)

(** [parseInt(s, radix)] for a radix between 2 and 36, and [parseInt(s)]
    ([radix = None]): base 16 after a [0x] prefix, base 10 otherwise. *)
Definition parseInt (s : string) (radix : option Z) : Number :=
  let t := JsString.trimStart s in
  let '(neg, t1) :=
    match t with
    | String "-" r => (true, r)
    | String "+" r => (false, r)
    | _ => (false, t)
    end in
  let hexPrefix := JsString.startsWith "0x" t1 || JsString.startsWith "0X" t1 in
  let '(R, t2) :=
    match radix with
    | Some 16 => (16, if hexPrefix then JsString.slice t1 2 else t1)
    | Some r => (r, t1)
    | None => if hexPrefix then (16, JsString.slice t1 2) else (10, t1)
    end in
  let '(ds, _) := JsString.spanDigits R t2 in
  match ds with
  | EmptyString => NaN
  | _ =>
      let v := JsString.digitsValue R 0 ds in
      binary_normalize prec emax (if neg then - v else v) 0 neg
  end.

End JsNumber.

(** ** Exceptions and completions *)

Inductive ErrorName := TypeError | SyntaxError | RangeError | ProviderRpcError.

(** An error object: its kind, an optional numeric [code] (wallet providers
    set one) and an optional [message]. A [code] that is not a number compares
    unequal to 4902 like an absent one, and a [message] is the text it
    converts to. The message texts of the errors the engine itself raises are
    V8's. *)
Record JsError := mkError {
  errName : ErrorName;
  errCode : option Z;
  errMessage : option string
}.

Definition typeError (msg : string) : JsError := mkError TypeError None (Some msg).
Definition syntaxError (msg : string) : JsError := mkError SyntaxError None (Some msg).

(** How a synchronous computation ends: normally with a value, or by throwing. *)
Inductive Completion (A : Type) :=
| Normal (a : A)
| Throws (e : JsError).
Arguments Normal {A} a.
Arguments Throws {A} e.

Definition cbind {A B} (m : Completion A) (k : A -> Completion B) : Completion B :=
  match m with
  | Normal a => k a
  | Throws e => Throws e
  end.

Declare Scope completion_scope.
Delimit Scope completion_scope with completion.
Notation "x <- m ;; k" := (cbind m (fun x => k))
  (at level 100, m at next level, right associativity) : completion_scope.

(** ** Values passed to the encoder, and what it returns *)

(** The primitive values a field of the encoder's [params] object holds. *)
Inductive value :=
| VUndefined
| VNull
| VNum (x : JsNumber.Number)
| VStr (s : string).

(** What a [throw] statement or a rejected promise carries. The engine and
    the gateway's own code throw error objects; a wallet may reject a request
    with any value, [undefined] and [null] included. *)
Inductive Thrown :=
| ThrownValue (v : value)
| ThrownError (e : JsError).

Coercion ThrownError : JsError >-> Thrown.

(** [undefined] and [null]: the values that have no properties to read. *)
Definition nullish (err : Thrown) : bool :=
  match err with
  | ThrownValue VUndefined | ThrownValue VNull => true
  | _ => false
  end.

(** What a lookup in the selector table produces, and so what the encoder
    can return: a string, [undefined], or a member the table object inherits
    from [Object.prototype]. *)
Inductive Encoded :=
| EStr (s : string)
| EUndefined
| EBuiltin (name : string).

(** A [params] object: field name to value; an absent field reads as
    [undefined]. *)
Definition Params := gmap string value.

Definition field (params : Params) (name : string) : value :=
  default VUndefined (params !! name).

(** Implementation-defined numerics of the JavaScript engine. *)
Record Engine := {
  (** [x.toString(16)] for a Number that is not a safe integer, NaN or an
      infinity: ECMAScript leaves the digits to the implementation. *)
  Number_toString16 : JsNumber.Number -> string;
  (** [Math.pow]: implementation-approximated. *)
  Math_pow : JsNumber.Number -> JsNumber.Number -> JsNumber.Number;
  (** [x.toFixed(digits)]. *)
  Number_toFixed : JsNumber.Number -> nat -> string
}.

(** ** Chain registry and hook templates (static tables) *)

Module Registry.

Record ChainConfig := {
  name : string;
  domain : Z;
  chainIdHex : string;
  messageTransmitter : string;
  tokenMessenger : string;
  usdc : string;
  explorer : string
}.

(** [CHAIN_CONFIG], in the order [Object.keys] enumerates it (integer keys
    ascending). The [icon] and [color] fields are presentation only. *)
Definition CHAIN_CONFIG : list (Z * ChainConfig) :=
  [ (1, {| name := "Ethereum"; domain := 0; chainIdHex := "0x1";
           messageTransmitter := "0x0a992d191DEeC32aFe36203Ad87D7d289a738F81";
           tokenMessenger := "0xBd3fa81B58Ba92a82136038B25aDec7066af3155";
           usdc := "0xA0b86991c6218b36c1d19D4a2e9Eb0cE3606eB48";
           explorer := "https://etherscan.io" |});
    (146, {| name := "Sonic"; domain := 10; chainIdHex := "0x92";
             messageTransmitter := "0x1234567890abcdef1234567890abcdef12345678";
             tokenMessenger := "0xabcdef1234567890abcdef1234567890abcdef12";
             usdc := "0x29219dD400f2Bf60E5a23d13Be72B486D4038894";
             explorer := "https://sonicscan.io" |});
    (8453, {| name := "Base"; domain := 6; chainIdHex := "0x2105";
              messageTransmitter := "0x1a58c91AAf06468eB4921Dd7b5B8293F2E20c03b";
              tokenMessenger := "0xd203De32170130082896b4111eDF825a4774c18E";
              usdc := "0x833589fCD6eDb6E08f4c7C32D4f71b54bdA02913";
              explorer := "https://basescan.org" |});
    (42161, {| name := "Arbitrum"; domain := 3; chainIdHex := "0xa4b1";
               messageTransmitter := "0xC30362313FBBA5cf9163F0bb16a0e01f01A896ca";
               tokenMessenger := "0x19330d10D9Cc8751218eaf51E8885D058642E08A";
               usdc := "0xaf88d065e77c8cC2239327C5EDb3A432268e5831";
               explorer := "https://arbiscan.io" |});
    (43114, {| name := "Avalanche"; domain := 1; chainIdHex := "0xa86a";
               messageTransmitter := "0x8186359aF5F57FbB40c6b14A588d2A59C0C29880";
               tokenMessenger := "0x6B25532e1060CE10cc3B0A99e5683b91BFDe6982";
               usdc := "0xB97EF9Ef8734C71904D8002F8b6Bc66Dd9c48a6E";
               explorer := "https://snowtrace.io" |});
    (59144, {| name := "Linea"; domain := 9; chainIdHex := "0xe708";
               messageTransmitter := "0x4D41f22c5a0e5c74090899E5a8Fb597a8842b3e8";
               tokenMessenger := "0xb1141bF80C0B5676c8a6e9f9c8F4dC4c8Fb8f7d0";
               usdc := "0x176211869cA2b568f2A7D4EE941E073a821EE1ff";
               explorer := "https://lineascan.build" |}) ].

(** [CHAIN_CONFIG[chainId]]; [None] is [undefined]. *)
Fixpoint lookupIn {A} (table : list (Z * A)) (key : Z) : option A :=
  match table with
  | (k, v) :: rest => if k =? key then Some v else lookupIn rest key
  | [] => None
  end.

Definition chainConfig (chainId : Z) : option ChainConfig :=
  lookupIn CHAIN_CONFIG chainId.

(** [Object.keys(CHAIN_CONFIG)]. *)
Definition chainIds : list Z := map fst CHAIN_CONFIG.

Record HookTemplate := {
  hookName : string;
  description : string;
  hookData : string
}.

Definition HOOK_TEMPLATES : list (string * HookTemplate) :=
  [ ("autoSwap", {| hookName := "Auto Swap to Native Token";
                    description := "Automatically swap received USDC to native token";
                    hookData := "0x01" |});
    ("autoDeposit", {| hookName := "Auto Deposit to DeFi";
                       description := "Deposit received USDC into lending protocol";
                       hookData := "0x02" |});
    ("autoStake", {| hookName := "Auto Stake for Rewards";
                     description := "Stake USDC for yield generation";
                     hookData := "0x03" |});
    ("treasuryRebalance", {| hookName := "Treasury Auto-Rebalance";
                             description := "Automatically rebalance to preferred chain";
                             hookData := "0x04" |}) ].

Fixpoint lookupName {A} (table : list (string * A)) (key : string) : option A :=
  match table with
  | (k, v) :: rest => if String.eqb k key then Some v else lookupName rest key
  | [] => None
  end.

(** [HOOK_TEMPLATES[key]]; [None] is [undefined]. The component only ever
    selects one of the four keys or [null]. *)
Definition hookTemplate (key : string) : option HookTemplate :=
  lookupName HOOK_TEMPLATES key.

(** Reading a property of a table entry that may be [undefined]. *)
Definition prop {A B} (entry : option A) (get : A -> B) (propName : string) : Completion B :=
  match entry with
  | Some a => Normal (get a)
  | None =>
      Throws (typeError ("Cannot read properties of undefined (reading '" ++ propName ++ "')"))
  end.

End Registry.

(** ** The call encoder *)

Module Encoder.

Import JsNumber.
Local Open Scope completion_scope.

(** [fromHex(hex)] on a string: [parseInt(hex, 16)]. *)
Definition fromHex (hex : string) : Number := parseInt hex (Some 16).

(** [addressToBytes32(address)]. *)
Definition addressToBytes32 (address : string) : string :=
  "0x000000000000000000000000" ++ JsString.slice address 2.

Section WithEngine.

Variable engine : Engine.

(** [x.toString(16)] on a Number. *)
Definition toString16 (x : Number) : string :=
  match x with
  | S754_nan => "NaN"
  | S754_infinity neg => if neg then "-Infinity" else "Infinity"
  | _ =>
      match safeInteger x with
      | Some z => JsString.numeralZ 16 z
      | None => Number_toString16 engine x
      end
  end.

(** [toHex(num)]. *)
Definition toHex (num : Number) : string := "0x" ++ toString16 num.

(** [v.toString(16)] on a field value. A string ignores the argument. *)
Definition method_toString16 (v : value) : Completion string :=
  match v with
  | VNum x => Normal (toString16 x)
  | VStr s => Normal s
  | VUndefined =>
      Throws (typeError ("Cannot read properties of undefined (reading 'toString')"))
  | VNull =>
      Throws (typeError ("Cannot read properties of null (reading 'toString')"))
  end.

(** [v.slice(2)] on a field value: only strings have [slice]. *)
Definition method_slice2 (v : value) (what : string) : Completion string :=
  match v with
  | VStr s => Normal (JsString.slice s 2)
  | VNum _ => Throws (typeError (what ++ ".slice is not a function"))
  | VUndefined =>
      Throws (typeError ("Cannot read properties of undefined (reading 'slice')"))
  | VNull =>
      Throws (typeError ("Cannot read properties of null (reading 'slice')"))
  end.

(** [v.length]: the length of a string; [undefined] on a Number. *)
Definition prop_length (v : value) : Completion value :=
  match v with
  | VStr s => Normal (VNum (ofZ (Z.of_nat (String.length s))))
  | VNum _ => Normal VUndefined
  | VUndefined =>
      Throws (typeError ("Cannot read properties of undefined (reading 'length')"))
  | VNull =>
      Throws (typeError ("Cannot read properties of null (reading 'length')"))
  end.

(** ToNumber on what [prop_length] returns. *)
Definition toNumber (v : value) : Number :=
  match v with
  | VNum x => x
  | _ => NaN
  end.

(** [padHex(hex, length)], that is [hex.padStart(length, '0')]: only a
    string has [padStart]. *)
Definition padHex (hex : value) (length : nat) : Completion string :=
  match hex with
  | VStr s => Normal (JsString.padStart s length "0")
  | VNum _ => Throws (typeError "hex.padStart is not a function")
  | VUndefined =>
      Throws (typeError ("Cannot read properties of undefined (reading 'padStart')"))
  | VNull =>
      Throws (typeError ("Cannot read properties of null (reading 'padStart')"))
  end.

(** The selector table of [encodeFunctionCall]. *)
Definition functionSignatures : list (string * string) :=
  [ ("approve", "0x095ea7b3");
    ("balanceOf", "0x70a08231");
    ("decimals", "0x313ce567");
    ("depositForBurnWithCaller", "0x8c7af8a5");
    ("depositForBurnWithHook", "0x1f9014c5") ].

(** The property names an object literal inherits from [Object.prototype]. *)
Definition objectPrototypeNames : list string :=
  [ "constructor"; "toString"; "toLocaleString"; "valueOf"; "hasOwnProperty";
    "isPrototypeOf"; "propertyIsEnumerable"; "__proto__";
    "__defineGetter__"; "__defineSetter__"; "__lookupGetter__"; "__lookupSetter__" ].

(** [functionSignatures[functionName]]: own entries first, then the
    prototype chain. *)
Definition signatureOf (functionName : string) : Encoded :=
  match Registry.lookupName functionSignatures functionName with
  | Some sig => EStr sig
  | None =>
      if existsb (String.eqb functionName) objectPrototypeNames
      then EBuiltin functionName
      else EUndefined
  end.

(** [encodeFunctionCall(functionName, params)].

    The source first reads [data = functionSignatures[functionName]] and
    then branches on [functionName]; every branch name is an own entry
    of the table, so inside a branch [data] is that entry's string, and a
    name outside the table reaches no branch and returns [data] as read. *)
Definition encodeFunctionCall (functionName : string) (params : Params)
  : Completion Encoded :=
  match signatureOf functionName with
  | EStr data =>
      if String.eqb functionName "approve" then
        spender <- method_slice2 (field params "spender") "params.spender" ;;
        w1 <- padHex (VStr spender) 64 ;;
        amount <- method_toString16 (field params "amount") ;;
        w2 <- padHex (VStr amount) 64 ;;
        Normal (EStr (data ++ w1 ++ w2))
      else if String.eqb functionName "balanceOf" then
        account <- method_slice2 (field params "account") "params.account" ;;
        w1 <- padHex (VStr account) 64 ;;
        Normal (EStr (data ++ w1))
      else if String.eqb functionName "depositForBurnWithCaller" then
        amount <- method_toString16 (field params "amount") ;;
        w1 <- padHex (VStr amount) 64 ;;
        dom <- method_toString16 (field params "destinationDomain") ;;
        w2 <- padHex (VStr dom) 64 ;;
        w3 <- method_slice2 (field params "mintRecipient") "params.mintRecipient" ;;
        token <- method_slice2 (field params "burnToken") "params.burnToken" ;;
        w4 <- padHex (VStr token) 64 ;;
        w5 <- method_slice2 (field params "destinationCaller") "params.destinationCaller" ;;
        Normal (EStr (data ++ w1 ++ w2 ++ w3 ++ w4 ++ w5))
      else if String.eqb functionName "depositForBurnWithHook" then
        amount <- method_toString16 (field params "amount") ;;
        w1 <- padHex (VStr amount) 64 ;;
        dom <- method_toString16 (field params "destinationDomain") ;;
        w2 <- padHex (VStr dom) 64 ;;
        w3 <- method_slice2 (field params "mintRecipient") "params.mintRecipient" ;;
        token <- method_slice2 (field params "burnToken") "params.burnToken" ;;
        w4 <- padHex (VStr token) 64 ;;
        w5 <- padHex (VStr "80") 64 ;;
        len <- prop_length (field params "hookData") ;;
        w6 <- padHex (VNum (div (sub (toNumber len) (ofZ 2)) (ofZ 2))) 64 ;;
        w7 <- method_slice2 (field params "hookData") "params.hookData" ;;
        Normal (EStr (data ++ w1 ++ w2 ++ w3 ++ w4 ++ w5 ++ w6 ++ w7))
      else Normal (EStr data)
  | other => Normal other
  end.

End WithEngine.

End Encoder.

(** ** The wallet provider ([window.ethereum]) *)

(** A transaction receipt as JSON-RPC returns it; [status] is ["0x1"] for a
    successful transaction and ["0x0"] for a reverted one. *)
Record Receipt := {
  status : string;
  transactionHash : string;
  blockNumber : string
}.

(** What a provider request resolves with: [null], a string (chain id, call
    result, transaction hash) or a receipt object. *)
Inductive RpcValue :=
| RNull
| RStr (s : string)
| RReceipt (r : Receipt).

(** ToBoolean. *)
Definition truthy (v : RpcValue) : bool :=
  match v with
  | RNull => false
  | RStr s => negb (String.eqb s "")
  | RReceipt _ => true
  end.

(** The requests the gateway sends, with the parameters it passes. *)
Inductive Request :=
| eth_requestAccounts
| eth_chainId
| eth_call (to : string) (data : Encoded)
| eth_sendTransaction (from to : string) (data : Encoded)
| eth_getTransactionReceipt (tx : RpcValue)
| wallet_switchEthereumChain (chainId : string).

(** How the promise of a request settles: resolved with a value, or rejected
    with whatever the wallet passes to [reject]. *)
Inductive Response :=
| Resolves (v : RpcValue)
| Rejects (e : Thrown).

(** A request the wallet rejects with [undefined] or [null], that is, with
    nothing a [catch] block could read a property of. *)
Definition dismissed (r : Response) : bool :=
  match r with
  | Rejects err => nullish err
  | Resolves _ => false
  end.

(** The provider is an external collaborator: any function from the requests
    made so far and the current request to a response. Every request is taken
    to settle. *)
Definition Provider := list Request -> Request -> Response.

(** ** Component state and the observable world *)

Inductive StatusKind := pending | success | error.

Record Details := {
  d_from : string;
  d_to : string;
  d_amount : string;
  d_recipient : string;
  d_txHash : RpcValue;
  d_estimatedTime : string;
  d_hook : string
}.

Record TransactionStatus := {
  ts_status : StatusKind;
  ts_message : string;
  ts_details : option Details;
  ts_attestationReceived : bool
}.

(** Callbacks handed to [setTimeout] and not awaited. *)
Inductive Timer :=
| AttestationReceived
| RefreshBalances (address : string).

(** The state values a render closes over: what the handlers created by that
    render read. *)
Record Component := {
  account : option string;
  sourceChain : Z;
  destinationChain : Z;
  amount : string;
  merchantAddress : string;
  selectedHook : option string;
  fastTransferEnabled : bool;
  isProcessing : bool;
  balances : gmap Z string
}.

(** Everything a handler can change: the requests sent to the provider
    (oldest first), the time spent sleeping, alerts, console errors, the
    latest React state written through the setters, and scheduled timers. *)
Record World := mkWorld {
  requests : list Request;
  elapsed : Z;
  alerts : list string;
  console : list (string * Thrown);
  st_transactionStatus : option TransactionStatus;
  st_isProcessing : bool;
  st_balances : gmap Z string;
  timers : list (Z * Timer)
}.

(** ** Asynchronous computations *)

(** The state of the promise an async function returns. [Awaiting]: the
    function is still suspended in a polling loop when the observation
    budget (the loop fuel) ends. *)
Inductive Outcome (A : Type) :=
| Fulfilled (a : A)
| Rejected (e : Thrown)
| Awaiting.
Arguments Fulfilled {A} a.
Arguments Rejected {A} e.
Arguments Awaiting {A}.

Definition M (A : Type) : Type := Provider -> World -> Outcome A * World.

Definition ret {A} (a : A) : M A := fun _ w => (Fulfilled a, w).

Definition bind {A B} (m : M A) (k : A -> M B) : M B :=
  fun p w =>
    match m p w with
    | (Fulfilled a, w') => k a p w'
    | (Rejected e, w') => (Rejected e, w')
    | (Awaiting, w') => (Awaiting, w')
    end.

Declare Scope flow_scope.
Delimit Scope flow_scope with flow.
Notation "x <- m ;; k" := (bind m (fun x => k))
  (at level 100, m at next level, right associativity) : flow_scope.
Notation "m ;;; k" := (bind m (fun _ => k))
  (at level 100, right associativity) : flow_scope.

(** A synchronous computation inside an async function. *)
Definition liftC {A} (c : Completion A) : M A :=
  fun _ w =>
    match c with
    | Normal a => (Fulfilled a, w)
    | Throws e => (Rejected (ThrownError e), w)
    end.

Definition suspended {A} : M A := fun _ w => (Awaiting, w).

(** [try { body } catch (error) { handler }]. *)
Definition tryCatch {A} (body : M A) (handler : Thrown -> M A) : M A :=
  fun p w =>
    match body p w with
    | (Rejected e, w') => handler e p w'
    | other => other
    end.

(** [try { body } finally { cleanup }]. *)
Definition tryFinally {A} (body : M A) (cleanup : M unit) : M A :=
  fun p w =>
    match body p w with
    | (Awaiting, w') => (Awaiting, w')
    | (o, w') =>
        match cleanup p w' with
        | (Fulfilled _, w'') => (o, w'')
        | (Rejected e, w'') => (Rejected e, w'')
        | (Awaiting, w'') => (Awaiting, w'')
        end
    end.

Definition modify (f : World -> World) : M unit := fun _ w => (Fulfilled tt, f w).

(** The world once request [r] has been sent. *)
Definition sent (r : Request) (w : World) : World :=
  mkWorld (requests w ++ [r]) (elapsed w) (alerts w) (console w)
          (st_transactionStatus w) (st_isProcessing w) (st_balances w) (timers w).

(** [await window.ethereum.request(r)]. *)
Definition request (r : Request) : M RpcValue :=
  fun p w =>
    match p (requests w) r with
    | Resolves v => (Fulfilled v, sent r w)
    | Rejects e => (Rejected e, sent r w)
    end.

(** [await new Promise(resolve => setTimeout(resolve, ms))]. *)
Definition sleep (ms : Z) : M unit :=
  modify (fun w => mkWorld (requests w) (elapsed w + ms) (alerts w) (console w)
                           (st_transactionStatus w) (st_isProcessing w) (st_balances w)
                           (timers w)).

Definition alert (msg : string) : M unit :=
  modify (fun w => mkWorld (requests w) (elapsed w) (alerts w ++ [msg]) (console w)
                           (st_transactionStatus w) (st_isProcessing w) (st_balances w)
                           (timers w)).

(** [console.error(label, error)]. *)
Definition console_error (label : string) (e : Thrown) : M unit :=
  modify (fun w => mkWorld (requests w) (elapsed w) (alerts w) (console w ++ [(label, e)])
                           (st_transactionStatus w) (st_isProcessing w) (st_balances w)
                           (timers w)).

Definition setTransactionStatus (f : option TransactionStatus -> option TransactionStatus)
  : M unit :=
  modify (fun w => mkWorld (requests w) (elapsed w) (alerts w) (console w)
                           (f (st_transactionStatus w)) (st_isProcessing w) (st_balances w)
                           (timers w)).

Definition setIsProcessing (b : bool) : M unit :=
  modify (fun w => mkWorld (requests w) (elapsed w) (alerts w) (console w)
                           (st_transactionStatus w) b (st_balances w) (timers w)).

Definition setBalances (f : gmap Z string -> gmap Z string) : M unit :=
  modify (fun w => mkWorld (requests w) (elapsed w) (alerts w) (console w)
                           (st_transactionStatus w) (st_isProcessing w) (f (st_balances w))
                           (timers w)).

(** [setTimeout(callback, ms)] with a callback that is not awaited. *)
Definition setTimeout (t : Timer) (ms : Z) : M unit :=
  modify (fun w => mkWorld (requests w) (elapsed w) (alerts w) (console w)
                           (st_transactionStatus w) (st_isProcessing w) (st_balances w)
                           (timers w ++ [(ms, t)])).

Definition statusOf (kind : StatusKind) (msg : string) : option TransactionStatus :=
  Some {| ts_status := kind; ts_message := msg; ts_details := None;
          ts_attestationReceived := false |}.

(** ** The gateway component *)

Module Gateway.

Import JsNumber Registry Encoder.
Local Open Scope flow_scope.

(** ToString of a provider value, as string coercions see it. *)
Definition rpcToString (v : RpcValue) : string :=
  match v with
  | RNull => "null"
  | RStr s => s
  | RReceipt _ => "[object Object]"
  end.

(** A string of digits of the given base and nothing else. *)
Definition wholeNumeral (radix : Z) (s : string) : option Z :=
  match JsString.spanDigits radix s with
  | (String _ _ as ds, EmptyString) => Some (JsString.digitsValue radix 0 ds)
  | _ => None
  end.

(** StringToBigInt: white space is trimmed; the empty string is [0n]; a
    [0x], [0o] or [0b] literal, or a decimal integer with an optional sign. *)
Definition stringToBigInt (s : string) : option Z :=
  let t := JsString.trim s in
  match t with
  | EmptyString => Some 0
  | _ =>
      if JsString.startsWith "0x" t || JsString.startsWith "0X" t
      then wholeNumeral 16 (JsString.slice t 2)
      else if JsString.startsWith "0o" t || JsString.startsWith "0O" t
      then wholeNumeral 8 (JsString.slice t 2)
      else if JsString.startsWith "0b" t || JsString.startsWith "0B" t
      then wholeNumeral 2 (JsString.slice t 2)
      else
        match t with
        | String "-" r => option_map Z.opp (wholeNumeral 10 r)
        | String "+" r => wholeNumeral 10 r
        | _ => wholeNumeral 10 t
        end
  end.

(** [BigInt(v)]. *)
Definition BigInt (v : RpcValue) : Completion Z :=
  match v with
  | RNull => Throws (typeError "Cannot convert null to a BigInt")
  | _ =>
      match stringToBigInt (rpcToString v) with
      | Some z => Normal z
      | None => Throws (syntaxError ("Cannot convert " ++ rpcToString v ++ " to a BigInt"))
      end
  end.

(** [parseHexResponse(hex)]. *)
Definition parseHexResponse (hex : RpcValue) : Completion string :=
  if negb (truthy hex) || (match hex with RStr "0x" => true | _ => false end)
  then Normal "0"
  else cbind (BigInt hex) (fun z => Normal (JsString.numeralZ 10 z)).

(** [fromHex(hex)] on what the provider returned. *)
Definition fromHexRpc (hex : RpcValue) : Number := fromHex (rpcToString hex).

(** [x || '0'] on a balance read from the [balances] object. *)
Definition orZero (cached : option string) : string :=
  match cached with
  | Some (String _ _ as s) => s
  | _ => "0"
  end.

(** Truthiness of [selectedHook]. *)
Definition hookSelected (hook : option string) : bool :=
  match hook with
  | Some (String _ _) => true
  | _ => false
  end.

(** [error.code] on a caught value: reading a property of [undefined] or
    [null] throws; a primitive has no [code]. *)
Definition codeOf (err : Thrown) : Completion (option Z) :=
  match err with
  | ThrownError e => Normal (errCode e)
  | ThrownValue VUndefined =>
      Throws (typeError "Cannot read properties of undefined (reading 'code')")
  | ThrownValue VNull =>
      Throws (typeError "Cannot read properties of null (reading 'code')")
  | ThrownValue _ => Normal None
  end.

(** [m || 'Unknown error'] on the [message] of an error object. *)
Definition messageOf (e : JsError) : string :=
  match errMessage e with
  | Some (String _ _ as m) => m
  | _ => "Unknown error"
  end.

(** [error.message || 'Unknown error'] on a caught value: reading a
    property of [undefined] or [null] throws; a primitive has no
    [message]. *)
Definition caughtMessage (err : Thrown) : Completion string :=
  match err with
  | ThrownError e => Normal (messageOf e)
  | ThrownValue VUndefined =>
      Throws (typeError "Cannot read properties of undefined (reading 'message')")
  | ThrownValue VNull =>
      Throws (typeError "Cannot read properties of null (reading 'message')")
  | ThrownValue _ => Normal "Unknown error"
  end.

(** Truthiness of [account]. *)
Definition connected (acct : option string) : option string :=
  match acct with
  | Some (String _ _ as a) => Some a
  | _ => None
  end.

Section WithEngine.

Variable engine : Engine.

(** [getUSDCBalance(address, chainId)]. *)
Definition getUSDCBalance (address : string) (chainId : Z) : M string :=
  tryCatch
    (let config := chainConfig chainId in
     balanceData <- liftC (encodeFunctionCall engine "balanceOf"
                             {[ "account" := VStr address ]}) ;;
     to <- liftC (prop config usdc "usdc") ;;
     balanceResult <- request (eth_call to balanceData) ;;
     decimalsData <- liftC (encodeFunctionCall engine "decimals" ∅) ;;
     decimalsResult <- request (eth_call to decimalsData) ;;
     balance <- liftC (parseHexResponse balanceResult) ;;
     decimalsText <- liftC (parseHexResponse decimalsResult) ;;
     let decimals := parseInt decimalsText None in
     ret (Number_toFixed engine
            (div (parseFloat balance) (Math_pow engine (ofZ 10) decimals)) 2))
    (fun err =>
       console_error ("Error fetching balance for chain "
                        ++ JsString.numeralZ 10 chainId ++ ":") err ;;;
       ret "0").

(** The loop of [updateBalances] over [Object.keys(CHAIN_CONFIG)]. *)
Definition cachedOthers (cached : gmap Z string) (current : option Z)
    (newBalances : gmap Z string) : gmap Z string :=
  fold_left
    (fun acc chainId =>
       if bool_decide (current = Some chainId) then acc
       else <[ chainId := orZero (cached !! chainId) ]> acc)
    chainIds newBalances.

(** [updateBalances(address)], in a closure whose [balances] is [cached]. *)
Definition updateBalances (cached : gmap Z string) (address : string) : M unit :=
  currentChainId <- request eth_chainId ;;
  let currentChainIdDec := propertyKey (fromHexRpc currentChainId) in
  newBalances <-
    match currentChainIdDec with
    | Some cur =>
        match chainConfig cur with
        | Some _ =>
            balance <- getUSDCBalance address cur ;;
            ret (<[ cur := balance ]> (∅ : gmap Z string))
        | None => ret ∅
        end
    | None => ret ∅
    end ;;
  setBalances (fun _ => cachedOthers cached currentChainIdDec newBalances).

(** [switchNetwork(chainId)]. *)
Definition switchNetwork (c : Component) (chainId : Z) : M unit :=
  tryCatch
    (target <- liftC (prop (chainConfig chainId) chainIdHex "chainIdHex") ;;
     _ <- request (wallet_switchEthereumChain target) ;;
     match connected (account c) with
     | Some acct =>
         balance <- getUSDCBalance acct chainId ;;
         setBalances (fun prev => <[ chainId := balance ]> prev)
     | None => ret tt
     end)
    (fun err =>
       code <- liftC (codeOf err) ;;
       (if bool_decide (code = Some 4902)
        then alert "Please add this network to MetaMask"
        else ret tt) ;;;
       console_error "Error switching network:" err).

(** The receipt loops of [processPayment]:
    [do { await sleep(2000); receipt = await request(...) } while (!receipt)].
    [fuel] bounds the iterations observed, not the loop. *)
Fixpoint pollReceipt (fuel : nat) (tx : RpcValue) : M RpcValue :=
  match fuel with
  | O => suspended
  | S fuel' =>
      sleep 2000 ;;;
      receipt <- request (eth_getTransactionReceipt tx) ;;
      if truthy receipt then ret receipt else pollReceipt fuel' tx
  end.

(** [Math.floor(parseFloat(amount) * 1e6)]. *)
Definition amountInUnits (amount : string) : Number :=
  Math_floor (mul (parseFloat amount) (ofZ 1000000)).

Definition zeroAddress : string := "0x0000000000000000000000000000000000000000".

(** The call data of the burn transaction (the [if]/[else] on
    [selectedHook && fastTransferEnabled]). *)
Definition burnData (c : Component) : Completion Encoded :=
  let sourceConfig := chainConfig (sourceChain c) in
  let destinationConfig := chainConfig (destinationChain c) in
  let mintRecipient := addressToBytes32 (merchantAddress c) in
  if hookSelected (selectedHook c) && fastTransferEnabled c then
    (dom <- prop destinationConfig domain "domain" ;;
     token <- prop sourceConfig usdc "usdc" ;;
     data <- prop (hookTemplate (default "" (selectedHook c))) hookData "hookData" ;;
     encodeFunctionCall engine "depositForBurnWithHook"
       {[ "amount" := VNum (amountInUnits (amount c));
          "destinationDomain" := VNum (ofZ dom);
          "mintRecipient" := VStr mintRecipient;
          "burnToken" := VStr token;
          "hookData" := VStr data ]})%completion
  else
    (let destinationCaller := addressToBytes32 zeroAddress in
     dom <- prop destinationConfig domain "domain" ;;
     token <- prop sourceConfig usdc "usdc" ;;
     encodeFunctionCall engine "depositForBurnWithCaller"
       {[ "amount" := VNum (amountInUnits (amount c));
          "destinationDomain" := VNum (ofZ dom);
          "mintRecipient" := VStr mintRecipient;
          "burnToken" := VStr token;
          "destinationCaller" := VStr destinationCaller ]})%completion.

(** The [details] of the success status. *)
Definition successDetails (c : Component) (burnTx : RpcValue) : Completion Details :=
  (from <- prop (chainConfig (sourceChain c)) name "name" ;;
   to <- prop (chainConfig (destinationChain c)) name "name" ;;
   hook <- (if hookSelected (selectedHook c)
            then prop (hookTemplate (default "" (selectedHook c))) hookName "name"
            else Normal "None") ;;
   Normal {| d_from := from; d_to := to;
             d_amount := amount c ++ " USDC";
             d_recipient := merchantAddress c;
             d_txHash := burnTx;
             d_estimatedTime :=
               if fastTransferEnabled c then "~10 seconds" else "~15 minutes";
             d_hook := hook |})%completion.

(** Step 1 of the [try] block: approve USDC and wait for the receipt. *)
Definition approveStep (fuel : nat) (c : Component) (acct : string) : M unit :=
  let sourceConfig := chainConfig (sourceChain c) in
  setTransactionStatus (fun _ => statusOf pending "Approving USDC...") ;;;
  approveData <- liftC (spender <- prop sourceConfig tokenMessenger "tokenMessenger" ;;
                        encodeFunctionCall engine "approve"
                          {[ "spender" := VStr spender;
                             "amount" := VNum (amountInUnits (amount c)) ]})%completion ;;
  token <- liftC (prop sourceConfig usdc "usdc") ;;
  approveTx <- request (eth_sendTransaction acct token approveData) ;;
  _ <- pollReceipt fuel approveTx ;;
  ret tt.

(** The end of step 2, once the burn receipt is there: report success
    and schedule the follow-up timers. *)
Definition reportSuccess (c : Component) (acct : string) (burnTx : RpcValue) : M unit :=
  details <- liftC (successDetails c burnTx) ;;
  setTransactionStatus
    (fun _ => Some {| ts_status := success;
                      ts_message := "Payment sent successfully!";
                      ts_details := Some details;
                      ts_attestationReceived := false |}) ;;;
  (if fastTransferEnabled c then setTimeout AttestationReceived 5000 else ret tt) ;;;
  setTimeout (RefreshBalances acct) 10000.

(** Step 2 of the [try] block: submit the burn and wait for its receipt. *)
Definition burnStep (fuel : nat) (c : Component) (acct : string) : M unit :=
  let sourceConfig := chainConfig (sourceChain c) in
  setTransactionStatus
    (fun _ => statusOf pending
                (if fastTransferEnabled c then "Initiating Fast Transfer..."
                 else "Initiating Standard Transfer...")) ;;;
  data <- liftC (burnData c) ;;
  messenger <- liftC (prop sourceConfig tokenMessenger "tokenMessenger") ;;
  burnTx <- request (eth_sendTransaction acct messenger data) ;;
  _ <- pollReceipt fuel burnTx ;;
  reportSuccess c acct burnTx.

(** The body of the [try] block of [processPayment]. *)
Definition paymentSteps (fuel : nat) (c : Component) (acct : string) : M unit :=
  switchNetwork c (sourceChain c) ;;;
  approveStep fuel c acct ;;;
  burnStep fuel c acct.

(** [processPayment()]. *)
Definition processPayment (fuel : nat) (c : Component) : M unit :=
  match connected (account c) with
  | None => alert "Please connect your wallet first"
  | Some acct =>
      setIsProcessing true ;;;
      setTransactionStatus (fun _ => statusOf pending "Initiating payment...") ;;;
      tryFinally
        (tryCatch
           (paymentSteps fuel c acct)
           (fun err =>
              console_error "Payment error:" err ;;;
              message <- liftC (caughtMessage err) ;;
              setTransactionStatus
                (fun _ => statusOf error ("Payment failed: " ++ message))))
        (setIsProcessing false)
  end.

(** The [disabled] attribute of the Process Payment button. *)
Definition payDisabled (c : Component) : bool :=
  negb (bool_decide (is_Some (connected (account c))))
  || isProcessing c
  || String.eqb (amount c) ""
  || leb (parseFloat (amount c)) (ofZ 0).

(** A click on the Process Payment button: a disabled button does not
    call its handler. *)
Definition clickProcessPayment (fuel : nat) (c : Component) : M unit :=
  if payDisabled c then ret tt else processPayment fuel c.

(** What a scheduled callback does when its timer fires. *)
Definition fireTimer (c : Component) (t : Timer) : M unit :=
  match t with
  | AttestationReceived =>
      setTransactionStatus
        (fun prev =>
           Some {| ts_status := from_option ts_status pending prev;
                   ts_message := "Transfer completed! Funds received on destination chain.";
                   ts_details := prev ≫= ts_details;
                   ts_attestationReceived := true |})
  | RefreshBalances address => updateBalances (balances c) address
  end.

End WithEngine.

End Gateway.

(** ** Instances for the closed examples *)

#[global] Instance Receipt_eq_dec : EqDecision Receipt.
Proof. solve_decision. Defined.

#[global] Instance RpcValue_eq_dec : EqDecision RpcValue.
Proof. solve_decision. Defined.

(** An engine that prints exact digits wherever ECMAScript leaves room. *)
Module ReferenceEngine.

Import JsNumber.

Fixpoint fractionDigits (fuel : nat) (radix r d : Z) : string :=
  match fuel with
  | O => ""
  | S fuel' =>
      if r =? 0 then ""
      else String (JsString.digitChar (r * radix / d))
                  (fractionDigits fuel' radix ((r * radix) mod d) d)
  end.

Definition toString16 (x : Number) : string :=
  match x with
  | S754_finite s m e =>
      let sign := if s then "-" else "" in
      if 0 <=? e then sign ++ JsString.numeral 16 (Z.pos m * 2 ^ e)
      else
        let d := 2 ^ (- e) in
        let frac := fractionDigits (Z.to_nat (- e)) 16 (Z.pos m mod d) d in
        sign ++ JsString.numeral 16 (Z.pos m / d)
             ++ (match frac with EmptyString => "" | _ => "." ++ frac end)
  | S754_zero _ => "0"
  | S754_nan => "NaN"
  | S754_infinity s => if s then "-Infinity" else "Infinity"
  end.

Definition pow (b x : Number) : Number :=
  match safeInteger b, safeInteger x with
  | Some bz, Some xz =>
      if 0 <=? xz then ofZ (bz ^ xz)
      else div (ofZ 1) (ofZ (bz ^ (- xz)))
  | _, _ => NaN
  end.

(** [x.toFixed(digits)] for magnitudes below 10^21 (larger ones, which
    ECMAScript prints in exponent notation, do not occur in the examples):
    the sign of a negative number is kept even when its digits round to
    zero. *)
Definition toFixed (x : Number) (digits : nat) : string :=
  let scale := 10 ^ Z.of_nat digits in
  let render (neg : bool) (n : Z) :=
    (if neg then "-" else "")
      ++ JsString.numeral 10 (n / scale)
      ++ (match digits with
          | O => ""
          | _ => "." ++ JsString.padStart (JsString.numeral 10 (n mod scale)) digits "0"
          end) in
  match x with
  | S754_finite s m e =>
      if 0 <=? e then render s (Z.pos m * 2 ^ e * scale)
      else render s ((2 * Z.pos m * scale + 2 ^ (- e)) / (2 * 2 ^ (- e)))
  | S754_zero _ => render false 0
  | S754_nan => "NaN"
  | S754_infinity s => if s then "-Infinity" else "Infinity"
  end.

Definition engine : Engine :=
  {| Number_toString16 := toString16; Math_pow := pow; Number_toFixed := toFixed |}.

End ReferenceEngine.

(** Scripted wallets. *)
Module Wallets.

(** How many receipt requests were made since the last request of another
    kind; [newestFirst] is the history, newest request first. *)
Fixpoint trailingPolls (newestFirst : list Request) : nat :=
  match newestFirst with
  | eth_getTransactionReceipt _ :: rest => S (trailingPolls rest)
  | _ => O
  end.

Definition pollsSinceSubmission (history : list Request) : nat :=
  trailingPolls (rev history).

(** A wallet on chain [chain] whose USDC contract reports [balance] with 6
    decimals, that accepts every transaction, and whose transactions are
    mined with receipt status [receiptStatus] when their receipt is asked for
    the [S k]-th time. *)
Definition mining (chain balance : string) (k : nat) (receiptStatus : string)
  : Provider :=
  fun history req =>
    match req with
    | eth_requestAccounts => Resolves RNull
    | eth_chainId => Resolves (RStr chain)
    | eth_call _ (EStr data) =>
        if JsString.startsWith "0x70a08231" data then Resolves (RStr balance)
        else Resolves (RStr "0x6")
    | eth_call _ _ => Resolves (RStr "0x")
    | eth_sendTransaction _ _ _ =>
        Resolves (RStr ("0xtx" ++ JsString.numeral 10 (Z.of_nat (List.length history))))
    | eth_getTransactionReceipt tx =>
        if (k <=? pollsSinceSubmission history)%nat
        then Resolves (RReceipt {| status := receiptStatus;
                                   transactionHash := Gateway.rpcToString tx;
                                   blockNumber := "0x10" |})
        else Resolves RNull
    | wallet_switchEthereumChain _ => Resolves RNull
    end.




(** The chain a wallet is on after the switches among the requests
    [history] (oldest first), starting on [chain]. *)
Fixpoint lastSwitch (chain : string) (history : list Request) : string :=
  match history with
  | wallet_switchEthereumChain target :: rest => lastSwitch target rest
  | _ :: rest => lastSwitch chain rest
  | [] => chain
  end.

(** A wallet that performs every switch it is asked for and reports the
    chain it is on; the account holds [balance] on every chain and every
    transaction is mined at once. *)
Definition following (home balance : string) : Provider :=
  fun history req =>
    match req with
    | eth_chainId => Resolves (RStr (lastSwitch home history))
    | _ => mining home balance 0 "0x1" history req
    end.

(** A wallet that rejects every network switch without giving a reason:
    [reject()] passes [undefined]. *)
Definition dismissesSwitch (chain balance : string) : Provider :=
  fun history req =>
    match req with
    | wallet_switchEthereumChain _ => Rejects (ThrownValue VUndefined)
    | _ => mining chain balance 0 "0x1" history req
    end.


End Wallets.

(** The initial state of the component ([useState] defaults), with a
    connected account. *)
Definition defaultComponent (acct : string) : Component :=
  {| account := Some acct;
     sourceChain := 1;
     destinationChain := 42161;
     amount := "100";
     merchantAddress := "0x742d35Cc6634C0532925a3b844Bc9e7595f8C2B2";
     selectedHook := Some "treasuryRebalance";
     fastTransferEnabled := true;
     isProcessing := false;
     balances := ∅ |}.

Definition emptyWorld : World :=
  mkWorld [] 0 [] [] None false ∅ [].

(** The world after [n] rounds of a receipt loop on [tx]: [n] requests, each
    after a two-second sleep. *)
Definition afterPolls (n : nat) (tx : RpcValue) (w : World) : World :=
  mkWorld (requests w ++ replicate n (eth_getTransactionReceipt tx))
          (elapsed w + 2000 * Z.of_nat n) (alerts w) (console w)
          (st_transactionStatus w) (st_isProcessing w) (st_balances w) (timers w).

(** A provider that answers as [p] does, except that every receipt it
    returns for [eth_getTransactionReceipt] is rewritten by [f]. *)
Definition rewriteReceipts (f : Receipt -> Receipt) (p : Provider) : Provider :=
  fun history req =>
    match req, p history req with
    | eth_getTransactionReceipt _, Resolves (RReceipt r) => Resolves (RReceipt (f r))
    | _, response => response
    end.

(** ** The form controls *)

Module Form.

(** The keys [Object.entries] enumerates: property names are strings. *)
Definition chainKeys : list string := map (JsString.numeralZ 10) Registry.chainIds.

Definition hookKeys : list string := map fst Registry.HOOK_TEMPLATES.

(** The controls of the payment form: the "Pay From" and "Settle To"
    buttons (one per entry of [CHAIN_CONFIG]), the two inputs, the Fast
    Transfer toggle and the hook buttons (one per entry of
    [HOOK_TEMPLATES]). *)
Inductive Control :=
| PayFrom (chainId : string)
| SettleTo (chainId : string)
| AmountInput (text : string)
| MerchantInput (text : string)
| FastTransferToggle
| HookButton (key : string).

(** [parseInt(chainId) === sourceChain], the chain ids of the component
    state being integers. *)
Definition isChain (chainId : string) (chain : Z) : bool :=
  bool_decide (JsNumber.integerValue (JsNumber.parseInt chainId None) = Some chain).

(** Whether the render of state [c] shows the control, enabled. The
    "Settle To" button of the source chain is disabled; the hook buttons
    are rendered in FAST mode only. *)
Definition offered (c : Component) (control : Control) : bool :=
  match control with
  | PayFrom chainId => existsb (String.eqb chainId) chainKeys
  | SettleTo chainId =>
      existsb (String.eqb chainId) chainKeys && negb (isChain chainId (sourceChain c))
  | AmountInput _ | MerchantInput _ | FastTransferToggle => true
  | HookButton key => fastTransferEnabled c && existsb (String.eqb key) hookKeys
  end.

Definition setSourceChain (chain : Z) (c : Component) : Component :=
  {| account := account c; sourceChain := chain;
     destinationChain := destinationChain c; amount := amount c;
     merchantAddress := merchantAddress c; selectedHook := selectedHook c;
     fastTransferEnabled := fastTransferEnabled c; isProcessing := isProcessing c;
     balances := balances c |}.

Definition setDestinationChain (chain : Z) (c : Component) : Component :=
  {| account := account c; sourceChain := sourceChain c;
     destinationChain := chain; amount := amount c;
     merchantAddress := merchantAddress c; selectedHook := selectedHook c;
     fastTransferEnabled := fastTransferEnabled c; isProcessing := isProcessing c;
     balances := balances c |}.

Definition setAmount (text : string) (c : Component) : Component :=
  {| account := account c; sourceChain := sourceChain c;
     destinationChain := destinationChain c; amount := text;
     merchantAddress := merchantAddress c; selectedHook := selectedHook c;
     fastTransferEnabled := fastTransferEnabled c; isProcessing := isProcessing c;
     balances := balances c |}.

Definition setMerchantAddress (text : string) (c : Component) : Component :=
  {| account := account c; sourceChain := sourceChain c;
     destinationChain := destinationChain c; amount := amount c;
     merchantAddress := text; selectedHook := selectedHook c;
     fastTransferEnabled := fastTransferEnabled c; isProcessing := isProcessing c;
     balances := balances c |}.

Definition setSelectedHook (hook : option string) (c : Component) : Component :=
  {| account := account c; sourceChain := sourceChain c;
     destinationChain := destinationChain c; amount := amount c;
     merchantAddress := merchantAddress c; selectedHook := hook;
     fastTransferEnabled := fastTransferEnabled c; isProcessing := isProcessing c;
     balances := balances c |}.

Definition setFastTransferEnabled (enabled : bool) (c : Component) : Component :=
  {| account := account c; sourceChain := sourceChain c;
     destinationChain := destinationChain c; amount := amount c;
     merchantAddress := merchantAddress c; selectedHook := selectedHook c;
     fastTransferEnabled := enabled; isProcessing := isProcessing c;
     balances := balances c |}.

(** The state the control's handler sets, from the state [c] its render
    closed over. [None]: the handler would store a Number that is not an
    integer, which the component state here cannot hold. *)
Definition handle (control : Control) (c : Component) : option Component :=
  match control with
  | PayFrom chainId =>
      chain ← JsNumber.integerValue (JsNumber.parseInt chainId None);
      Some (setSourceChain chain c)
  | SettleTo chainId =>
      chain ← JsNumber.integerValue (JsNumber.parseInt chainId None);
      Some (setDestinationChain chain c)
  | AmountInput text => Some (setAmount text c)
  | MerchantInput text => Some (setMerchantAddress text c)
  | FastTransferToggle => Some (setFastTransferEnabled (negb (fastTransferEnabled c)) c)
  | HookButton key =>
      Some (setSelectedHook
              (if bool_decide (selectedHook c = Some key) then None else Some key) c)
  end.

(** Two states with the same form fields. *)
Definition sameForm (c c' : Component) : Prop :=
  sourceChain c' = sourceChain c
  /\ destinationChain c' = destinationChain c
  /\ amount c' = amount c
  /\ merchantAddress c' = merchantAddress c
  /\ selectedHook c' = selectedHook c
  /\ fastTransferEnabled c' = fastTransferEnabled c.

(** The states the form can be in: the [useState] defaults, what the
    offered controls make of a state, and any change of the fields that are
    not form fields (the account, the processing flag, the balances). *)
Inductive reachable : Component -> Prop :=
| mounted c :
    sourceChain c = 1 -> destinationChain c = 42161 -> amount c = "100" ->
    merchantAddress c = "0x742d35Cc6634C0532925a3b844Bc9e7595f8C2B2" ->
    selectedHook c = Some "treasuryRebalance" -> fastTransferEnabled c = true ->
    reachable c
| operated c control c' :
    reachable c -> offered c control = true -> handle control c = Some c' ->
    reachable c'
| refreshed c c' :
    reachable c -> sameForm c c' -> reachable c'.

(** The "View on Explorer" link of the status panel. It is rendered when
    the status has details with a truthy [txHash], and its address is
    [CHAIN_CONFIG[sourceChain].explorer + '/tx/' + txHash], with the
    [sourceChain] of the render. [Normal None]: no link is rendered. *)
Definition explorerLink (c : Component) (status : option TransactionStatus)
  : Completion (option string) :=
  match status with
  | Some st =>
      match ts_details st with
      | Some details =>
          if truthy (d_txHash details) then
            cbind (Registry.prop (Registry.chainConfig (sourceChain c))
                     Registry.explorer "explorer")
                  (fun base =>
                     Normal (Some (base ++ "/tx/" ++ Gateway.rpcToString (d_txHash details))))
          else Normal None
      | None => Normal None
      end
  | None => Normal None
  end.

End Form.

(** * Reasoning about flows *)

(** ** What a flow leaves unchanged, or only extends *)

Section Respects.

Context (I : World -> World -> Prop) {I_preorder : PreOrder I}.

(** Run against provider [p], [m] takes every world to one related by [I]. *)
Definition respects {A} (p : Provider) (m : M A) : Prop :=
  forall w, I w (m p w).2.

Lemma respects_ret {A} p (a : A) : respects p (ret a).
Proof. intros w. reflexivity. Qed.

Lemma respects_liftC {A} p (c : Completion A) : respects p (liftC c).
Proof. intros w. destruct c; reflexivity. Qed.

Lemma respects_suspended {A} p : respects p (@suspended A).
Proof. intros w. reflexivity. Qed.

Lemma respects_modify p f : (forall w, I w (f w)) -> respects p (modify f).
Proof. intros H w. apply H. Qed.

Lemma respects_bind {A B} p (m : M A) (k : A -> M B) :
  respects p m -> (forall a, respects p (k a)) -> respects p (bind m k).
Proof.
  intros Hm Hk w. unfold bind. specialize (Hm w).
  destruct (m p w) as [[a|e|] w']; simpl in *; auto.
  etransitivity; [exact Hm | apply Hk].
Qed.

(** The continuation only matters for the values the synchronous step can
    produce. *)
Lemma respects_bind_liftC {A B} p (c : Completion A) (k : A -> M B) :
  (forall a, c = Normal a -> respects p (k a)) -> respects p (bind (liftC c) k).
Proof.
  intros Hk w. unfold bind, liftC. destruct c as [a|e]; simpl.
  - apply (Hk a eq_refl).
  - reflexivity.
Qed.

Lemma respects_tryCatch {A} p (body : M A) handler :
  respects p body -> (forall e, respects p (handler e)) ->
  respects p (tryCatch body handler).
Proof.
  intros Hb Hh w. unfold tryCatch. specialize (Hb w).
  destruct (body p w) as [[a|e|] w']; simpl in *; auto.
  etransitivity; [exact Hb | apply Hh].
Qed.

Lemma respects_tryFinally {A} p (body : M A) cleanup :
  respects p body -> respects p cleanup -> respects p (tryFinally body cleanup).
Proof.
  intros Hb Hc w. unfold tryFinally. specialize (Hb w).
  destruct (body p w) as [[a|e|] w']; simpl in *; auto;
    specialize (Hc w'); destruct (cleanup p w') as [[[]|e'|] w'']; simpl in *;
    etransitivity; eauto.
Qed.

Lemma respects_request p r :
  (forall w, I w (sent r w)) -> respects p (request r).
Proof.
  intros H w. unfold request. destruct (p (requests w) r); simpl; apply H.
Qed.

End Respects.

(** A projection of the world that stays as it was. *)
Definition keeps {X} (f : World -> X) : World -> World -> Prop :=
  fun w w' => f w' = f w.

#[global] Instance keeps_preorder {X} (f : World -> X) : PreOrder (keeps f).
Proof. split; [intros w; reflexivity | intros a b c H1 H2; unfold keeps in *; congruence]. Qed.

(** The requests grow, and only by requests satisfying [R]. *)
Definition emitsOnly (R : Request -> Prop) : World -> World -> Prop :=
  fun w w' => exists l : list Request, requests w' = (requests w ++ l)%list /\ Forall R l.

#[global] Instance emitsOnly_preorder R : PreOrder (emitsOnly R).
Proof.
  split.
  - intros w. exists []. rewrite app_nil_r. auto.
  - intros a b c [l1 [E1 F1]] [l2 [E2 F2]]. exists (l1 ++ l2)%list. split.
    + rewrite E2, E1, <- app_assoc. reflexivity.
    + apply Forall_app; auto.
Qed.

Lemma emitsOnly_silent R w w' : requests w' = requests w -> emitsOnly R w w'.
Proof. intros E. exists []. rewrite app_nil_r. auto. Qed.

Lemma emitsOnly_one R (r : Request) w w' :
  R r -> requests w' = (requests w ++ [r])%list -> emitsOnly R w w'.
Proof. intros HR E. exists [r]. auto. Qed.

(** ** Flows that always settle *)

(** [m] never stays suspended. *)
Definition settles {A} (m : M A) : Prop :=
  forall p w, (m p w).1 <> Awaiting.

(** [m] always completes normally. *)
Definition fulfils {A} (m : M A) : Prop :=
  forall p w, exists a, (m p w).1 = Fulfilled a.

Lemma fulfils_settles {A} (m : M A) : fulfils m -> settles m.
Proof. intros H p w. destruct (H p w) as [a E]. rewrite E. discriminate. Qed.

Lemma settles_ret {A} (a : A) : settles (ret a).
Proof. intros p w. discriminate. Qed.

Lemma settles_liftC {A} (c : Completion A) : settles (liftC c).
Proof. intros p w. destruct c; discriminate. Qed.

Lemma settles_modify f : settles (modify f).
Proof. intros p w. discriminate. Qed.

Lemma settles_request r : settles (request r).
Proof. intros p w. unfold request. destruct (p (requests w) r); discriminate. Qed.

Lemma settles_bind {A B} (m : M A) (k : A -> M B) :
  settles m -> (forall a, settles (k a)) -> settles (bind m k).
Proof.
  intros Hm Hk p w. unfold bind. specialize (Hm p w).
  destruct (m p w) as [[a|e|] w']; simpl in *; try discriminate; auto.
  apply Hk.
Qed.

Lemma settles_tryCatch {A} (body : M A) handler :
  settles body -> (forall e, settles (handler e)) -> settles (tryCatch body handler).
Proof.
  intros Hb Hh p w. unfold tryCatch. specialize (Hb p w).
  destruct (body p w) as [[a|e|] w']; simpl in *; try discriminate; auto.
  apply Hh.
Qed.

Lemma fulfils_ret {A} (a : A) : fulfils (ret a).
Proof. intros p w. exists a. reflexivity. Qed.

Lemma fulfils_modify f : fulfils (modify f).
Proof. intros p w. exists tt. reflexivity. Qed.

Lemma fulfils_bind {A B} (m : M A) (k : A -> M B) :
  fulfils m -> (forall a, fulfils (k a)) -> fulfils (bind m k).
Proof.
  intros Hm Hk p w. unfold bind. destruct (Hm p w) as [a Ea].
  destruct (m p w) as [o w']; simpl in *; subst o. apply Hk.
Qed.

Lemma fulfils_tryCatch {A} (body : M A) handler :
  settles body -> (forall e, fulfils (handler e)) -> fulfils (tryCatch body handler).
Proof.
  intros Hb Hh p w. unfold tryCatch. specialize (Hb p w).
  destruct (body p w) as [[a|e|] w']; simpl in *.
  - exists a. reflexivity.
  - apply Hh.
  - congruence.
Qed.

Create HintDb flow discriminated.

#[global] Hint Resolve settles_ret settles_liftC settles_modify settles_request
  fulfils_ret fulfils_modify : flow.
#[global] Hint Resolve respects_ret respects_liftC respects_suspended : flow.

(** ** Stepping through a flow *)

Ltac unfold_effects :=
  unfold sleep, alert, console_error, setTransactionStatus, setIsProcessing,
    setBalances, setTimeout.

(** Decompose a [respects] goal along the structure of the flow; what is left
    are the obligations of its primitive steps. *)
Ltac respects_step :=
  lazymatch goal with
  | |- PreOrder _ => typeclasses eauto
  | |- respects _ _ (ret _) => apply respects_ret
  | |- respects _ _ (liftC _) => apply respects_liftC
  | |- respects _ _ suspended => apply respects_suspended
  | |- respects _ _ (bind (liftC _) _) => apply respects_bind_liftC; [ | intros ? ? ]
  | |- respects _ _ (bind _ _) => apply respects_bind; [ | | intros ? ]
  | |- respects _ _ (tryCatch _ _) => apply respects_tryCatch; [ | | intros ? ]
  | |- respects _ _ (tryFinally _ _) => apply respects_tryFinally
  | |- respects _ _ (modify _) => apply respects_modify; intros ?
  | |- respects _ _ (request _) => apply respects_request; intros ?
  | |- respects _ _ (match ?x with _ => _ end) => destruct x eqn:?
  | |- respects _ _ (if ?x then _ else _) => destruct x eqn:?
  end.

Ltac respects_walk := unfold_effects; repeat respects_step.

Ltac settles_step :=
  lazymatch goal with
  | |- settles (ret _) => apply settles_ret
  | |- settles (liftC _) => apply settles_liftC
  | |- settles (modify _) => apply settles_modify
  | |- settles (request _) => apply settles_request
  | |- settles (bind _ _) => apply settles_bind; [ | intros ? ]
  | |- settles (tryCatch _ _) => apply settles_tryCatch; [ | intros ? ]
  | |- settles (match ?x with _ => _ end) => destruct x eqn:?
  | |- settles (if ?x then _ else _) => destruct x eqn:?
  | |- fulfils (ret _) => apply fulfils_ret
  | |- fulfils (modify _) => apply fulfils_modify
  | |- fulfils (bind _ _) => apply fulfils_bind; [ | intros ? ]
  | |- fulfils (tryCatch _ _) => apply fulfils_tryCatch; [ | intros ? ]
  | |- fulfils (match ?x with _ => _ end) => destruct x eqn:?
  | |- fulfils (if ?x then _ else _) => destruct x eqn:?
  end.

Ltac settles_walk := unfold_effects; repeat settles_step.

(** ** The encoder on the calls the gateway makes *)

Lemma append_assoc (s1 s2 s3 : string) : (s1 ++ s2) ++ s3 = s1 ++ (s2 ++ s3).
Proof.
  induction s1 as [|ch s1 IH]; [reflexivity|].
  change (String ch ((s1 ++ s2) ++ s3) = String ch (s1 ++ (s2 ++ s3))).
  f_equal. exact IH.
Qed.

Section EncoderFacts.

Variable engine : Engine.

Lemma encode_approve spender amt :
  Encoder.encodeFunctionCall engine "approve"
    {[ "spender" := VStr spender; "amount" := VNum amt ]}
  = Normal (EStr ("0x095ea7b3"
                    ++ JsString.padStart (JsString.slice spender 2) 64 "0"
                    ++ JsString.padStart (Encoder.toString16 engine amt) 64 "0")).
Proof. reflexivity. Qed.

Lemma encode_balanceOf address :
  Encoder.encodeFunctionCall engine "balanceOf" {[ "account" := VStr address ]}
  = Normal (EStr ("0x70a08231" ++ JsString.padStart (JsString.slice address 2) 64 "0")).
Proof. reflexivity. Qed.

Lemma encode_decimals params :
  Encoder.encodeFunctionCall engine "decimals" params = Normal (EStr "0x313ce567").
Proof. reflexivity. Qed.

Lemma encode_caller amt dom recipient token caller :
  Encoder.encodeFunctionCall engine "depositForBurnWithCaller"
    {[ "amount" := VNum amt;
       "destinationDomain" := VNum dom;
       "mintRecipient" := VStr recipient;
       "burnToken" := VStr token;
       "destinationCaller" := VStr caller ]}
  = Normal (EStr ("0x8c7af8a5"
                    ++ JsString.padStart (Encoder.toString16 engine amt) 64 "0"
                    ++ JsString.padStart (Encoder.toString16 engine dom) 64 "0"
                    ++ JsString.slice recipient 2
                    ++ JsString.padStart (JsString.slice token 2) 64 "0"
                    ++ JsString.slice caller 2)).
Proof. reflexivity. Qed.

(** The length word of [depositForBurnWithHook] is handed to [padHex] as a
    Number, so the branch throws before it can return, whatever [params]. *)
Lemma encode_hook_throws params :
  exists e, Encoder.encodeFunctionCall engine "depositForBurnWithHook" params = Throws e
            /\ errName e = TypeError.
Proof.
  unfold Encoder.encodeFunctionCall.
  change (Encoder.signatureOf "depositForBurnWithHook") with (EStr "0x1f9014c5").
  cbn [String.eqb Ascii.eqb Bool.eqb].
  destruct (field params "amount"); cbn; eauto;
    destruct (field params "destinationDomain"); cbn; eauto;
    destruct (field params "mintRecipient"); cbn; eauto;
    destruct (field params "burnToken"); cbn; eauto;
    destruct (field params "hookData"); cbn; eauto.
Qed.

End EncoderFacts.

(** ** Balance queries and network switches *)

Section GatewayFacts.

Variable engine : Engine.

Lemma getUSDCBalance_fulfils address chainId :
  fulfils (Gateway.getUSDCBalance engine address chainId).
Proof. unfold Gateway.getUSDCBalance. settles_walk. Qed.

Lemma switchNetwork_settles c chainId :
  settles (Gateway.switchNetwork engine c chainId).
Proof.
  unfold Gateway.switchNetwork. settles_walk.
  apply fulfils_settles, getUSDCBalance_fulfils.
Qed.

(** Neither touches the transaction status, the clock, the processing flag
    or the timers. *)
Lemma getUSDCBalance_keeps {X} (f : World -> X) p address chainId :
  (forall rs a al co ts ip b t rs' co',
      f (mkWorld rs' a al co' ts ip b t) = f (mkWorld rs a al co ts ip b t)) ->
  respects (keeps f) p (Gateway.getUSDCBalance engine address chainId).
Proof.
  intros Hf. unfold Gateway.getUSDCBalance. respects_walk.
  all: match goal with w : World |- _ => destruct w end; unfold keeps; simpl; apply Hf.
Qed.

Lemma switchNetwork_keeps {X} (f : World -> X) p c chainId :
  (forall rs a al co ts ip b t rs' al' co' b',
      f (mkWorld rs' a al' co' ts ip b' t) = f (mkWorld rs a al co ts ip b t)) ->
  respects (keeps f) p (Gateway.switchNetwork engine c chainId).
Proof.
  intros Hf. unfold Gateway.switchNetwork. respects_walk;
    try (match goal with w : World |- _ => destruct w end; unfold keeps; simpl; apply Hf).
  apply getUSDCBalance_keeps. intros. apply Hf.
Qed.

(** The only requests of a balance query are [eth_call]s to the USDC
    contract of the chain asked for. *)
Definition callTo (chainId : Z) (r : Request) : Prop :=
  exists cfg data, Registry.chainConfig chainId = Some cfg
                   /\ r = eth_call (Registry.usdc cfg) data.

Lemma getUSDCBalance_emits p address chainId :
  respects (emitsOnly (callTo chainId)) p (Gateway.getUSDCBalance engine address chainId).
Proof.
  unfold Gateway.getUSDCBalance. respects_walk;
    try (apply emitsOnly_silent; reflexivity).
  all: eapply emitsOnly_one; [ | reflexivity ].
  all: destruct (Registry.chainConfig chainId) as [cfg|] eqn:E; try discriminate.
  all: match goal with H : Registry.prop _ _ _ = Normal _ |- _ => inversion H; subst end.
  all: exists cfg; eexists; split; [ exact E | reflexivity ].
Qed.

(** A network switch asks the wallet to switch once, and then at most
    queries the balance. *)
Definition switchOrCall (chainId : Z) (r : Request) : Prop :=
  (exists target, r = wallet_switchEthereumChain target) \/ callTo chainId r.

Lemma switchNetwork_emits p c chainId :
  respects (emitsOnly (switchOrCall chainId)) p (Gateway.switchNetwork engine c chainId).
Proof.
  unfold Gateway.switchNetwork. respects_walk;
    try (apply emitsOnly_silent; reflexivity).
  - eapply emitsOnly_one; [ | reflexivity ]. left. eauto.
  - intros w. destruct (getUSDCBalance_emits p s chainId w) as [l [E F]].
    exists l. split; [exact E|]. eapply Forall_impl; [exact F|].
    intros r Hr. right. exact Hr.
Qed.

End GatewayFacts.

(** ** Running a flow one step at a time *)

Lemma run_bind_ret {A B} (a : A) (k : A -> M B) p w : bind (ret a) k p w = k a p w.
Proof. reflexivity. Qed.

Lemma run_bind_modify {B} f (k : unit -> M B) p w : bind (modify f) k p w = k tt p (f w).
Proof. reflexivity. Qed.

Lemma run_bind_normal {A B} (c : Completion A) (k : A -> M B) p w a :
  c = Normal a -> bind (liftC c) k p w = k a p w.
Proof. intros ->. reflexivity. Qed.

Lemma run_bind_throws {A B} (c : Completion A) (k : A -> M B) p w e :
  c = Throws e -> bind (liftC c) k p w = (Rejected e, w).
Proof. intros ->. reflexivity. Qed.

Lemma run_bind_resolves {B} r (k : RpcValue -> M B) (p : Provider) w v :
  p (requests w) r = Resolves v -> bind (request r) k p w = k v p (sent r w).
Proof. intros E. unfold bind, request. rewrite E. reflexivity. Qed.

Lemma run_bind_rejects {B} r (k : RpcValue -> M B) (p : Provider) w e :
  p (requests w) r = Rejects e -> bind (request r) k p w = (Rejected e, sent r w).
Proof. intros E. unfold bind, request. rewrite E. reflexivity. Qed.

Lemma run_bind_fulfilled {A B} (m : M A) (k : A -> M B) p w a w' :
  m p w = (Fulfilled a, w') -> bind m k p w = k a p w'.
Proof. intros E. unfold bind. rewrite E. reflexivity. Qed.


(** ** The receipt loop *)

Lemma afterPolls_zero tx w : afterPolls 0 tx w = w.
Proof.
  destruct w. unfold afterPolls. simpl. rewrite app_nil_r, Z.add_0_r. reflexivity.
Qed.

Lemma afterPolls_succ n tx w :
  afterPolls n tx (sent (eth_getTransactionReceipt tx)
                     (mkWorld (requests w) (elapsed w + 2000) (alerts w) (console w)
                              (st_transactionStatus w) (st_isProcessing w)
                              (st_balances w) (timers w)))
  = afterPolls (S n) tx w.
Proof.
  unfold afterPolls, sent. simpl. f_equal.
  - rewrite <- app_assoc. reflexivity.
  - lia.
Qed.

(** One round of the loop: sleep, ask, and look only at whether the answer is
    truthy. *)
Lemma pollReceipt_round fuel tx (p : Provider) w :
  Gateway.pollReceipt (S fuel) tx p w =
    let w1 := sent (eth_getTransactionReceipt tx)
                (mkWorld (requests w) (elapsed w + 2000) (alerts w) (console w)
                         (st_transactionStatus w) (st_isProcessing w)
                         (st_balances w) (timers w)) in
    match p (requests w) (eth_getTransactionReceipt tx) with
    | Resolves v => if truthy v then (Fulfilled v, w1) else Gateway.pollReceipt fuel tx p w1
    | Rejects e => (Rejected e, w1)
    end.
Proof.
  simpl. unfold sleep. rewrite run_bind_modify. unfold bind, request. simpl.
  destruct (p (requests w) (eth_getTransactionReceipt tx)) as [v|e]; simpl; auto.
  destruct (truthy v); reflexivity.
Qed.


(** If the first [k] answers are falsy and the next one is [receipt], the
    loop ends after [S k] rounds, given that much fuel. *)
Lemma pollReceipt_delivers (p : Provider) tx receipt :
  truthy receipt = true ->
  forall k w fuel,
    (forall j, (j < k)%nat ->
       exists v, p (requests w ++ replicate j (eth_getTransactionReceipt tx))%list
                   (eth_getTransactionReceipt tx) = Resolves v /\ truthy v = false) ->
    p (requests w ++ replicate k (eth_getTransactionReceipt tx))%list
      (eth_getTransactionReceipt tx) = Resolves receipt ->
    (k < fuel)%nat ->
    Gateway.pollReceipt fuel tx p w = (Fulfilled receipt, afterPolls (S k) tx w).
Proof.
  intros T k. induction k as [|k IH]; intros w fuel Hfalsy Hlast Hfuel;
    (destruct fuel as [|fuel]; [lia|]); rewrite pollReceipt_round; cbv zeta.
  - simpl in Hlast. rewrite app_nil_r in Hlast. rewrite Hlast, T.
    rewrite <- (afterPolls_succ 0), afterPolls_zero. reflexivity.
  - destruct (Hfalsy O ltac:(lia)) as [v [E Tv]]. simpl in E.
    rewrite app_nil_r in E. rewrite E, Tv.
    rewrite <- afterPolls_succ. apply IH; [ | | lia ].
    + intros j Hj. destruct (Hfalsy (S j) ltac:(lia)) as [v' [E' Tv']].
      exists v'. split; [|exact Tv']. simpl. rewrite <- app_assoc. exact E'.
    + simpl. rewrite <- app_assoc. exact Hlast.
Qed.

(** The loop only sends receipt requests and only advances the clock. *)
Lemma pollReceipt_emits (R : Request -> Prop) p fuel tx :
  R (eth_getTransactionReceipt tx) ->
  respects (emitsOnly R) p (Gateway.pollReceipt fuel tx).
Proof.
  intros HR. induction fuel as [|fuel IH]; simpl.
  - apply respects_suspended. typeclasses eauto.
  - respects_walk; try (apply emitsOnly_silent; reflexivity); try exact IH.
    eapply emitsOnly_one; [exact HR | reflexivity].
Qed.

Lemma pollReceipt_keeps {X} (f : World -> X) p fuel tx :
  (forall rs a al co ts ip b t rs' a',
      f (mkWorld rs' a' al co ts ip b t) = f (mkWorld rs a al co ts ip b t)) ->
  respects (keeps f) p (Gateway.pollReceipt fuel tx).
Proof.
  intros Hf. induction fuel as [|fuel IH]; simpl.
  - apply respects_suspended. typeclasses eauto.
  - respects_walk; try exact IH;
      match goal with w : World |- _ => destruct w end; unfold keeps; simpl; apply Hf.
Qed.

(** ** The phases of a payment *)

Definition withStatus (st : option TransactionStatus) (w : World) : World :=
  mkWorld (requests w) (elapsed w) (alerts w) (console w) st
          (st_isProcessing w) (st_balances w) (timers w).

Definition withProcessing (b : bool) (w : World) : World :=
  mkWorld (requests w) (elapsed w) (alerts w) (console w) (st_transactionStatus w)
          b (st_balances w) (timers w).

Section PaymentFacts.

Variable engine : Engine.

(** How a network switch ends: normally, unless the wallet rejected the
    switch request with [undefined] or [null]. Then the [catch] block itself
    throws, reading [code], and the switch request is all that happened. *)
Lemma switchNetwork_ends c chainId (p : Provider) w :
  let r := Gateway.switchNetwork engine c chainId p w in
  r.1 = Fulfilled tt
  \/ exists cfg err te,
       Registry.chainConfig chainId = Some cfg
       /\ p (requests w) (wallet_switchEthereumChain (Registry.chainIdHex cfg)) = Rejects err
       /\ Gateway.codeOf err = Throws te
       /\ r = (Rejected (ThrownError te),
               sent (wallet_switchEthereumChain (Registry.chainIdHex cfg)) w).
Proof.
  cbv zeta. unfold Gateway.switchNetwork, tryCatch.
  destruct (Registry.chainConfig chainId) as [cfg|] eqn:Hcfg.
  - erewrite run_bind_normal by reflexivity.
    destruct (p (requests w) (wallet_switchEthereumChain (Registry.chainIdHex cfg)))
      as [v|err] eqn:Ep.
    + erewrite run_bind_resolves by exact Ep. left.
      destruct (Gateway.connected (account c)) as [acct|]; [|reflexivity].
      destruct (getUSDCBalance_fulfils engine acct chainId p
                  (sent (wallet_switchEthereumChain (Registry.chainIdHex cfg)) w))
        as [b Hb].
      unfold bind.
      destruct (Gateway.getUSDCBalance engine acct chainId p _) as [o w'].
      simpl in Hb. subst o. reflexivity.
    + erewrite run_bind_rejects by exact Ep.
      destruct (Gateway.codeOf err) as [code|te] eqn:Hc.
      * left. erewrite run_bind_normal by reflexivity.
        destruct (bool_decide (code = Some 4902)); reflexivity.
      * right. exists cfg, err, te. erewrite run_bind_throws by reflexivity. auto.
  - left. erewrite run_bind_throws by reflexivity. reflexivity.
Qed.

(** Reading [code] throws on the nullish values only. *)
Lemma codeOf_throws err e : Gateway.codeOf err = Throws e -> nullish err = true.
Proof. destruct err as [[| | |]|]; simpl; intros H; congruence. Qed.

Lemma caughtMessage_throws err e :
  Gateway.caughtMessage err = Throws e -> nullish err = true.
Proof. destruct err as [[| | |]|]; simpl; intros H; congruence. Qed.

Lemma caughtMessage_nullish err :
  nullish err = true -> exists e, Gateway.caughtMessage err = Throws e.
Proof. destruct err as [[| | |]|]; simpl; intros H; try discriminate; eauto. Qed.

Lemma codeOf_nullish err :
  nullish err = true -> exists e, Gateway.codeOf err = Throws e.
Proof. destruct err as [[| | |]|]; simpl; intros H; try discriminate; eauto. Qed.

(** The wallet did not reject the switch to [chainId] with [undefined] or
    [null]. *)
Definition switchAnswered (p : Provider) (chainId : Z) (w : World) : Prop :=
  forall cfg, Registry.chainConfig chainId = Some cfg ->
    dismissed (p (requests w) (wallet_switchEthereumChain (Registry.chainIdHex cfg)))
    = false.

(** What a network switch leaves alone and how it ends, whatever the
    wallet does. *)
Lemma switchNetwork_outcome c chainId (p : Provider) w :
  exists o w1, Gateway.switchNetwork engine c chainId p w = (o, w1)
    /\ st_transactionStatus w1 = st_transactionStatus w
    /\ elapsed w1 = elapsed w
    /\ st_isProcessing w1 = st_isProcessing w
    /\ timers w1 = timers w
    /\ emitsOnly (switchOrCall chainId) w w1
    /\ (o = Fulfilled tt
        \/ exists cfg err e,
             Registry.chainConfig chainId = Some cfg
             /\ p (requests w) (wallet_switchEthereumChain (Registry.chainIdHex cfg))
                = Rejects err
             /\ nullish err = true
             /\ Gateway.codeOf err = Throws e
             /\ o = Rejected (ThrownError e)
             /\ w1 = sent (wallet_switchEthereumChain (Registry.chainIdHex cfg)) w).
Proof.
  pose proof (switchNetwork_ends c chainId p w) as H0. cbv zeta in H0.
  pose proof (switchNetwork_keeps engine st_transactionStatus p c chainId
                ltac:(reflexivity) w) as H1.
  pose proof (switchNetwork_keeps engine elapsed p c chainId ltac:(reflexivity) w) as H2.
  pose proof (switchNetwork_keeps engine st_isProcessing p c chainId
                ltac:(reflexivity) w) as H3.
  pose proof (switchNetwork_keeps engine timers p c chainId ltac:(reflexivity) w) as H4.
  pose proof (switchNetwork_emits engine p c chainId w) as H5.
  unfold keeps in *.
  destruct (Gateway.switchNetwork engine c chainId p w) as [o w1]. simpl in *.
  exists o, w1. refine (conj eq_refl (conj H1 (conj H2 (conj H3 (conj H4 (conj H5 _)))))).
  destruct H0 as [H0|[cfg [err [e [Hcfg [Ep [Hc E]]]]]]]; [left; exact H0|].
  right. exists cfg, err, e. inversion E; subst.
  pose proof (codeOf_throws err e Hc). auto 10.
Qed.

Lemma switchNetwork_run c chainId p w :
  switchAnswered p chainId w ->
  exists w1, Gateway.switchNetwork engine c chainId p w = (Fulfilled tt, w1)
    /\ st_transactionStatus w1 = st_transactionStatus w
    /\ elapsed w1 = elapsed w
    /\ st_isProcessing w1 = st_isProcessing w
    /\ timers w1 = timers w
    /\ emitsOnly (switchOrCall chainId) w w1.
Proof.
  intros Hsw.
  destruct (switchNetwork_outcome c chainId p w)
    as [o [w1 [E [H1 [H2 [H3 [H4 [H5 Ho]]]]]]]].
  exists w1. destruct Ho as [->|[cfg [err [e [Hcfg [Ep [Hn _]]]]]]]; [auto 10|].
  specialize (Hsw cfg Hcfg). rewrite Ep in Hsw. simpl in Hsw. congruence.
Qed.

(** The call data of the approval. *)
Definition approveData (c : Component) (src : Registry.ChainConfig) : string :=
  "0x095ea7b3"
    ++ JsString.padStart (JsString.slice (Registry.tokenMessenger src) 2) 64 "0"
    ++ JsString.padStart
         (Encoder.toString16 engine (Gateway.amountInUnits (amount c))) 64 "0".

Definition approveRequest (c : Component) (acct : string) (src : Registry.ChainConfig)
  : Request :=
  eth_sendTransaction acct (Registry.usdc src) (EStr (approveData c src)).

Definition approving : option TransactionStatus := statusOf pending "Approving USDC...".

(** Step 1 up to its loop: the status is set and the approval submitted. *)
Lemma approveStep_submits fuel c acct src (p : Provider) w :
  Registry.chainConfig (sourceChain c) = Some src ->
  Gateway.approveStep engine fuel c acct p w =
    match p (requests w) (approveRequest c acct src) with
    | Resolves tx =>
        bind (Gateway.pollReceipt fuel tx) (fun _ => ret tt) p
             (sent (approveRequest c acct src) (withStatus approving w))
    | Rejects e => (Rejected e, sent (approveRequest c acct src) (withStatus approving w))
    end.
Proof.
  intros Hsrc. unfold Gateway.approveStep, setTransactionStatus. rewrite Hsrc.
  rewrite run_bind_modify.
  erewrite run_bind_normal by (simpl; apply encode_approve).
  erewrite run_bind_normal by reflexivity.
  unfold bind at 1, request. fold (approveData c src). fold (approveRequest c acct src).
  change (requests (mkWorld _ _ _ _ _ _ _ _)) with (requests w).
  destruct (p (requests w) (approveRequest c acct src)); reflexivity.
Qed.

(** The call data of a burn without hook. *)
Definition callerData (c : Component) (src dst : Registry.ChainConfig) : string :=
  "0x8c7af8a5"
    ++ JsString.padStart
         (Encoder.toString16 engine (Gateway.amountInUnits (amount c))) 64 "0"
    ++ JsString.padStart
         (Encoder.toString16 engine (JsNumber.ofZ (Registry.domain dst))) 64 "0"
    ++ JsString.slice (Encoder.addressToBytes32 (merchantAddress c)) 2
    ++ JsString.padStart (JsString.slice (Registry.usdc src) 2) 64 "0"
    ++ "0000000000000000000000000000000000000000000000000000000000000000".

Lemma burnData_caller c src dst :
  Registry.chainConfig (sourceChain c) = Some src ->
  Registry.chainConfig (destinationChain c) = Some dst ->
  Gateway.hookSelected (selectedHook c) && fastTransferEnabled c = false ->
  Gateway.burnData engine c = Normal (EStr (callerData c src dst)).
Proof.
  intros Hsrc Hdst Hsel. unfold Gateway.burnData. rewrite Hsrc, Hdst, Hsel.
  simpl. rewrite encode_caller. reflexivity.
Qed.

(** With a hook selected in FAST mode the burn call is never encoded. *)
Lemma burnData_hook_throws c :
  Gateway.hookSelected (selectedHook c) && fastTransferEnabled c = true ->
  exists e, Gateway.burnData engine c = Throws e /\ errName e = TypeError.
Proof.
  intros Hsel. unfold Gateway.burnData. rewrite Hsel.
  destruct (Registry.chainConfig (destinationChain c)); simpl; [|eauto].
  destruct (Registry.chainConfig (sourceChain c)); simpl; [|eauto].
  destruct (Registry.hookTemplate _); simpl; [|eauto].
  apply encode_hook_throws.
Qed.

(** Whatever the request, the burn data is never a [depositForBurnWithHook]
    call. *)
Lemma burnData_never_hook c data :
  Gateway.burnData engine c = Normal (EStr data) ->
  JsString.startsWith "0x8c7af8a5" data = true.
Proof.
  intros H. destruct (Gateway.hookSelected (selectedHook c) && fastTransferEnabled c) eqn:Hsel.
  - destruct (burnData_hook_throws c Hsel) as [e [E _]]. congruence.
  - unfold Gateway.burnData in H. rewrite Hsel in H.
    destruct (Registry.chainConfig (destinationChain c)); simpl in H; [|discriminate].
    destruct (Registry.chainConfig (sourceChain c)); simpl in H; [|discriminate].
    rewrite encode_caller in H. inversion H. reflexivity.
Qed.

Definition initiating (c : Component) : option TransactionStatus :=
  statusOf pending (if fastTransferEnabled c then "Initiating Fast Transfer..."
                    else "Initiating Standard Transfer...").

(** Step 2 up to its loop. *)
Lemma burnStep_submits fuel c acct src data (p : Provider) w :
  Registry.chainConfig (sourceChain c) = Some src ->
  Gateway.burnData engine c = Normal data ->
  let req := eth_sendTransaction acct (Registry.tokenMessenger src) data in
  Gateway.burnStep engine fuel c acct p w =
    match p (requests w) req with
    | Resolves tx =>
        bind (Gateway.pollReceipt fuel tx)
             (fun _ => Gateway.reportSuccess c acct tx) p
             (sent req (withStatus (initiating c) w))
    | Rejects e => (Rejected e, sent req (withStatus (initiating c) w))
    end.
Proof.
  intros Hsrc Hdata req. unfold Gateway.burnStep, setTransactionStatus. rewrite Hsrc.
  rewrite run_bind_modify.
  erewrite run_bind_normal by exact Hdata.
  erewrite run_bind_normal by reflexivity.
  unfold bind at 1, request. fold req.
  change (requests (mkWorld _ _ _ _ _ _ _ _)) with (requests w).
  destruct (p (requests w) req); reflexivity.
Qed.

Lemma burnStep_throws fuel c acct e (p : Provider) w :
  Gateway.burnData engine c = Throws e ->
  Gateway.burnStep engine fuel c acct p w = (Rejected e, withStatus (initiating c) w).
Proof.
  intros Hdata. unfold Gateway.burnStep, setTransactionStatus.
  rewrite run_bind_modify. erewrite run_bind_throws by exact Hdata. reflexivity.
Qed.

(** [processPayment] with a connected account: the flags are set, the steps
    run inside [try]/[catch]/[finally]. *)
Definition started (w : World) : World :=
  withStatus (statusOf pending "Initiating payment...") (withProcessing true w).

Definition failing (e : JsError) : option TransactionStatus :=
  statusOf error ("Payment failed: " ++ Gateway.messageOf e).

Definition logged (label : string) (e : Thrown) (w : World) : World :=
  mkWorld (requests w) (elapsed w) (alerts w) (console w ++ [(label, e)])
          (st_transactionStatus w) (st_isProcessing w) (st_balances w) (timers w).

(** What the [catch] and [finally] blocks of [processPayment] make of a
    caught value: it is logged, and then either shown in the error status
    or, when its [message] cannot be read, replaced by the TypeError of
    that read, which leaves the status as it was. *)
Definition caught (err : Thrown) (w : World) : Outcome unit * World :=
  match Gateway.caughtMessage err with
  | Normal message =>
      (Fulfilled tt,
       withProcessing false
         (withStatus (statusOf error ("Payment failed: " ++ message))
            (logged "Payment error:" err w)))
  | Throws e =>
      (Rejected (ThrownError e), withProcessing false (logged "Payment error:" err w))
  end.

Lemma processPayment_connected fuel c acct p w :
  Gateway.connected (account c) = Some acct ->
  Gateway.processPayment engine fuel c p w =
    match Gateway.paymentSteps engine fuel c acct p (started w) with
    | (Fulfilled tt, w') => (Fulfilled tt, withProcessing false w')
    | (Rejected err, w') => caught err w'
    | (Awaiting, w') => (Awaiting, w')
    end.
Proof.
  intros Hacct. unfold Gateway.processPayment. rewrite Hacct.
  unfold setIsProcessing, setTransactionStatus. rewrite !run_bind_modify.
  unfold tryFinally, tryCatch, caught.
  change (mkWorld _ _ _ _ _ _ _ _) with (started w) at 1.
  destruct (Gateway.paymentSteps engine fuel c acct p (started w)) as [[[]|err|] w'];
    try reflexivity.
  unfold console_error. rewrite run_bind_modify.
  destruct (Gateway.caughtMessage err) as [message|e]; reflexivity.
Qed.

(** Whatever was caught, it is logged and the processing flag cleared;
    nothing else changes but the status. *)
Lemma caught_frame err w :
  requests (caught err w).2 = requests w
  /\ elapsed (caught err w).2 = elapsed w
  /\ alerts (caught err w).2 = alerts w
  /\ console (caught err w).2 = (console w ++ [("Payment error:", err)])%list
  /\ st_isProcessing (caught err w).2 = false
  /\ st_balances (caught err w).2 = st_balances w
  /\ timers (caught err w).2 = timers w.
Proof. unfold caught. destruct (Gateway.caughtMessage err); repeat split. Qed.

(** The two ways the [catch] block ends. *)
Lemma caught_cases err w :
  (nullish err = false
   /\ exists message,
        Gateway.caughtMessage err = Normal message
        /\ caught err w
           = (Fulfilled tt,
              withProcessing false
                (withStatus (statusOf error ("Payment failed: " ++ message))
                   (logged "Payment error:" err w))))
  \/ (nullish err = true
      /\ exists e,
           Gateway.caughtMessage err = Throws e
           /\ errName e = TypeError
           /\ caught err w
              = (Rejected (ThrownError e),
                 withProcessing false (logged "Payment error:" err w))).
Proof.
  unfold caught. destruct err as [[| | |]|e]; cbn [Gateway.caughtMessage nullish].
  - right. split; [reflexivity|]. eexists. repeat split.
  - right. split; [reflexivity|]. eexists. repeat split.
  - left. split; [reflexivity|]. eexists. split; reflexivity.
  - left. split; [reflexivity|]. eexists. split; reflexivity.
  - left. split; [reflexivity|]. eexists. split; reflexivity.
Qed.

(** An error object is always shown. *)
Lemma caught_error (e : JsError) w :
  caught e w
  = (Fulfilled tt, withProcessing false (withStatus (failing e) (logged "Payment error:" e w))).
Proof. reflexivity. Qed.


Lemma processPayment_disconnected fuel c p w :
  Gateway.connected (account c) = None ->
  Gateway.processPayment engine fuel c p w =
    (Fulfilled tt,
     mkWorld (requests w) (elapsed w) (alerts w ++ ["Please connect your wallet first"])
             (console w) (st_transactionStatus w) (st_isProcessing w)
             (st_balances w) (timers w)).
Proof. intros H. unfold Gateway.processPayment. rewrite H. reflexivity. Qed.

End PaymentFacts.

(** ** Payments whose receipts never arrive *)

Section Stalls.

Variable engine : Engine.

Definition poll (tx : RpcValue) : Request := eth_getTransactionReceipt tx.



End Stalls.

(** ** Payments against the scripted wallets *)

Section Mining.

Variable engine : Engine.

Lemma trailingPolls_snoc h tx :
  Wallets.pollsSinceSubmission (h ++ [poll tx]) = S (Wallets.pollsSinceSubmission h).
Proof. unfold Wallets.pollsSinceSubmission. rewrite rev_unit. reflexivity. Qed.

Lemma pollsSinceSubmission_polls tx j : forall h,
  Wallets.pollsSinceSubmission (h ++ replicate j (poll tx))
  = (j + Wallets.pollsSinceSubmission h)%nat.
Proof.
  induction j as [|j IH]; intros h; simpl.
  - rewrite app_nil_r. reflexivity.
  - change (poll tx :: replicate j (poll tx)) with ([poll tx] ++ replicate j (poll tx))%list.
    rewrite app_assoc, IH, trailingPolls_snoc. lia.
Qed.

Lemma pollsSinceSubmission_send h from to data :
  Wallets.pollsSinceSubmission (h ++ [eth_sendTransaction from to data]) = O.
Proof. unfold Wallets.pollsSinceSubmission. rewrite rev_unit. reflexivity. Qed.

(** The mining wallet performs every switch. *)
Lemma mining_switches chain bal k st chainId w :
  switchAnswered (Wallets.mining chain bal k st) chainId w.
Proof. intros cfg _. reflexivity. Qed.

Definition minedReceipt (st : string) (tx : RpcValue) : RpcValue :=
  RReceipt {| status := st; transactionHash := Gateway.rpcToString tx;
              blockNumber := "0x10" |}.

(** After a submission, the mining wallet delivers the receipt at the
    [S k]-th request, whatever its status. *)
Lemma mining_delivers chain bal k st tx from to data w n :
  Gateway.pollReceipt (S (k + n)) tx (Wallets.mining chain bal k st)
    (sent (eth_sendTransaction from to data) w)
  = (Fulfilled (minedReceipt st tx),
     afterPolls (S k) tx (sent (eth_sendTransaction from to data) w)).
Proof.
  apply pollReceipt_delivers; [reflexivity | | | lia].
  - intros j Hj. exists RNull. split; [|reflexivity].
    unfold Wallets.mining. simpl requests.
    rewrite (pollsSinceSubmission_polls tx j), pollsSinceSubmission_send.
    destruct (Nat.leb_spec k (j + 0)); [lia | reflexivity].
  - unfold Wallets.mining. simpl requests.
    rewrite (pollsSinceSubmission_polls tx k), pollsSinceSubmission_send.
    destruct (Nat.leb_spec k (k + 0)); [reflexivity | lia].
Qed.

Definition txHash (w : World) : RpcValue :=
  RStr ("0xtx" ++ JsString.numeral 10 (Z.of_nat (List.length (requests w)))).

Lemma mined_approval chain bal k st n c acct src w :
  Registry.chainConfig (sourceChain c) = Some src ->
  Gateway.approveStep engine (S (k + n)) c acct (Wallets.mining chain bal k st) w
  = (Fulfilled tt,
     afterPolls (S k) (txHash w)
       (sent (approveRequest engine c acct src) (withStatus approving w))).
Proof.
  intros Hsrc. rewrite (approveStep_submits engine _ c acct src _ w Hsrc).
  unfold approveRequest. simpl (Wallets.mining _ _ _ _ _ _). cbv beta iota.
  fold (txHash w).
  erewrite run_bind_fulfilled by apply mining_delivers. reflexivity.
Qed.

Lemma reportSuccess_run c acct tx p w :
  (Gateway.hookSelected (selectedHook c) = true ->
   is_Some (Registry.hookTemplate (default "" (selectedHook c)))) ->
  Registry.chainConfig (sourceChain c) <> None ->
  Registry.chainConfig (destinationChain c) <> None ->
  exists details w',
    Gateway.reportSuccess c acct tx p w = (Fulfilled tt, w')
    /\ st_transactionStatus w'
       = Some {| ts_status := success; ts_message := "Payment sent successfully!";
                 ts_details := Some details; ts_attestationReceived := false |}
    /\ d_txHash details = tx
    /\ requests w' = requests w
    /\ st_isProcessing w' = st_isProcessing w.
Proof.
  intros Hhook Hsrc Hdst. unfold Gateway.reportSuccess, Gateway.successDetails.
  destruct (Registry.chainConfig (sourceChain c)) as [src|]; [|congruence].
  destruct (Registry.chainConfig (destinationChain c)) as [dst|]; [|congruence].
  simpl cbind.
  destruct (Gateway.hookSelected (selectedHook c)).
  - destruct (Hhook eq_refl) as [tpl ->]. simpl.
    destruct (fastTransferEnabled c); eexists; eexists; repeat split.
  - simpl. destruct (fastTransferEnabled c); eexists; eexists; repeat split.
Qed.

(** Without a FAST hook, a payment whose transactions get mined ends in the
    success status, whatever the status of the receipts. *)
Lemma mined_payment_succeeds chain bal k st n c acct src dst w :
  Gateway.connected (account c) = Some acct ->
  Registry.chainConfig (sourceChain c) = Some src ->
  Registry.chainConfig (destinationChain c) = Some dst ->
  Gateway.hookSelected (selectedHook c) && fastTransferEnabled c = false ->
  (Gateway.hookSelected (selectedHook c) = true ->
   is_Some (Registry.hookTemplate (default "" (selectedHook c)))) ->
  exists details w',
    Gateway.processPayment engine (S (k + n)) c (Wallets.mining chain bal k st) w
    = (Fulfilled tt, w')
    /\ st_transactionStatus w'
       = Some {| ts_status := success; ts_message := "Payment sent successfully!";
                 ts_details := Some details; ts_attestationReceived := false |}
    /\ st_isProcessing w' = false
    /\ In (approveRequest engine c acct src) (requests w')
    /\ In (eth_sendTransaction acct (Registry.tokenMessenger src)
             (EStr (callerData engine c src dst))) (requests w').
Proof.
  intros Hacct Hsrc Hdst Hsel Hhook.
  rewrite (processPayment_connected engine _ c acct _ w Hacct).
  unfold Gateway.paymentSteps.
  destruct (switchNetwork_run engine c (sourceChain c) (Wallets.mining chain bal k st)
              (started w) (mining_switches _ _ _ _ _ _)) as [w1 [E1 _]].
  erewrite run_bind_fulfilled by exact E1. cbv beta.
  erewrite run_bind_fulfilled by (apply mined_approval; exact Hsrc). cbv beta.
  erewrite burnStep_submits by
    first [ exact Hsrc | apply (burnData_caller engine c src dst Hsrc Hdst Hsel) ].
  cbv zeta. simpl (Wallets.mining _ _ _ _ _ _). cbv beta iota.
  erewrite run_bind_fulfilled by apply mining_delivers. cbv beta.
  match goal with
  | |- context [Gateway.reportSuccess c acct ?tx ?p ?w2] =>
      destruct (reportSuccess_run c acct tx p w2 Hhook) as [d [w3 [E3 [Hst [_ [Hreq _]]]]]];
      [ congruence | congruence | rewrite E3 ]
  end.
  exists d. eexists. split; [reflexivity|]. simpl. split; [exact Hst|].
  split; [reflexivity|]. rewrite Hreq. unfold afterPolls, sent. simpl.
  split; rewrite !in_app_iff; simpl; tauto.
Qed.

End Mining.

(** ** Flows that cannot tell one receipt from another *)

Section ReceiptContent.

Variable f : Receipt -> Receipt.

(** [m] runs the same whether or not the wallet's receipts are rewritten. *)
Definition blind {A} (m : M A) : Prop :=
  forall p w, m (rewriteReceipts f p) w = m p w.

Lemma blind_ret {A} (a : A) : blind (ret a).
Proof. intros p w. reflexivity. Qed.

Lemma blind_liftC {A} (c : Completion A) : blind (liftC c).
Proof. intros p w. reflexivity. Qed.

Lemma blind_modify g : blind (modify g).
Proof. intros p w. reflexivity. Qed.

Lemma blind_request r :
  match r with eth_getTransactionReceipt _ => False | _ => True end ->
  blind (request r).
Proof.
  intros Hr p w. unfold request, rewriteReceipts.
  destruct r; try contradiction; reflexivity.
Qed.

Lemma blind_bind {A B} (m : M A) (k : A -> M B) :
  blind m -> (forall a, blind (k a)) -> blind (bind m k).
Proof.
  intros Hm Hk p w. unfold bind. rewrite Hm.
  destruct (m p w) as [[a|e|] w']; auto. apply Hk.
Qed.

Lemma blind_tryCatch {A} (body : M A) handler :
  blind body -> (forall e, blind (handler e)) -> blind (tryCatch body handler).
Proof.
  intros Hb Hh p w. unfold tryCatch. rewrite Hb.
  destruct (body p w) as [[a|e|] w']; auto. apply Hh.
Qed.

Lemma blind_tryFinally {A} (body : M A) cleanup :
  blind body -> blind cleanup -> blind (tryFinally body cleanup).
Proof.
  intros Hb Hc p w. unfold tryFinally. rewrite Hb.
  destruct (body p w) as [[a|e|] w']; auto; rewrite Hc; reflexivity.
Qed.

Lemma rewriteReceipts_poll p h tx :
  rewriteReceipts f p h (eth_getTransactionReceipt tx) =
    match p h (eth_getTransactionReceipt tx) with
    | Resolves (RReceipt r) => Resolves (RReceipt (f r))
    | other => other
    end.
Proof. reflexivity. Qed.

(** The loop itself sees the difference only in the value it returns: the
    world it leaves and the way it ends are the same. *)
Lemma pollReceipt_rewritten fuel tx p : forall w,
  let r := Gateway.pollReceipt fuel tx p w in
  let r' := Gateway.pollReceipt fuel tx (rewriteReceipts f p) w in
  r'.2 = r.2 /\
  match r.1, r'.1 with
  | Fulfilled _, Fulfilled _ => True
  | Rejected e, Rejected e' => e = e'
  | Awaiting, Awaiting => True
  | _, _ => False
  end.
Proof.
  induction fuel as [|fuel IH]; intros w; cbv zeta.
  - simpl. auto.
  - rewrite !pollReceipt_round. cbv zeta. rewrite !rewriteReceipts_poll.
    destruct (p (requests w) (eth_getTransactionReceipt tx)) as [[|s|r]|e];
      unfold truthy; cbv beta iota.
    + apply IH.
    + destruct (negb (String.eqb s "")); [ split; [reflexivity | exact I] | apply IH ].
    + split; [reflexivity | exact I].
    + split; reflexivity.
Qed.

(** So a flow that drops the receipt is blind. *)
Lemma blind_poll_then {B} fuel tx (k : M B) :
  blind k -> blind (bind (Gateway.pollReceipt fuel tx) (fun _ => k)).
Proof.
  intros Hk p w. unfold bind.
  pose proof (pollReceipt_rewritten fuel tx p w) as [Hw Ho]. cbv zeta in Hw, Ho.
  destruct (Gateway.pollReceipt fuel tx p w) as [o w1].
  destruct (Gateway.pollReceipt fuel tx (rewriteReceipts f p) w) as [o' w1'].
  simpl in Hw, Ho. subst w1'.
  destruct o as [v|e|], o' as [v'|e'|]; try contradiction; try reflexivity.
  - apply Hk.
  - subst e'. reflexivity.
Qed.

End ReceiptContent.

Ltac blind_step :=
  lazymatch goal with
  | |- blind _ (ret _) => apply blind_ret
  | |- blind _ (liftC _) => apply blind_liftC
  | |- blind _ (modify _) => apply blind_modify
  | |- blind _ (request _) => apply blind_request; exact I
  | |- blind _ (bind (Gateway.pollReceipt _ _) _) => apply blind_poll_then
  | |- blind _ (bind _ _) => apply blind_bind; [ | intros ? ]
  | |- blind _ (tryCatch _ _) => apply blind_tryCatch; [ | intros ? ]
  | |- blind _ (tryFinally _ _) => apply blind_tryFinally
  | |- blind _ (match ?x with _ => _ end) => destruct x eqn:?
  | |- blind _ (if ?x then _ else _) => destruct x eqn:?
  end.

Ltac blind_walk := unfold_effects; repeat blind_step.

Section BlindGateway.

Variables (engine : Engine) (f : Receipt -> Receipt).

Lemma getUSDCBalance_blind address chainId :
  blind f (Gateway.getUSDCBalance engine address chainId).
Proof. unfold Gateway.getUSDCBalance. blind_walk. Qed.

Lemma switchNetwork_blind c chainId : blind f (Gateway.switchNetwork engine c chainId).
Proof. unfold Gateway.switchNetwork. blind_walk. apply getUSDCBalance_blind. Qed.

Lemma processPayment_blind fuel c : blind f (Gateway.processPayment engine fuel c).
Proof.
  unfold Gateway.processPayment, Gateway.paymentSteps, Gateway.approveStep,
    Gateway.burnStep, Gateway.reportSuccess.
  blind_walk; apply switchNetwork_blind.
Qed.

End BlindGateway.

(** ** What a payment submits, and how it can end *)

Lemma emitsOnly_weaken (R1 R2 : Request -> Prop) w w' :
  (forall r, R1 r -> R2 r) -> emitsOnly R1 w w' -> emitsOnly R2 w w'.
Proof.
  intros H [l [E F]]. exists l. split; [exact E|].
  eapply Forall_impl; [exact F | exact H].
Qed.

Lemma respects_weaken {A} (R1 R2 : Request -> Prop) p (m : M A) :
  (forall r, R1 r -> R2 r) -> respects (emitsOnly R1) p m -> respects (emitsOnly R2) p m.
Proof. intros H Hm w. eapply emitsOnly_weaken; [exact H | apply Hm]. Qed.

Section Submissions.

Variable engine : Engine.

(** The requests a payment of component [c] may send. *)
Inductive paymentRequest (c : Component) : Request -> Prop :=
| PR_switch r : switchOrCall (sourceChain c) r -> paymentRequest c r
| PR_poll tx : paymentRequest c (eth_getTransactionReceipt tx)
| PR_approve acct src :
    Registry.chainConfig (sourceChain c) = Some src ->
    paymentRequest c (approveRequest engine c acct src)
| PR_burn acct src dst :
    Registry.chainConfig (sourceChain c) = Some src ->
    Registry.chainConfig (destinationChain c) = Some dst ->
    Gateway.hookSelected (selectedHook c) && fastTransferEnabled c = false ->
    paymentRequest c (eth_sendTransaction acct (Registry.tokenMessenger src)
                        (EStr (callerData engine c src dst))).

Lemma approveStep_emits fuel c acct p :
  respects (emitsOnly (paymentRequest c)) p (Gateway.approveStep engine fuel c acct).
Proof.
  unfold Gateway.approveStep.
  destruct (Registry.chainConfig (sourceChain c)) as [src|] eqn:Hsrc.
  - respects_walk; try (apply emitsOnly_silent; reflexivity).
    + eapply emitsOnly_one; [ | reflexivity ].
      repeat match goal with
             | Hx : _ = Normal _ |- _ =>
                 simpl in Hx; rewrite ?encode_approve in Hx; inversion Hx; subst; clear Hx
             end.
      apply (PR_approve c acct src Hsrc).
    + apply pollReceipt_emits. apply PR_poll.
  - respects_walk; try (apply emitsOnly_silent; reflexivity); discriminate.
Qed.

Lemma reportSuccess_silent (R : Request -> Prop) c acct tx p :
  respects (emitsOnly R) p (Gateway.reportSuccess c acct tx).
Proof.
  unfold Gateway.reportSuccess. respects_walk; apply emitsOnly_silent; reflexivity.
Qed.

Lemma burnStep_emits fuel c acct p :
  respects (emitsOnly (paymentRequest c)) p (Gateway.burnStep engine fuel c acct).
Proof.
  unfold Gateway.burnStep.
  respects_walk; try (apply emitsOnly_silent; reflexivity).
  - eapply emitsOnly_one; [ | reflexivity ].
    destruct (Gateway.hookSelected (selectedHook c) && fastTransferEnabled c) eqn:Hsel.
    + destruct (burnData_hook_throws engine c Hsel) as [e [E _]]. congruence.
    + destruct (Registry.chainConfig (sourceChain c)) as [src|] eqn:Hsrc;
        [ | match goal with
            | Hx : Registry.prop None _ _ = Normal _ |- _ => discriminate Hx
            end ].
      destruct (Registry.chainConfig (destinationChain c)) as [dst|] eqn:Hdst.
      * match goal with
        | Hx : Gateway.burnData engine c = Normal _ |- _ =>
            rewrite (burnData_caller engine c src dst Hsrc Hdst Hsel) in Hx;
            inversion Hx; subst; clear Hx
        end.
        match goal with
        | Hx : Registry.prop _ _ _ = Normal _ |- _ => inversion Hx; subst; clear Hx
        end.
        apply (PR_burn c acct src dst Hsrc Hdst Hsel).
      * match goal with
        | Hx : Gateway.burnData engine c = Normal _ |- _ =>
            unfold Gateway.burnData in Hx; rewrite Hsel, Hdst in Hx; discriminate
        end.
  - apply pollReceipt_emits. apply PR_poll.
  - apply reportSuccess_silent.
Qed.

(** Every request of [processPayment] is one of these: in particular the
    only transactions it submits are the approval and a
    [depositForBurnWithCaller] burn. *)
Lemma processPayment_emits fuel c p :
  respects (emitsOnly (paymentRequest c)) p (Gateway.processPayment engine fuel c).
Proof.
  unfold Gateway.processPayment, Gateway.paymentSteps.
  respects_walk; try (apply emitsOnly_silent; reflexivity).
  - eapply respects_weaken; [ | apply switchNetwork_emits ]. intros r Hr. apply PR_switch. exact Hr.
  - apply approveStep_emits.
  - apply burnStep_emits.
Qed.

(** *** How the steps end *)

Definition succeeded (w : World) : Prop :=
  exists details,
    st_transactionStatus w
    = Some {| ts_status := success; ts_message := "Payment sent successfully!";
              ts_details := Some details; ts_attestationReceived := false |}.

Lemma reportSuccess_fulfilled c acct tx p w w' :
  Gateway.reportSuccess c acct tx p w = (Fulfilled tt, w') -> succeeded w'.
Proof.
  unfold Gateway.reportSuccess. intros H.
  destruct (Gateway.successDetails c tx) as [d|e] eqn:Hd.
  - erewrite run_bind_normal in H by reflexivity.
    unfold setTransactionStatus, setTimeout in H. rewrite run_bind_modify in H.
    destruct (fastTransferEnabled c); inversion H; subst; exists d; reflexivity.
  - erewrite run_bind_throws in H by reflexivity. discriminate.
Qed.

Lemma burnStep_fulfilled fuel c acct p w w' :
  Gateway.burnStep engine fuel c acct p w = (Fulfilled tt, w') -> succeeded w'.
Proof.
  unfold Gateway.burnStep, setTransactionStatus. rewrite run_bind_modify.
  destruct (Gateway.burnData engine c) as [data|e] eqn:Hdata;
    [ erewrite run_bind_normal by reflexivity
    | erewrite run_bind_throws by reflexivity; discriminate ].
  destruct (Registry.prop _ _ _) as [m|e];
    [ erewrite run_bind_normal by reflexivity
    | erewrite run_bind_throws by reflexivity; discriminate ].
  unfold bind at 1.
  destruct (request _ p _) as [[burnTx|e|] w1]; try discriminate.
  unfold bind.
  destruct (Gateway.pollReceipt fuel burnTx p w1) as [[r|e|] w2]; try discriminate.
  apply reportSuccess_fulfilled.
Qed.

Lemma paymentSteps_fulfilled fuel c acct p w w' :
  Gateway.paymentSteps engine fuel c acct p w = (Fulfilled tt, w') -> succeeded w'.
Proof.
  unfold Gateway.paymentSteps. unfold bind at 1.
  destruct (Gateway.switchNetwork engine c (sourceChain c) p w) as [[[]|e|] w1];
    try discriminate.
  unfold bind at 1.
  destruct (Gateway.approveStep engine fuel c acct p w1) as [[[]|e|] w2];
    try discriminate.
  apply burnStep_fulfilled.
Qed.

(** *** Failures that are swallowed *)

(** [error.code === code] on a caught value that has properties. *)
Definition hasCode (code : Z) (err : Thrown) : bool :=
  match err with
  | ThrownError e => bool_decide (errCode e = Some code)
  | ThrownValue _ => false
  end.

Lemma codeOf_hasCode err found code :
  Gateway.codeOf err = Normal found -> bool_decide (found = Some code) = hasCode code err.
Proof.
  destruct err as [[| | |]|e]; simpl; intros H; inversion H; subst; reflexivity.
Qed.

Definition switchFailed (chainIdHex : string) (err : Thrown) (w : World) : World :=
  mkWorld (requests w ++ [wallet_switchEthereumChain chainIdHex]) (elapsed w)
          (alerts w ++ (if hasCode 4902 err
                        then ["Please add this network to MetaMask"] else []))
          (console w ++ [("Error switching network:", err)])
          (st_transactionStatus w) (st_isProcessing w) (st_balances w) (timers w).

(** A switch rejected with anything but [undefined] or [null] is asked
    once, logged (with an alert for code 4902), and [switchNetwork] returns
    normally. *)
Lemma switchNetwork_rejected c chainId cfg err (p : Provider) w :
  Registry.chainConfig chainId = Some cfg ->
  p (requests w) (wallet_switchEthereumChain (Registry.chainIdHex cfg)) = Rejects err ->
  nullish err = false ->
  Gateway.switchNetwork engine c chainId p w
  = (Fulfilled tt, switchFailed (Registry.chainIdHex cfg) err w).
Proof.
  intros Hcfg Hp Hn. unfold Gateway.switchNetwork, tryCatch. rewrite Hcfg.
  erewrite run_bind_normal by reflexivity.
  erewrite run_bind_rejects by exact Hp.
  destruct (Gateway.codeOf err) as [found|te] eqn:Hc.
  2:{ rewrite (codeOf_throws err te Hc) in Hn. discriminate. }
  erewrite run_bind_normal by reflexivity.
  rewrite (codeOf_hasCode err found 4902 Hc).
  unfold switchFailed, alert, console_error.
  destruct (hasCode 4902 err); simpl.
  - rewrite run_bind_modify. reflexivity.
  - rewrite run_bind_ret. rewrite app_nil_r. reflexivity.
Qed.

(** A switch rejected with [undefined] or [null] makes the [catch] block
    throw before it logs anything: [switchNetwork] rejects with the
    TypeError of reading [code]. *)
Lemma switchNetwork_dismissed c chainId cfg err (p : Provider) w :
  Registry.chainConfig chainId = Some cfg ->
  p (requests w) (wallet_switchEthereumChain (Registry.chainIdHex cfg)) = Rejects err ->
  nullish err = true ->
  exists e,
    Gateway.codeOf err = Throws e
    /\ Gateway.switchNetwork engine c chainId p w
       = (Rejected (ThrownError e),
          sent (wallet_switchEthereumChain (Registry.chainIdHex cfg)) w).
Proof.
  intros Hcfg Hp Hn. destruct (codeOf_nullish err Hn) as [e He]. exists e.
  split; [exact He|]. unfold Gateway.switchNetwork, tryCatch. rewrite Hcfg.
  erewrite run_bind_normal by reflexivity.
  erewrite run_bind_rejects by exact Hp.
  erewrite run_bind_throws by exact He. reflexivity.
Qed.

(** So a switch that returned was not dismissed. *)
Lemma switchNetwork_returned c chainId cfg (p : Provider) w w1 :
  Registry.chainConfig chainId = Some cfg ->
  Gateway.switchNetwork engine c chainId p w = (Fulfilled tt, w1) ->
  dismissed (p (requests w) (wallet_switchEthereumChain (Registry.chainIdHex cfg))) = false.
Proof.
  intros Hcfg E.
  destruct (p (requests w) (wallet_switchEthereumChain (Registry.chainIdHex cfg)))
    as [v|err] eqn:Ep; [reflexivity|]. simpl.
  destruct (nullish err) eqn:Hn; [|reflexivity].
  destruct (switchNetwork_dismissed c chainId cfg err p w Hcfg Ep Hn) as [te [_ E']].
  congruence.
Qed.

Definition balanceOfRequest (address : string) (cfg : Registry.ChainConfig) : Request :=
  eth_call (Registry.usdc cfg)
    (EStr ("0x70a08231" ++ JsString.padStart (JsString.slice address 2) 64 "0")).

Definition decimalsRequest (cfg : Registry.ChainConfig) : Request :=
  eth_call (Registry.usdc cfg) (EStr "0x313ce567").

Definition balanceLabel (chainId : Z) : string :=
  "Error fetching balance for chain " ++ JsString.numeralZ 10 chainId ++ ":".

(** A rejected [balanceOf] query is logged and answered with ["0"]. *)
Lemma getUSDCBalance_balanceOf_rejected address chainId cfg e (p : Provider) w :
  Registry.chainConfig chainId = Some cfg ->
  p (requests w) (balanceOfRequest address cfg) = Rejects e ->
  Gateway.getUSDCBalance engine address chainId p w
  = (Fulfilled "0", logged (balanceLabel chainId) e (sent (balanceOfRequest address cfg) w)).
Proof.
  intros Hcfg Hp. unfold Gateway.getUSDCBalance, tryCatch. rewrite Hcfg.
  erewrite run_bind_normal by apply encode_balanceOf.
  erewrite run_bind_normal by reflexivity.
  erewrite run_bind_rejects by exact Hp.
  unfold console_error. rewrite run_bind_modify. reflexivity.
Qed.


End Submissions.

(** ** Refreshing balances *)

Section Balances.

Variable engine : Engine.

Lemma lookupIn_In {A} (table : list (Z * A)) k v :
  Registry.lookupIn table k = Some v -> In k (map fst table).
Proof.
  induction table as [|[k' v'] rest IH]; simpl; [discriminate|].
  destruct (Z.eqb_spec k' k); [left; assumption | intros H; right; apply IH, H].
Qed.

Lemma registered_chainId chainId cfg :
  Registry.chainConfig chainId = Some cfg -> In chainId Registry.chainIds.
Proof. apply lookupIn_In. Qed.

(** No two registered chains share a USDC address, so the target of an
    [eth_call] tells which chain's balance it asks for. *)
Lemma usdc_injective id1 id2 cfg1 cfg2 :
  Registry.chainConfig id1 = Some cfg1 ->
  Registry.chainConfig id2 = Some cfg2 ->
  Registry.usdc cfg1 = Registry.usdc cfg2 -> id1 = id2.
Proof.
  unfold Registry.chainConfig, Registry.CHAIN_CONFIG, Registry.lookupIn.
  intros H1 H2.
  repeat match type of H1 with
         | context [Z.eqb ?a id1] => destruct (Z.eqb_spec a id1)
         end;
    try discriminate; inversion H1; subst; clear H1;
    repeat match type of H2 with
           | context [Z.eqb ?a id2] => destruct (Z.eqb_spec a id2)
           end;
    try discriminate; inversion H2; subst; clear H2;
    simpl; intros E; try reflexivity; discriminate.
Qed.

Definition fillStep (cached : gmap Z string) (current : option Z)
    (acc : gmap Z string) (chainId : Z) : gmap Z string :=
  if bool_decide (current = Some chainId) then acc
  else <[ chainId := Gateway.orZero (cached !! chainId) ]> acc.

Lemma fill_untouched cached current ids : forall (acc : gmap Z string) id,
  current = Some id \/ ~ In id ids ->
  fold_left (fillStep cached current) ids acc !! id = acc !! id.
Proof.
  induction ids as [|x rest IH]; intros acc id H; simpl; [reflexivity|].
  rewrite IH.
  - unfold fillStep. case_bool_decide as Hx; [reflexivity|].
    apply lookup_insert_ne. intros ->. destruct H as [H|H]; [congruence|].
    apply H. left. reflexivity.
  - destruct H as [H|H]; [left; exact H | right; intros Hin; apply H; right; exact Hin].
Qed.

Lemma fill_cached cached current ids : forall (acc : gmap Z string) id,
  In id ids -> current <> Some id ->
  fold_left (fillStep cached current) ids acc !! id
  = Some (Gateway.orZero (cached !! id)).
Proof.
  induction ids as [|x rest IH]; intros acc id Hin Hcur; simpl; [destruct Hin|].
  destruct (in_dec Z.eq_dec id rest) as [Hrest|Hrest].
  - apply IH; assumption.
  - destruct Hin as [->|Hin]; [|contradiction].
    rewrite fill_untouched by (right; exact Hrest).
    unfold fillStep. case_bool_decide as Hx; [congruence|].
    apply lookup_insert_eq.
Qed.

Lemma cachedOthers_other cached current newBalances id cfg :
  Registry.chainConfig id = Some cfg -> current <> Some id ->
  Gateway.cachedOthers cached current newBalances !! id
  = Some (Gateway.orZero (cached !! id)).
Proof.
  intros Hcfg Hcur. apply (fill_cached cached current); [|exact Hcur].
  eapply registered_chainId, Hcfg.
Qed.

Lemma cachedOthers_current cached cur (newBalances : gmap Z string) :
  Gateway.cachedOthers cached (Some cur) newBalances !! cur = newBalances !! cur.
Proof. apply (fill_untouched cached (Some cur)). left. reflexivity. Qed.

(** A balance query sends the [balanceOf] call, then at most the
    [decimals] call, both to the chain's USDC contract. *)
Lemma getUSDCBalance_requests address chainId cfg (p : Provider) w :
  Registry.chainConfig chainId = Some cfg ->
  let w' := (Gateway.getUSDCBalance engine address chainId p w).2 in
  requests w' = (requests w ++ [balanceOfRequest address cfg])%list
  \/ requests w' = (requests w ++ [balanceOfRequest address cfg; decimalsRequest cfg])%list.
Proof.
  intros Hcfg. cbv zeta. unfold Gateway.getUSDCBalance, tryCatch. rewrite Hcfg.
  erewrite run_bind_normal by apply encode_balanceOf.
  erewrite run_bind_normal by reflexivity.
  fold (balanceOfRequest address cfg).
  destruct (p (requests w) (balanceOfRequest address cfg)) as [v1|e1] eqn:E1.
  - erewrite run_bind_resolves by exact E1.
    erewrite run_bind_normal by apply encode_decimals.
    fold (decimalsRequest cfg).
    destruct (p (requests (sent (balanceOfRequest address cfg) w)) (decimalsRequest cfg))
      as [v2|e2] eqn:E2.
    + erewrite run_bind_resolves by exact E2. right.
      destruct (Gateway.parseHexResponse v1) as [b|e];
        [ erewrite run_bind_normal by reflexivity
        | erewrite run_bind_throws by reflexivity; simpl; rewrite <- app_assoc; reflexivity ].
      destruct (Gateway.parseHexResponse v2) as [d|e];
        [ erewrite run_bind_normal by reflexivity
        | erewrite run_bind_throws by reflexivity ];
        simpl; rewrite <- app_assoc; reflexivity.
    + erewrite run_bind_rejects by exact E2. right. simpl.
      rewrite <- app_assoc. reflexivity.
  - erewrite run_bind_rejects by exact E1. left. reflexivity.
Qed.

Lemma getUSDCBalance_run address chainId p w :
  exists balance w',
    Gateway.getUSDCBalance engine address chainId p w = (Fulfilled balance, w')
    /\ st_balances w' = st_balances w.
Proof.
  destruct (getUSDCBalance_fulfils engine address chainId p w) as [b Hb].
  pose proof (getUSDCBalance_keeps engine st_balances p address chainId
                ltac:(reflexivity) w) as Hk. unfold keeps in Hk.
  destruct (Gateway.getUSDCBalance engine address chainId p w) as [o w']. simpl in *.
  subst o. eauto.
Qed.

(** The chain the wallet reports as active. *)
Definition activeChain (response : RpcValue) : option Z :=
  JsNumber.propertyKey (Gateway.fromHexRpc response).

(** [updateBalances], once the wallet has answered [eth_chainId]. *)
Lemma updateBalances_run cached address (p : Provider) w v :
  p (requests w) eth_chainId = Resolves v ->
  exists w',
    Gateway.updateBalances engine cached address p w = (Fulfilled tt, w')
    /\ (forall id cfg, Registry.chainConfig id = Some cfg -> activeChain v <> Some id ->
          st_balances w' !! id = Some (Gateway.orZero (cached !! id)))
    /\ match activeChain v with
       | Some id =>
           match Registry.chainConfig id with
           | Some cfg =>
               (requests w' = (requests w
                                 ++ [eth_chainId; balanceOfRequest address cfg])%list
                \/ requests w' = (requests w
                                    ++ [eth_chainId; balanceOfRequest address cfg;
                                        decimalsRequest cfg])%list)
               /\ is_Some (st_balances w' !! id)
           | None => requests w' = (requests w ++ [eth_chainId])%list
           end
       | None => requests w' = (requests w ++ [eth_chainId])%list
       end.
Proof.
  intros Hp. unfold Gateway.updateBalances.
  erewrite run_bind_resolves by exact Hp. fold (activeChain v).
  change (fold_left _ Registry.chainIds) with (fold_left (fillStep cached (activeChain v)) Registry.chainIds).
  destruct (activeChain v) as [cur|] eqn:Hcur.
  - destruct (Registry.chainConfig cur) as [cfg|] eqn:Hcfg.
    + destruct (getUSDCBalance_run address cur p (sent eth_chainId w))
        as [b [w1 [E1 _]]].
      pose proof (getUSDCBalance_requests address cur cfg p (sent eth_chainId w) Hcfg) as Hr.
      cbv zeta in Hr. rewrite E1 in Hr. simpl in Hr.
      unfold bind at 1. unfold bind at 1. rewrite E1. cbv beta iota.
      unfold setBalances, modify. cbv beta iota.
      eexists. split; [reflexivity|]. simpl. split; [|split].
      * intros id cfg' Hid Hne. apply cachedOthers_other with (cfg := cfg'); assumption.
      * rewrite <- !app_assoc in Hr. exact Hr.
      * rewrite cachedOthers_current, lookup_insert_eq. eauto.
    + rewrite run_bind_ret. unfold setBalances, modify.
      eexists. split; [reflexivity|]. simpl. split; [|reflexivity].
      intros id cfg' Hid Hne. apply cachedOthers_other with (cfg := cfg'); assumption.
  - rewrite run_bind_ret. unfold setBalances, modify.
    eexists. split; [reflexivity|]. simpl. split; [|reflexivity].
    intros id cfg' Hid Hne. apply cachedOthers_other with (cfg := cfg'); assumption.
Qed.

End Balances.

(** ** Payments that stop at the burn *)

Section HookPayments.

Variable engine : Engine.

(** When the burn data cannot be built, the approval has already been
    mined: the flow ends in the error status with the approval as its only
    transaction. *)
Lemma payment_stops_after_approval chain bal k st n c acct src e w :
  Gateway.connected (account c) = Some acct ->
  Registry.chainConfig (sourceChain c) = Some src ->
  Gateway.burnData engine c = Throws e ->
  exists w1 l,
    requests w1 = (requests w ++ l)%list
    /\ Forall (switchOrCall (sourceChain c)) l
    /\ Gateway.processPayment engine (S (k + n)) c (Wallets.mining chain bal k st) w
       = (Fulfilled tt,
          withProcessing false
            (withStatus (failing e)
               (logged "Payment error:" e
                  (withStatus (initiating c)
                     (afterPolls (S k) (txHash w1)
                        (sent (approveRequest engine c acct src)
                           (withStatus approving w1))))))).
Proof.
  intros Hacct Hsrc Hburn.
  rewrite (processPayment_connected engine _ c acct _ w Hacct).
  unfold Gateway.paymentSteps.
  destruct (switchNetwork_run engine c (sourceChain c) (Wallets.mining chain bal k st)
              (started w) (mining_switches _ _ _ _ _ _))
    as [w1 [E1 [_ [_ [_ [_ [l [Hl Fl]]]]]]]].
  exists w1, l. split; [exact Hl|]. split; [exact Fl|].
  erewrite run_bind_fulfilled by exact E1. cbv beta.
  erewrite run_bind_fulfilled by (apply mined_approval; exact Hsrc). cbv beta.
  rewrite (burnStep_throws engine _ c acct e _ _ Hburn). reflexivity.
Qed.

End HookPayments.

(** * The claims *)

Definition user : string := "0x1111111111111111111111111111111111111111".

(** The end-to-end scenario: Ethereum to Arbitrum, amount 10, FAST, with the
    treasuryRebalance hook. *)
Definition fastHookPayment : Component :=
  {| account := Some user;
     sourceChain := 1;
     destinationChain := 42161;
     amount := "10";
     merchantAddress := "0x742d35Cc6634C0532925a3b844Bc9e7595f8C2B2";
     selectedHook := Some "treasuryRebalance";
     fastTransferEnabled := true;
     isProcessing := false;
     balances := ∅ |}.

(** The same payment in STANDARD mode with no hook selected. *)
Definition standardPayment : Component :=
  {| account := Some user;
     sourceChain := 1;
     destinationChain := 42161;
     amount := "10";
     merchantAddress := "0x742d35Cc6634C0532925a3b844Bc9e7595f8C2B2";
     selectedHook := None;
     fastTransferEnabled := false;
     isProcessing := false;
     balances := ∅ |}.

Definition ethereum : Registry.ChainConfig :=
  {| Registry.name := "Ethereum"; Registry.domain := 0; Registry.chainIdHex := "0x1";
     Registry.messageTransmitter := "0x0a992d191DEeC32aFe36203Ad87D7d289a738F81";
     Registry.tokenMessenger := "0xBd3fa81B58Ba92a82136038B25aDec7066af3155";
     Registry.usdc := "0xA0b86991c6218b36c1d19D4a2e9Eb0cE3606eB48";
     Registry.explorer := "https://etherscan.io" |}.

Definition arbitrum : Registry.ChainConfig :=
  {| Registry.name := "Arbitrum"; Registry.domain := 3; Registry.chainIdHex := "0xa4b1";
     Registry.messageTransmitter := "0xC30362313FBBA5cf9163F0bb16a0e01f01A896ca";
     Registry.tokenMessenger := "0x19330d10D9Cc8751218eaf51E8885D058642E08A";
     Registry.usdc := "0xaf88d065e77c8cC2239327C5EDb3A432268e5831";
     Registry.explorer := "https://arbiscan.io" |}.

Definition isSubmission (r : Request) : bool :=
  match r with
  | eth_sendTransaction _ _ _ => true
  | _ => false
  end.

Lemma no_submission_among (chainId : Z) (l : list Request) :
  Forall (switchOrCall chainId) l -> List.filter isSubmission l = [].
Proof.
  intros Fl. induction Fl as [|r l Hr _ IH]; [reflexivity|].
  simpl. rewrite IH. destruct Hr as [[t ->]|[cfg [d [_ ->]]]]; reflexivity.
Qed.

Lemma no_submission_in_polls (m : nat) (tx : RpcValue) :
  List.filter isSubmission (replicate m (eth_getTransactionReceipt tx)) = [].
Proof. induction m; [reflexivity | simpl; assumption]. Qed.

(** The call data of the approval of 10 USDC to Ethereum's token messenger. *)
Definition approveTenOnEthereum : Request :=
  eth_sendTransaction user (Registry.usdc ethereum)
    (EStr ("0x095ea7b3"
             ++ "000000000000000000000000Bd3fa81B58Ba92a82136038B25aDec7066af3155"
             ++ "0000000000000000000000000000000000000000000000000000000000989680")).

(** The end-to-end FAST + hook payment against a wallet that mines every
    transaction at the [S k]-th receipt request with status [st]: the
    approval is the only transaction, and the payment ends in the error
    status. *)
Lemma fast_hook_payment_stops engine chain bal k st n :
  let r := Gateway.processPayment engine (S (k + n)) fastHookPayment
             (Wallets.mining chain bal k st) emptyWorld in
  r.1 = Fulfilled tt
  /\ st_transactionStatus r.2
     = statusOf error "Payment failed: hex.padStart is not a function"
  /\ List.filter isSubmission (requests r.2) = [approveTenOnEthereum].
Proof.
  cbv zeta.
  destruct (payment_stops_after_approval engine chain bal k st n fastHookPayment user
              ethereum (typeError "hex.padStart is not a function") emptyWorld
              eq_refl eq_refl eq_refl) as [w1 [l [Hl [Fl E]]]].
  rewrite E. split; [reflexivity|]. split; [reflexivity|].
  cbn [snd withProcessing withStatus logged afterPolls sent requests].
  rewrite Hl. simpl app.
  rewrite !List.filter_app, (no_submission_among _ _ Fl). simpl.
  rewrite no_submission_in_polls. reflexivity.
Qed.

(** C1 (the code departs from the claim). [encodeFunctionCall] hands the
    length word of [depositForBurnWithHook] to [padHex] as a Number, which has
    no [padStart]: for every [params] the call throws a TypeError instead of
    returning selector, static words, offset, length and padded content. In
    the end-to-end FAST + hook scenario the approval (amount 10000000) is
    submitted and mined, the burn call is never built, and the flow ends in
    the error status, not in success; no other transaction is submitted. *)
Theorem hook_call_encoding_throws :
  (forall engine params,
      exists e, Encoder.encodeFunctionCall engine "depositForBurnWithHook" params = Throws e
                /\ errName e = TypeError)
  /\ (forall engine chain bal k st n,
        let r := Gateway.processPayment engine (S (k + n)) fastHookPayment
                   (Wallets.mining chain bal k st) emptyWorld in
        r.1 = Fulfilled tt
        /\ st_transactionStatus r.2
           = statusOf error "Payment failed: hex.padStart is not a function"
        /\ List.filter isSubmission (requests r.2) = [approveTenOnEthereum]).
Proof.
  split.
  - intros engine params. apply encode_hook_throws.
  - intros engine chain bal k st n. apply fast_hook_payment_stops.
Qed.




(** No request of a payment carries the [depositForBurnWithHook] selector. *)
Lemma paymentRequest_not_hook engine c from to data :
  paymentRequest engine c (eth_sendTransaction from to (EStr data)) ->
  JsString.startsWith "0x1f9014c5" data = false.
Proof.
  intros H. inversion H as [r Hr| | |]; subst.
  - destruct Hr as [[t Ht]|[cfg [d [_ Hd]]]]; discriminate.
  - reflexivity.
  - reflexivity.
Qed.

(** C3 (the code departs from the claim in the FAST + hook case). The branch
    is chosen by [selectedHook && fastTransferEnabled]. In every other case
    the burn data is the [depositForBurnWithCaller] call, whose last word
    (destinationCaller) is 32 zero bytes. With a hook in FAST mode the
    [depositForBurnWithHook] encoding throws, so no burn is submitted at all:
    whatever the wallet does, every request of a payment is a network switch,
    a balance call, a receipt request, the approval, or a
    [depositForBurnWithCaller] burn of a payment without FAST hook, and no
    transaction carries the [depositForBurnWithHook] selector. *)
Theorem burn_call_selection :
  (forall engine c src dst,
      Registry.chainConfig (sourceChain c) = Some src ->
      Registry.chainConfig (destinationChain c) = Some dst ->
      Gateway.hookSelected (selectedHook c) && fastTransferEnabled c = false ->
      Gateway.burnData engine c = Normal (EStr (callerData engine c src dst))
      /\ exists head,
           callerData engine c src dst
           = head ++ "0000000000000000000000000000000000000000000000000000000000000000"
           /\ JsString.startsWith "0x8c7af8a5" head = true)
  /\ (forall engine c,
        Gateway.hookSelected (selectedHook c) && fastTransferEnabled c = true ->
        exists e, Gateway.burnData engine c = Throws e /\ errName e = TypeError)
  /\ (forall engine fuel c (p : Provider) w,
        exists sentNow,
          requests (Gateway.processPayment engine fuel c p w).2 = (requests w ++ sentNow)%list
          /\ Forall (paymentRequest engine c) sentNow
          /\ forall from to data,
               In (eth_sendTransaction from to (EStr data)) sentNow ->
               JsString.startsWith "0x1f9014c5" data = false).
Proof.
  split; [|split].
  - intros engine c src dst Hsrc Hdst Hsel. split.
    + apply burnData_caller; assumption.
    + unfold callerData. eexists. split.
      * rewrite <- !append_assoc. reflexivity.
      * reflexivity.
  - intros engine c Hsel. apply burnData_hook_throws. exact Hsel.
  - intros engine fuel c p w.
    destruct (processPayment_emits engine fuel c p w) as [l [E F]].
    exists l. split; [exact E|]. split; [exact F|].
    intros from to data Hin. apply (paymentRequest_not_hook engine c from to).
    rewrite List.Forall_forall in F. apply F. exact Hin.
Qed.

Lemma burn_call_selection_witness :
  Gateway.burnData ReferenceEngine.engine standardPayment
  = Normal (EStr (callerData ReferenceEngine.engine standardPayment ethereum arbitrum))
  /\ (exists e, Gateway.burnData ReferenceEngine.engine fastHookPayment = Throws e
                /\ errName e = TypeError).
Proof.
  split.
  - apply (proj1 burn_call_selection ReferenceEngine.engine standardPayment
             ethereum arbitrum); reflexivity.
  - apply (proj1 (proj2 burn_call_selection) ReferenceEngine.engine fastHookPayment).
    reflexivity.
Defined.

(** C4 (amended). Nothing in [processPayment] validates the request, and no
    InvalidRequest error exists. What keeps a transfer from starting is the
    wallet check and the button: with no connected account, a payment already
    processing, an empty amount, or an amount that parses to a number that
    is [<= 0], a click on the disabled button does nothing at all, and
    [processPayment] called without an account only raises an alert; in both
    cases no request reaches the provider. Equal source and destination
    chains and the shape of the recipient are not checked. *)
Theorem transfer_start_guards engine fuel c (p : Provider) w :
  Gateway.connected (account c) = None
  \/ isProcessing c = true
  \/ amount c = ""
  \/ JsNumber.leb (JsNumber.parseFloat (amount c)) (JsNumber.ofZ 0) = true ->
  Gateway.clickProcessPayment engine fuel c p w = (Fulfilled tt, w)
  /\ (Gateway.connected (account c) = None ->
      let r := Gateway.processPayment engine fuel c p w in
      r.1 = Fulfilled tt
      /\ requests r.2 = requests w
      /\ st_transactionStatus r.2 = st_transactionStatus w
      /\ alerts r.2 = (alerts w ++ ["Please connect your wallet first"])%list).
Proof.
  intros H. split.
  - unfold Gateway.clickProcessPayment, Gateway.payDisabled.
    destruct H as [H|[H|[H|H]]]; rewrite H; simpl;
      rewrite ?orb_true_r; reflexivity.
  - intros Hacct. cbv zeta. rewrite (processPayment_disconnected engine fuel c p w Hacct).
    repeat split.
Qed.

Lemma transfer_start_guards_witness :
  JsNumber.leb (JsNumber.parseFloat "-5") (JsNumber.ofZ 0) = true
  /\ Gateway.clickProcessPayment ReferenceEngine.engine 5%nat
       {| account := Some user; sourceChain := 1; destinationChain := 42161;
          amount := "-5"; merchantAddress := "0x742d35Cc6634C0532925a3b844Bc9e7595f8C2B2";
          selectedHook := None; fastTransferEnabled := false; isProcessing := false;
          balances := ∅ |}
       (Wallets.mining "0x1" "0x0" 0 "0x1") emptyWorld
     = (Fulfilled tt, emptyWorld).
Proof.
  split; [reflexivity|].
  apply (transfer_start_guards ReferenceEngine.engine 5%nat
           {| account := Some user; sourceChain := 1; destinationChain := 42161;
              amount := "-5"; merchantAddress := "0x742d35Cc6634C0532925a3b844Bc9e7595f8C2B2";
              selectedHook := None; fastTransferEnabled := false; isProcessing := false;
              balances := ∅ |}
           (Wallets.mining "0x1" "0x0" 0 "0x1") emptyWorld).
  right. right. right. reflexivity.
Defined.

(** A request from Ethereum to Ethereum with a recipient that is no address. *)
Definition sameChainPayment : Component :=
  {| account := Some user;
     sourceChain := 1;
     destinationChain := 1;
     amount := "5";
     merchantAddress := "not-an-address";
     selectedHook := None;
     fastTransferEnabled := false;
     isProcessing := false;
     balances := ∅ |}.

(** C4, as stated, fails: a request whose source and destination chain are
    the same and whose recipient is malformed is not refused. The approval
    and the burn are both submitted and the payment ends in success. *)
Lemma same_chain_payment_is_submitted :
  let r := Gateway.processPayment ReferenceEngine.engine 1%nat sameChainPayment
             (Wallets.mining "0x1" "0x0" 0 "0x1") emptyWorld in
  r.1 = Fulfilled tt
  /\ ts_status <$> st_transactionStatus r.2 = Some success
  /\ List.length (List.filter isSubmission (requests r.2)) = 2%nat.
Proof. vm_compute. repeat split. Qed.

(** The names of the selector table. *)
Definition registeredNames : list string := map fst Encoder.functionSignatures.

Lemma lookupName_absent {A} (table : list (string * A)) key :
  ~ In key (map fst table) -> Registry.lookupName table key = None.
Proof.
  induction table as [|[k v] rest IH]; simpl; [reflexivity|].
  intros H. destruct (String.eqb_spec k key) as [->|Hne].
  - exfalso. apply H. left. reflexivity.
  - apply IH. intros Hin. apply H. right. exact Hin.
Qed.

(** C5 (amended). The encoder has no UnknownFunction error. For a name that
    is not one of the five registered ones it reads the selector table, finds
    no own entry, takes no branch, and returns what it read: [undefined], or
    the member of [Object.prototype] of that name. It does not throw and it
    returns no call data. *)
Theorem unknown_function_returns_no_call_data engine functionName params :
  ~ In functionName registeredNames ->
  exists v,
    Encoder.encodeFunctionCall engine functionName params = Normal v
    /\ (v = EUndefined \/ v = EBuiltin functionName)
    /\ forall data, v <> EStr data.
Proof.
  intros H. unfold Encoder.encodeFunctionCall, Encoder.signatureOf.
  rewrite (lookupName_absent Encoder.functionSignatures functionName H).
  destruct (existsb _ _); eexists; (split; [reflexivity|]); split; auto; discriminate.
Qed.

Lemma unknown_function_returns_no_call_data_witness :
  exists v,
    Encoder.encodeFunctionCall ReferenceEngine.engine "transfer"
      {[ "to" := VStr user; "amount" := VNum (JsNumber.ofZ 1) ]} = Normal v
    /\ (v = EUndefined \/ v = EBuiltin "transfer")
    /\ forall data, v <> EStr data.
Proof.
  apply (unknown_function_returns_no_call_data ReferenceEngine.engine "transfer").
  simpl. intros H. decompose [or] H; try discriminate; assumption.
Defined.

(** C5, as stated, fails: an unregistered name does not make the encoder
    fail; it returns [undefined]. *)
Lemma unknown_function_is_not_rejected :
  Encoder.encodeFunctionCall ReferenceEngine.engine "transfer" ∅ = Normal EUndefined
  /\ Encoder.encodeFunctionCall ReferenceEngine.engine "toString" ∅
     = Normal (EBuiltin "toString").
Proof. split; reflexivity. Qed.

(** C6 (the code departs from the claim). The amount is parsed into a
    binary64 Number, multiplied by 1e6 in binary64 and floored. The claim's
    example holds: 1.2345678 gives 1234567. But 2.01, with two fractional
    digits, is stored as a Number slightly below 2.01, the product is
    2009999.9999999998, and the approval submits 2009999 (0x1eab8f) base
    units instead of 2010000. *)
Theorem amount_conversion_uses_binary_floats :
  Gateway.amountInUnits "1.2345678" = JsNumber.ofZ 1234567
  /\ Gateway.amountInUnits "2.01" = JsNumber.ofZ 2009999
  /\ JsNumber.integerValue (Gateway.amountInUnits "2.01") = Some 2009999
  /\ JsNumber.mul (JsNumber.parseFloat "2.01") (JsNumber.ofZ 1000000)
     = S754_finite false 8632884264959999 (-32)
  /\ forall engine,
       Encoder.encodeFunctionCall engine "approve"
         {[ "spender" := VStr (Registry.tokenMessenger ethereum);
            "amount" := VNum (Gateway.amountInUnits "2.01") ]}
       = Normal (EStr ("0x095ea7b3"
                         ++ "000000000000000000000000Bd3fa81B58Ba92a82136038B25aDec7066af3155"
                         ++ "00000000000000000000000000000000000000000000000000000000001eab8f")).
Proof. repeat split; vm_compute; reflexivity. Qed.

(** C8 (the code departs from the claim for payments with a FAST hook). The
    receipt loops look at nothing but whether the answer is truthy: a receipt
    ends the loop whatever it contains, and every payment runs exactly the
    same when every receipt the wallet returns is rewritten (for instance
    marked as reverted). Against a wallet whose transactions are mined with
    status 0x0, a payment without FAST hook still submits the burn after the
    reverted approval and still ends in the success status after the reverted
    burn. The end-to-end FAST + hook payment also gets past its reverted
    approval, but then stops because its burn call cannot be encoded: the
    burn is not submitted and the payment ends in the error status. *)
Theorem receipt_status_is_never_inspected :
  (forall fuel tx (p : Provider) w r,
      p (requests w) (eth_getTransactionReceipt tx) = Resolves (RReceipt r) ->
      (Gateway.pollReceipt (S fuel) tx p w).1 = Fulfilled (RReceipt r))
  /\ (forall engine f fuel c (p : Provider) w,
        Gateway.processPayment engine fuel c (rewriteReceipts f p) w
        = Gateway.processPayment engine fuel c p w)
  /\ (forall engine chain bal k n c acct src dst w,
        Gateway.connected (account c) = Some acct ->
        Registry.chainConfig (sourceChain c) = Some src ->
        Registry.chainConfig (destinationChain c) = Some dst ->
        Gateway.hookSelected (selectedHook c) && fastTransferEnabled c = false ->
        (Gateway.hookSelected (selectedHook c) = true ->
         is_Some (Registry.hookTemplate (default "" (selectedHook c)))) ->
        exists details w',
          Gateway.processPayment engine (S (k + n)) c (Wallets.mining chain bal k "0x0") w
          = (Fulfilled tt, w')
          /\ st_transactionStatus w'
             = Some {| ts_status := success; ts_message := "Payment sent successfully!";
                       ts_details := Some details; ts_attestationReceived := false |}
          /\ In (approveRequest engine c acct src) (requests w')
          /\ In (eth_sendTransaction acct (Registry.tokenMessenger src)
                   (EStr (callerData engine c src dst))) (requests w'))
  /\ (forall engine chain bal k n,
        let r := Gateway.processPayment engine (S (k + n)) fastHookPayment
                   (Wallets.mining chain bal k "0x0") emptyWorld in
        r.1 = Fulfilled tt
        /\ st_transactionStatus r.2
           = statusOf error "Payment failed: hex.padStart is not a function"
        /\ List.filter isSubmission (requests r.2) = [approveTenOnEthereum]).
Proof.
  split; [|split; [|split]].
  - intros fuel tx p w r Hp. rewrite pollReceipt_round. cbv zeta. rewrite Hp. reflexivity.
  - intros engine f fuel c p w. apply processPayment_blind.
  - intros engine chain bal k n c acct src dst w Hacct Hsrc Hdst Hsel Hhook.
    destruct (mined_payment_succeeds engine chain bal k "0x0" n c acct src dst w
                Hacct Hsrc Hdst Hsel Hhook) as [d [w' [E [Hst [_ [Ha Hb]]]]]].
    exists d, w'. auto.
  - intros engine chain bal k n. apply fast_hook_payment_stops.
Qed.

Lemma receipt_status_is_never_inspected_witness :
  exists details w',
    Gateway.processPayment ReferenceEngine.engine 3%nat standardPayment
      (Wallets.mining "0x1" "0x5f5e100" 2 "0x0") emptyWorld
    = (Fulfilled tt, w')
    /\ st_transactionStatus w'
       = Some {| ts_status := success; ts_message := "Payment sent successfully!";
                 ts_details := Some details; ts_attestationReceived := false |}
    /\ In (approveRequest ReferenceEngine.engine standardPayment user ethereum)
          (requests w')
    /\ In (eth_sendTransaction user (Registry.tokenMessenger ethereum)
             (EStr (callerData ReferenceEngine.engine standardPayment ethereum
                      arbitrum)))
          (requests w').
Proof.
  apply (proj1 (proj2 (proj2 receipt_status_is_never_inspected)) ReferenceEngine.engine
           "0x1" "0x5f5e100" 2%nat 0%nat standardPayment user ethereum
           arbitrum emptyWorld).
  - reflexivity.
  - reflexivity.
  - reflexivity.
  - reflexivity.
  - simpl. discriminate.
Defined.

(** * Further properties of the gateway *)

(** ** Strings, numerals and words *)

Lemma length_append (s1 s2 : string) :
  String.length (s1 ++ s2) = (String.length s1 + String.length s2)%nat.
Proof.
  induction s1 as [|ch s1 IH]; [reflexivity|].
  change (S (String.length (s1 ++ s2)) = S (String.length s1 + String.length s2)).
  f_equal. exact IH.
Qed.

Lemma append_cons (ch : ascii) (s1 s2 : string) :
  String ch s1 ++ s2 = String ch (s1 ++ s2).
Proof. reflexivity. Qed.

Lemma append_nil_l (s : string) : "" ++ s = s.
Proof. reflexivity. Qed.

Lemma slice_length (s : string) (n : nat) :
  String.length (JsString.slice s n) = (String.length s - n)%nat.
Proof.
  revert s. induction n as [|n IH]; intros s.
  - destruct s; simpl; lia.
  - destruct s as [|ch s]; simpl; [reflexivity | apply IH].
Qed.

Lemma slice_zero (s : string) : JsString.slice s 0 = s.
Proof. destruct s; reflexivity. Qed.

Lemma slice_append (s1 s2 : string) :
  JsString.slice (s1 ++ s2) (String.length s1) = s2.
Proof.
  induction s1 as [|ch s1 IH]; [destruct s2; reflexivity|].
  rewrite append_cons. simpl. exact IH.
Qed.

Lemma substring_prefix (s1 s2 : string) :
  substring 0 (String.length s1) (s1 ++ s2) = s1.
Proof.
  induction s1 as [|ch s1 IH]; [destruct s2; reflexivity|].
  rewrite append_cons. simpl. rewrite IH. reflexivity.
Qed.

(** A run of [k] zero digits. *)
Fixpoint zeros (k : nat) : string :=
  match k with
  | O => ""
  | S k' => String "0" (zeros k')
  end.

Lemma zeros_length k : String.length (zeros k) = k.
Proof. induction k; simpl; congruence. Qed.

Lemma filler_zeros n : JsString.filler n "" "0" = zeros n /\ JsString.filler n "0" "0" = zeros n.
Proof.
  assert (H : JsString.filler n "" "0" = zeros n).
  { induction n as [|n IH]; simpl; [reflexivity | rewrite IH; reflexivity]. }
  split; [exact H|].
  destruct n as [|n]; simpl; [reflexivity|].
  f_equal. clear H. induction n as [|n IH]; simpl; [reflexivity | rewrite IH; reflexivity].
Qed.

Lemma padStart_zeros (s : string) (n : nat) :
  JsString.padStart s n "0" = zeros (n - String.length s) ++ s.
Proof.
  unfold JsString.padStart.
  destruct (Nat.leb_spec n (String.length s)) as [H|H].
  - replace (n - String.length s)%nat with O by lia. reflexivity.
  - rewrite (proj2 (filler_zeros _)). reflexivity.
Qed.

Lemma padStart_length (s : string) (n : nat) :
  String.length (JsString.padStart s n "0") = Nat.max n (String.length s).
Proof. rewrite padStart_zeros, length_append, zeros_length. lia. Qed.

(** *** Digits *)

(** Every character of [s] is a digit of the base. *)
Definition allDigits (radix : Z) (s : string) : Prop :=
  JsString.spanDigits radix s = (s, "").

Lemma allDigits_nil radix : allDigits radix "".
Proof. reflexivity. Qed.

Lemma allDigits_cons radix ch s :
  JsString.isDigitIn radix ch = true -> allDigits radix s -> allDigits radix (String ch s).
Proof. unfold allDigits. intros Hch Hs. simpl. rewrite Hch, Hs. reflexivity. Qed.

Lemma allDigits_inv radix ch s :
  allDigits radix (String ch s) -> JsString.isDigitIn radix ch = true /\ allDigits radix s.
Proof.
  unfold allDigits. simpl. destruct (JsString.isDigitIn radix ch); [|discriminate].
  destruct (JsString.spanDigits radix s) as [ds tl]. intros H. inversion H. subst. auto.
Qed.

Lemma allDigits_app radix s1 s2 :
  allDigits radix s1 -> allDigits radix s2 -> allDigits radix (s1 ++ s2).
Proof.
  induction s1 as [|ch s1 IH]; intros H1 H2; [exact H2|].
  apply allDigits_inv in H1 as [Hch H1]. rewrite append_cons.
  apply allDigits_cons; auto.
Qed.

Lemma allDigits_zeros radix k : 0 < radix -> allDigits radix (zeros k).
Proof.
  intros Hr. induction k as [|k IH]; [reflexivity|].
  apply allDigits_cons; [|exact IH].
  unfold JsString.isDigitIn. simpl. apply Z.ltb_lt. exact Hr.
Qed.

Lemma digitValue_digitChar d :
  0 <= d < 36 -> JsString.digitValue (JsString.digitChar d) = Some d.
Proof.
  intros Hd.
  assert (H : exists k : nat, (k < 36)%nat /\ d = Z.of_nat k).
  { exists (Z.to_nat d). lia. }
  destruct H as [k [Hk ->]].
  do 36 (destruct k as [|k]; [reflexivity|]). lia.
Qed.

Lemma isDigitIn_digitChar radix d :
  radix <= 36 -> 0 <= d < radix -> JsString.isDigitIn radix (JsString.digitChar d) = true.
Proof.
  intros Hr Hd. unfold JsString.isDigitIn. rewrite digitValue_digitChar by lia.
  apply Z.ltb_lt. lia.
Qed.

Lemma digitsOf_allDigits radix fuel : forall n acc,
  2 <= radix <= 36 -> 0 <= n -> allDigits radix acc ->
  allDigits radix (JsString.digitsOf fuel radix n acc).
Proof.
  induction fuel as [|fuel IH]; intros n acc Hr Hn Hacc; simpl; [exact Hacc|].
  assert (Hd : allDigits radix (String (JsString.digitChar (n mod radix)) acc)).
  { apply allDigits_cons; [|exact Hacc]. apply isDigitIn_digitChar; [lia|].
    apply Z.mod_pos_bound. lia. }
  destruct (n / radix =? 0); [exact Hd|].
  apply IH; [exact Hr | apply Z.div_pos; lia | exact Hd].
Qed.

Lemma digitsOf_value radix fuel : forall n acc,
  2 <= radix <= 36 -> 0 <= n < 2 ^ Z.of_nat fuel ->
  JsString.digitsValue radix 0 (JsString.digitsOf fuel radix n acc)
  = JsString.digitsValue radix n acc.
Proof.
  induction fuel as [|fuel IH]; intros n acc Hr Hn.
  - simpl in *. replace n with 0 by lia. reflexivity.
  - cbn [JsString.digitsOf].
    assert (Hmod : 0 <= n mod radix < radix) by (apply Z.mod_pos_bound; lia).
    assert (Hstep : JsString.digitsValue radix (n / radix)
                      (String (JsString.digitChar (n mod radix)) acc)
                    = JsString.digitsValue radix n acc).
    { cbn [JsString.digitsValue]. rewrite digitValue_digitChar by lia. simpl default.
      f_equal. rewrite (Z.div_mod n radix) at 3 by lia. lia. }
    destruct (Z.eqb_spec (n / radix) 0) as [Hq|Hq].
    + rewrite <- Hstep, Hq. reflexivity.
    + rewrite IH; [exact Hstep | exact Hr |].
      split; [apply Z.div_pos; lia|].
      apply Z.div_lt_upper_bound; [lia|].
      rewrite Nat2Z.inj_succ, Z.pow_succ_r in Hn by lia.
      assert (0 <= 2 ^ Z.of_nat fuel) by (apply Z.pow_nonneg; lia). nia.
Qed.

Lemma digitsOf_nonempty fuel radix n acc :
  exists ch rest, JsString.digitsOf (S fuel) radix n acc = String ch rest.
Proof.
  revert n acc. induction fuel as [|fuel IH]; intros n acc.
  - simpl. destruct (n / radix =? 0); eauto.
  - cbn [JsString.digitsOf]. destruct (n / radix =? 0); [eauto|].
    apply IH.
Qed.

Lemma digitsOf_length radix fuel : forall n acc,
  (String.length (JsString.digitsOf fuel radix n acc) <= fuel + String.length acc)%nat.
Proof.
  induction fuel as [|fuel IH]; intros n acc; simpl; [lia|].
  destruct (n / radix =? 0); [simpl; lia|].
  etransitivity; [apply IH|]. simpl. lia.
Qed.

Lemma numeral_allDigits radix n :
  2 <= radix <= 36 -> 0 <= n -> allDigits radix (JsString.numeral radix n).
Proof. intros Hr Hn. apply digitsOf_allDigits; auto using allDigits_nil. Qed.

Lemma numeral_value radix n :
  2 <= radix <= 36 -> 0 <= n ->
  JsString.digitsValue radix 0 (JsString.numeral radix n) = n.
Proof.
  intros Hr Hn. unfold JsString.numeral. rewrite digitsOf_value; [reflexivity | exact Hr |].
  split; [exact Hn|].
  destruct (Z.eq_dec n 0) as [->|Hz]; [reflexivity|].
  rewrite Nat2Z.inj_succ, Z2Nat.id by apply Z.log2_nonneg.
  apply Z.log2_spec. lia.
Qed.

Lemma numeral_nonempty radix n : exists ch rest, JsString.numeral radix n = String ch rest.
Proof. apply digitsOf_nonempty. Qed.

Lemma numeral_length radix n :
  (String.length (JsString.numeral radix n) <= S (Z.to_nat (Z.log2 n)))%nat.
Proof.
  unfold JsString.numeral. etransitivity; [apply digitsOf_length|]. simpl. lia.
Qed.

Lemma wholeNumeral_digits radix s :
  allDigits radix s -> s <> "" ->
  Gateway.wholeNumeral radix s = Some (JsString.digitsValue radix 0 s).
Proof.
  unfold allDigits, Gateway.wholeNumeral. intros -> Hs.
  destruct s; [congruence | reflexivity].
Qed.

Lemma wholeNumeral_numeral radix n :
  2 <= radix <= 36 -> 0 <= n ->
  Gateway.wholeNumeral radix (JsString.numeral radix n) = Some n.
Proof.
  intros Hr Hn. rewrite wholeNumeral_digits.
  - rewrite numeral_value by assumption. reflexivity.
  - apply numeral_allDigits; assumption.
  - destruct (numeral_nonempty radix n) as [ch [rest ->]]. discriminate.
Qed.

(** ** Integers as Numbers *)

Lemma digits2_pos_size m : digits2_pos m = Pos.size m.
Proof. induction m as [m IH|m IH|]; simpl; congruence. Qed.

Lemma digits2_pos_bounds m :
  2 ^ (Z.pos (digits2_pos m) - 1) <= Z.pos m < 2 ^ Z.pos (digits2_pos m).
Proof.
  rewrite digits2_pos_size. split.
  - pose proof (Pos.size_le m) as H.
    assert (H' : 2 ^ Z.pos (Pos.size m) <= 2 * Z.pos m).
    { change (2 * Z.pos m) with (Z.pos m~0). rewrite <- Pos2Z.inj_pow. apply Pos2Z.pos_le_pos, H. }
    replace (Z.pos (Pos.size m)) with (Z.succ (Z.pos (Pos.size m) - 1)) in H' by lia.
    rewrite Z.pow_succ_r in H' by lia. lia.
  - pose proof (Pos.size_gt m) as H. rewrite <- Pos2Z.inj_pow. apply Pos2Z.pos_lt_pos, H.
Qed.

Lemma digits2_pos_unique m k :
  2 ^ (k - 1) <= Z.pos m < 2 ^ k -> Z.pos (digits2_pos m) = k.
Proof.
  intros [Hlo Hhi]. pose proof (digits2_pos_bounds m) as [Hlo' Hhi'].
  assert (0 < k).
  { destruct (Z.lt_trichotomy k 0) as [Hk|[Hk|Hk]]; [|subst; simpl in *; lia|lia].
    rewrite Z.pow_neg_r in Hhi by lia. lia. }
  destruct (Z.lt_trichotomy (Z.pos (digits2_pos m)) k) as [Hlt|[Heq|Hgt]]; [|exact Heq|].
  - assert (2 ^ Z.pos (digits2_pos m) <= 2 ^ (k - 1)) by (apply Z.pow_le_mono_r; lia). lia.
  - assert (2 ^ k <= 2 ^ (Z.pos (digits2_pos m) - 1)) by (apply Z.pow_le_mono_r; lia). lia.
Qed.

Lemma iter_xO_value m d : Z.pos (Pos.iter xO m d) = Z.pos m * 2 ^ Z.pos d.
Proof.
  induction d as [|d IH] using Pos.peano_ind.
  - simpl. lia.
  - rewrite Pos.iter_succ, Pos2Z.inj_xO, IH, Pos2Z.inj_succ, Z.pow_succ_r by lia. lia.
Qed.

(** A mantissa of 53 bits with an exponent in range is left as it is. *)
Lemma binary_round_aux_canonical sx mz ez :
  Z.pos (digits2_pos mz) = 53 -> -1074 <= ez <= 971 ->
  binary_round_aux JsNumber.prec JsNumber.emax sx (Z.pos mz) ez loc_Exact
  = S754_finite sx mz ez.
Proof.
  intros Hd He. unfold binary_round_aux, shr_fexp, fexp, emin, Zdigits2,
    JsNumber.prec, JsNumber.emax.
  rewrite Hd.
  replace (Z.max (53 + ez - 53) (3 - 1024 - 53) - ez) with 0 by lia.
  cbn [shr shr_record_of_loc shr_m loc_of_shr_record round_nearest_even Zdigits2].
  rewrite Hd.
  replace (Z.max (53 + ez - 53) (3 - 1024 - 53) - ez) with 0 by lia.
  cbn [shr shr_record_of_loc shr_m].
  destruct (Z.leb_spec ez (1024 - 53)); [reflexivity | lia].
Qed.

(** The Number of a positive integer below 2^53: its 53-bit normal form. *)
Lemma binary_round_integer sx m :
  Z.pos m < 2 ^ 53 ->
  exists mz ez,
    binary_round JsNumber.prec JsNumber.emax sx m 0 = S754_finite sx mz ez
    /\ -52 <= ez <= 0
    /\ Z.pos mz = Z.pos m * 2 ^ (- ez).
Proof.
  intros Hm. pose proof (digits2_pos_bounds m) as [Hlo Hhi].
  assert (Hsize : Z.pos (digits2_pos m) <= 53).
  { destruct (Z.le_gt_cases (Z.pos (digits2_pos m)) 53) as [H|H]; [exact H|].
    assert (2 ^ 53 <= 2 ^ (Z.pos (digits2_pos m) - 1)) by (apply Z.pow_le_mono_r; lia). lia. }
  unfold binary_round, shl_align, fexp, emin, JsNumber.prec, JsNumber.emax.
  replace (Z.max (Z.pos (digits2_pos m) + 0 - 53) (3 - 1024 - 53) - 0)
    with (Z.pos (digits2_pos m) - 53) by lia.
  replace (Z.max (Z.pos (digits2_pos m) + 0 - 53) (3 - 1024 - 53))
    with (Z.pos (digits2_pos m) - 53) by lia.
  destruct (Z.pos (digits2_pos m) - 53) as [|d|d] eqn:Hd; [ | lia | ].
  - exists m, 0. split; [|split; [lia | simpl; lia]].
    apply binary_round_aux_canonical; lia.
  - exists (Pos.iter xO m d), (Z.neg d). split; [|split].
    + apply binary_round_aux_canonical; [|lia].
      apply digits2_pos_unique. rewrite iter_xO_value.
      assert (E1 : 2 ^ (53 - 1) = 2 ^ (Z.pos (digits2_pos m) - 1) * 2 ^ Z.pos d).
      { rewrite <- Z.pow_add_r by lia. f_equal. lia. }
      assert (E2 : 2 ^ 53 = 2 ^ Z.pos (digits2_pos m) * 2 ^ Z.pos d).
      { rewrite <- Z.pow_add_r by lia. f_equal. lia. }
      rewrite E1, E2.
      assert (0 < 2 ^ Z.pos d) by (apply Z.pow_pos_nonneg; lia).
      split; [apply Z.mul_le_mono_nonneg_r; lia | apply Z.mul_lt_mono_pos_r; lia].
    + lia.
    + rewrite iter_xO_value. reflexivity.
Qed.

Lemma integerValue_normal sx mz ez n :
  -52 <= ez <= 0 -> Z.pos mz = n * 2 ^ (- ez) ->
  JsNumber.integerValue (S754_finite sx mz ez) = Some ((if sx then -1 else 1) * n).
Proof.
  intros He Hm. unfold JsNumber.integerValue.
  assert (Hp : 0 < 2 ^ (- ez)) by (apply Z.pow_pos_nonneg; lia).
  destruct (Z.leb_spec 0 ez) as [H0|H0].
  - replace ez with 0 in * by lia. simpl in Hm. f_equal. simpl. lia.
  - rewrite Hm, Z.mod_mul, Z.eqb_refl, Z.div_mul by lia. reflexivity.
Qed.

(** Integers below 2^53 in magnitude are represented exactly. *)
Lemma safeInteger_ofZ n :
  Z.abs n < 2 ^ 53 -> JsNumber.safeInteger (JsNumber.ofZ n) = Some n.
Proof.
  intros Hn. unfold JsNumber.safeInteger, JsNumber.ofZ, binary_normalize.
  destruct n as [|m|m].
  - reflexivity.
  - destruct (binary_round_integer false m) as [mz [ez [-> [He Hm]]]]; [lia|].
    rewrite (integerValue_normal false mz ez (Z.pos m) He Hm).
    replace (1 * Z.pos m) with (Z.pos m) by lia.
    destruct (Z.ltb_spec (Z.abs (Z.pos m)) (2 ^ 53)); [reflexivity | lia].
  - destruct (binary_round_integer true m) as [mz [ez [-> [He Hm]]]]; [lia|].
    rewrite (integerValue_normal true mz ez (Z.pos m) He Hm).
    replace (-1 * Z.pos m) with (Z.neg m) by lia.
    destruct (Z.ltb_spec (Z.abs (Z.neg m)) (2 ^ 53)); [reflexivity | lia].
Qed.

Lemma ofZ_finite n :
  Z.abs n < 2 ^ 53 ->
  match JsNumber.ofZ n with
  | S754_nan | S754_infinity _ => False
  | _ => True
  end.
Proof.
  intros Hn. unfold JsNumber.ofZ, binary_normalize. destruct n as [|m|m]; [exact I | |].
  - destruct (binary_round_integer false m) as [mz [ez [-> _]]]; [lia | exact I].
  - destruct (binary_round_integer true m) as [mz [ez [-> _]]]; [lia | exact I].
Qed.

Section NumberText.

Variable engine : Engine.

(** [n.toString(16)] is the hexadecimal numeral of [n]. *)
Lemma toString16_ofZ n :
  Z.abs n < 2 ^ 53 ->
  Encoder.toString16 engine (JsNumber.ofZ n) = JsString.numeralZ 16 n.
Proof.
  intros Hn. unfold Encoder.toString16.
  pose proof (ofZ_finite n Hn) as Hf. rewrite (safeInteger_ofZ n Hn).
  destruct (JsNumber.ofZ n); try contradiction; reflexivity.
Qed.

End NumberText.

(** *** Characters *)

Lemma digit_not_space radix ch :
  JsString.isDigitIn radix ch = true -> JsString.isWhiteSpace ch = false.
Proof.
  unfold JsString.isDigitIn. intros H.
  destruct ch as [[] [] [] [] [] [] [] []]; try reflexivity; discriminate H.
Qed.

(** A digit is not a sign. *)
Lemma digit_not_sign radix ch (rest : string) :
  JsString.isDigitIn radix ch = true ->
  match String ch rest with
  | String "-" r => (true, r)
  | String "+" r => (false, r)
  | _ => (false, String ch rest)
  end = (false, String ch rest).
Proof.
  unfold JsString.isDigitIn. intros H.
  destruct ch as [[] [] [] [] [] [] [] []]; try reflexivity; discriminate H.
Qed.

(** A hexadecimal digit is not the letter of a radix prefix. *)
Lemma hexdigit_not_x ch :
  JsString.isDigitIn 16 ch = true -> Ascii.eqb "x" ch = false /\ Ascii.eqb "X" ch = false.
Proof.
  intros H. destruct ch as [[] [] [] [] [] [] [] []]; try (split; reflexivity); discriminate H.
Qed.

Lemma trimStart_digits radix s : allDigits radix s -> JsString.trimStart s = s.
Proof.
  destruct s as [|ch s]; [reflexivity|]. intros H.
  apply allDigits_inv in H as [Hch _]. simpl.
  rewrite (digit_not_space radix ch Hch). reflexivity.
Qed.

Lemma no_hex_prefix s :
  allDigits 16 s ->
  JsString.startsWith "0x" s || JsString.startsWith "0X" s = false.
Proof.
  intros H. destruct s as [|a [|b s]]; try (simpl; rewrite ?andb_false_r; reflexivity).
  apply allDigits_inv in H as [_ H]. apply allDigits_inv in H as [Hb _].
  destruct (hexdigit_not_x b Hb) as [E1 E2].
  cbn [JsString.startsWith]. rewrite E1, E2. rewrite !andb_false_r. reflexivity.
Qed.

(** [parseInt] of a string of hexadecimal digits. *)
Lemma parseInt16_digits s :
  allDigits 16 s -> s <> "" ->
  JsNumber.parseInt s (Some 16) = JsNumber.ofZ (JsString.digitsValue 16 0 s).
Proof.
  intros Hs Hne. unfold JsNumber.parseInt.
  rewrite (trimStart_digits 16 s Hs).
  destruct s as [|ch rest]; [congruence|].
  pose proof (allDigits_inv 16 ch rest Hs) as [Hch _].
  rewrite (digit_not_sign 16 ch rest Hch).
  rewrite (no_hex_prefix _ Hs).
  unfold allDigits in Hs. rewrite Hs. reflexivity.
Qed.

(** ** The hexadecimal helpers *)

Section HexHelpers.

Variable engine : Engine.

Lemma toHex_natural n :
  0 <= n < 2 ^ 53 ->
  Encoder.toHex engine (JsNumber.ofZ n) = String "0" (String "x" (JsString.numeral 16 n)).
Proof.
  intros Hn. unfold Encoder.toHex. rewrite toString16_ofZ by lia.
  unfold JsString.numeralZ. destruct (Z.ltb_spec n 0); [lia | reflexivity].
Qed.

Lemma toHex_negative n :
  - 2 ^ 53 < n < 0 ->
  Encoder.toHex engine (JsNumber.ofZ n)
  = String "0" (String "x" (String "-" (JsString.numeral 16 (- n)))).
Proof.
  intros Hn. unfold Encoder.toHex. rewrite toString16_ofZ by lia.
  unfold JsString.numeralZ. destruct (Z.ltb_spec n 0); [reflexivity | lia].
Qed.

Lemma fromHex_prefixed s :
  allDigits 16 s -> s <> "" ->
  Encoder.fromHex (String "0" (String "x" s)) = JsNumber.ofZ (JsString.digitsValue 16 0 s).
Proof.
  intros Hs Hne. unfold Encoder.fromHex, JsNumber.parseInt.
  replace (JsString.trimStart (String "0" (String "x" s)))
    with (String "0" (String "x" s)) by reflexivity.
  cbv beta iota zeta.
  cbn [JsString.startsWith Ascii.eqb Bool.eqb andb orb JsString.slice].
  rewrite slice_zero. unfold allDigits in Hs. rewrite Hs.
  destruct s; [congruence | reflexivity].
Qed.

End HexHelpers.

(** X1. [padHex] on a string pads on the left with zero digits up to
    [length] characters and never truncates: the result is the input
    preceded by [length - |hex|] zeros, so an input longer than [length]
    comes back unchanged and the result has [max length |hex|] characters. *)
Theorem padHex_pads_and_never_truncates (hex : string) (length : nat) :
  Encoder.padHex (VStr hex) length = Normal (zeros (length - String.length hex) ++ hex)
  /\ (exists padded, Encoder.padHex (VStr hex) length = Normal padded
                     /\ String.length padded = Nat.max length (String.length hex)).
Proof.
  split.
  - unfold Encoder.padHex. rewrite padStart_zeros. reflexivity.
  - unfold Encoder.padHex. eexists. split; [reflexivity | apply padStart_length].
Qed.

(** X2. [fromHex] undoes [toHex] on the non-negative safe integers: for
    [0 <= n < 2^53], [fromHex(toHex(n))] is [n]. *)
Theorem fromHex_inverts_toHex engine n :
  0 <= n < 2 ^ 53 ->
  Encoder.fromHex (Encoder.toHex engine (JsNumber.ofZ n)) = JsNumber.ofZ n
  /\ JsNumber.safeInteger (Encoder.fromHex (Encoder.toHex engine (JsNumber.ofZ n))) = Some n.
Proof.
  intros Hn.
  assert (E : Encoder.fromHex (Encoder.toHex engine (JsNumber.ofZ n)) = JsNumber.ofZ n).
  { rewrite toHex_natural by exact Hn. rewrite fromHex_prefixed.
    - rewrite numeral_value by lia. reflexivity.
    - apply numeral_allDigits; lia.
    - destruct (numeral_nonempty 16 n) as [ch [rest ->]]. discriminate. }
  split; [exact E|]. rewrite E. apply safeInteger_ofZ. lia.
Qed.

Lemma fromHex_inverts_toHex_witness :
  Encoder.fromHex (Encoder.toHex ReferenceEngine.engine (JsNumber.ofZ 42161))
  = JsNumber.ofZ 42161
  /\ JsNumber.safeInteger
       (Encoder.fromHex (Encoder.toHex ReferenceEngine.engine (JsNumber.ofZ 42161)))
     = Some 42161.
Proof. apply (fromHex_inverts_toHex ReferenceEngine.engine 42161). lia. Defined.

(** X3. The round trip fails below zero: [toHex] of a negative safe integer
    is ["0x-..."], which [fromHex] reads as NaN. *)
Theorem fromHex_rejects_negative_toHex engine n :
  - 2 ^ 53 < n < 0 ->
  Encoder.fromHex (Encoder.toHex engine (JsNumber.ofZ n)) = JsNumber.NaN.
Proof.
  intros Hn. rewrite toHex_negative by exact Hn. reflexivity.
Qed.

Lemma fromHex_rejects_negative_toHex_witness :
  Encoder.fromHex (Encoder.toHex ReferenceEngine.engine (JsNumber.ofZ (-255))) = JsNumber.NaN.
Proof. apply (fromHex_rejects_negative_toHex ReferenceEngine.engine (-255)). lia. Defined.

(** ** The encoder: when it returns, and what *)

Definition isText (v : value) : bool :=
  match v with VStr _ => true | _ => false end.

(** Values with a [toString] method. *)
Definition printable (v : value) : bool :=
  match v with VNum _ | VStr _ => true | _ => false end.

Definition returns {A} (c : Completion A) : bool :=
  match c with Normal _ => true | Throws _ => false end.

Lemma signature_cases (functionName sig : string) :
  Registry.lookupName Encoder.functionSignatures functionName = Some sig ->
  (functionName = "approve" /\ sig = "0x095ea7b3")
  \/ (functionName = "balanceOf" /\ sig = "0x70a08231")
  \/ (functionName = "decimals" /\ sig = "0x313ce567")
  \/ (functionName = "depositForBurnWithCaller" /\ sig = "0x8c7af8a5")
  \/ (functionName = "depositForBurnWithHook" /\ sig = "0x1f9014c5").
Proof.
  unfold Encoder.functionSignatures, Registry.lookupName. intros H.
  repeat match type of H with
         | context [String.eqb ?a functionName] =>
             destruct (String.eqb_spec a functionName)
         end;
    try discriminate; inversion H; subst; tauto.
Qed.

Section EncoderResults.

Variable engine : Engine.

(** Whatever the encoder returns as a string starts with the selector of
    the function it was asked for. *)
Lemma encode_selector functionName params d :
  Encoder.encodeFunctionCall engine functionName params = Normal (EStr d) ->
  Registry.lookupName Encoder.functionSignatures functionName = Some (substring 0 10 d).
Proof.
  unfold Encoder.encodeFunctionCall, Encoder.signatureOf.
  destruct (Registry.lookupName Encoder.functionSignatures functionName) as [sig|] eqn:E.
  - destruct (signature_cases _ _ E) as [[-> ->]|[[-> ->]|[[-> ->]|[[-> ->]|[-> ->]]]]];
      cbn [String.eqb Ascii.eqb Bool.eqb].
    + destruct (field params "spender"); cbn; try discriminate.
      destruct (field params "amount"); cbn; try discriminate;
        intros H; inversion H; f_equal; symmetry; apply (substring_prefix "0x095ea7b3").
    + destruct (field params "account"); cbn; try discriminate.
      intros H; inversion H; f_equal; symmetry; apply (substring_prefix "0x70a08231").
    + intros H; inversion H; reflexivity.
    + destruct (field params "amount"); cbn; try discriminate;
        (destruct (field params "destinationDomain"); cbn; try discriminate);
        (destruct (field params "mintRecipient"); cbn; try discriminate);
        (destruct (field params "burnToken"); cbn; try discriminate);
        (destruct (field params "destinationCaller"); cbn; try discriminate);
        intros H; inversion H; f_equal; symmetry; apply (substring_prefix "0x8c7af8a5").
    + intros H. destruct (encode_hook_throws engine params) as [e [He _]].
      unfold Encoder.encodeFunctionCall, Encoder.signatureOf in He.
      rewrite E in He. cbn [String.eqb Ascii.eqb Bool.eqb] in He. congruence.
  - destruct (existsb _ _); discriminate.
Qed.

Lemma encode_throws_TypeError functionName params :
  match Encoder.encodeFunctionCall engine functionName params with
  | Throws e => errName e = TypeError /\ errCode e = None
  | Normal _ => True
  end.
Proof.
  unfold Encoder.encodeFunctionCall, Encoder.signatureOf.
  destruct (Registry.lookupName Encoder.functionSignatures functionName) as [sig|] eqn:E.
  - destruct (signature_cases _ _ E) as [[-> ->]|[[-> ->]|[[-> ->]|[[-> ->]|[-> ->]]]]];
      cbn [String.eqb Ascii.eqb Bool.eqb].
    + destruct (field params "spender"); cbn; auto.
      destruct (field params "amount"); cbn; auto.
    + destruct (field params "account"); cbn; auto.
    + exact I.
    + destruct (field params "amount"); cbn; auto;
        (destruct (field params "destinationDomain"); cbn; auto);
        (destruct (field params "mintRecipient"); cbn; auto);
        (destruct (field params "burnToken"); cbn; auto);
        (destruct (field params "destinationCaller"); cbn; auto).
    + destruct (field params "amount"); cbn; auto;
        (destruct (field params "destinationDomain"); cbn; auto);
        (destruct (field params "mintRecipient"); cbn; auto);
        (destruct (field params "burnToken"); cbn; auto);
        (destruct (field params "hookData"); cbn; auto).
  - destruct (existsb _ _); exact I.
Qed.

End EncoderResults.

(** X4. The call data identifies the function: two calls of
    [encodeFunctionCall] that return the same string were made with the same
    function name, because every returned string starts with the selector of
    its function and the five selectors differ. *)
Theorem call_data_identifies_the_function engine f g (p q : Params) d :
  Encoder.encodeFunctionCall engine f p = Normal (EStr d) ->
  Encoder.encodeFunctionCall engine g q = Normal (EStr d) ->
  f = g /\ Registry.lookupName Encoder.functionSignatures f = Some (substring 0 10 d).
Proof.
  intros Hf Hg. apply encode_selector in Hf, Hg. split; [|exact Hf].
  destruct (signature_cases _ _ Hf) as [[-> E1]|[[-> E1]|[[-> E1]|[[-> E1]|[-> E1]]]]];
    destruct (signature_cases _ _ Hg) as [[-> E2]|[[-> E2]|[[-> E2]|[[-> E2]|[-> E2]]]]];
    try reflexivity; rewrite E1 in E2; discriminate E2.
Qed.

Lemma call_data_identifies_the_function_witness :
  "decimals" = "decimals"
  /\ Registry.lookupName Encoder.functionSignatures "decimals"
     = Some (substring 0 10 "0x313ce567").
Proof.
  apply (call_data_identifies_the_function ReferenceEngine.engine "decimals" "decimals"
           ∅ {[ "account" := VNull ]} "0x313ce567"); reflexivity.
Defined.

(** X5. Which arguments make [encodeFunctionCall] throw. [approve] returns
    exactly when [spender] is a string and [amount] a number or a string;
    [balanceOf] exactly when [account] is a string; [decimals] always;
    [depositForBurnWithCaller] exactly when [amount] and [destinationDomain]
    are numbers or strings and [mintRecipient], [burnToken] and
    [destinationCaller] are strings; [depositForBurnWithHook] never. A name
    outside the table always returns. Whatever is thrown is a TypeError. *)
Theorem encoder_throws_exactly_on_ill_typed_fields engine (params : Params) :
  returns (Encoder.encodeFunctionCall engine "approve" params)
  = isText (field params "spender") && printable (field params "amount")
  /\ returns (Encoder.encodeFunctionCall engine "balanceOf" params)
     = isText (field params "account")
  /\ returns (Encoder.encodeFunctionCall engine "decimals" params) = true
  /\ returns (Encoder.encodeFunctionCall engine "depositForBurnWithCaller" params)
     = printable (field params "amount") && printable (field params "destinationDomain")
       && isText (field params "mintRecipient") && isText (field params "burnToken")
       && isText (field params "destinationCaller")
  /\ returns (Encoder.encodeFunctionCall engine "depositForBurnWithHook" params) = false
  /\ (forall functionName,
        Registry.lookupName Encoder.functionSignatures functionName = None ->
        returns (Encoder.encodeFunctionCall engine functionName params) = true)
  /\ (forall functionName,
        match Encoder.encodeFunctionCall engine functionName params with
        | Throws e => errName e = TypeError /\ errCode e = None
        | Normal _ => True
        end).
Proof.
  split; [|split; [|split; [|split; [|split; [|split]]]]].
  - unfold Encoder.encodeFunctionCall.
    change (Encoder.signatureOf "approve") with (EStr "0x095ea7b3").
    cbn [String.eqb Ascii.eqb Bool.eqb].
    destruct (field params "spender"); cbn; try reflexivity.
    destruct (field params "amount"); reflexivity.
  - unfold Encoder.encodeFunctionCall.
    change (Encoder.signatureOf "balanceOf") with (EStr "0x70a08231").
    cbn [String.eqb Ascii.eqb Bool.eqb].
    destruct (field params "account"); reflexivity.
  - reflexivity.
  - unfold Encoder.encodeFunctionCall.
    change (Encoder.signatureOf "depositForBurnWithCaller") with (EStr "0x8c7af8a5").
    cbn [String.eqb Ascii.eqb Bool.eqb].
    destruct (field params "amount"); cbn; try reflexivity;
      (destruct (field params "destinationDomain"); cbn; try reflexivity);
      (destruct (field params "mintRecipient"); cbn; try reflexivity);
      (destruct (field params "burnToken"); cbn; try reflexivity);
      (destruct (field params "destinationCaller"); reflexivity).
  - destruct (encode_hook_throws engine params) as [e [-> _]]. reflexivity.
  - intros functionName H. unfold Encoder.encodeFunctionCall, Encoder.signatureOf.
    rewrite H. destruct (existsb _ _); reflexivity.
  - intros functionName. apply (encode_throws_TypeError engine functionName params).
Qed.

(** ** The words of the call data *)

Lemma digitsValue_zeros radix k s :
  JsString.digitsValue radix 0 (zeros k ++ s) = JsString.digitsValue radix 0 s.
Proof.
  induction k as [|k IH]; [reflexivity|].
  change (zeros (S k) ++ s) with (String "0" (zeros k ++ s)).
  cbn [JsString.digitsValue]. exact IH.
Qed.

Lemma numeral16_fits n : 0 <= n < 2 ^ 53 -> (String.length (JsString.numeral 16 n) <= 53)%nat.
Proof.
  intros Hn. etransitivity; [apply numeral_length|].
  destruct (Z.eq_dec n 0) as [->|Hz]; [simpl; lia|].
  assert (Z.log2 n < 53) by (apply Z.log2_lt_pow2; lia).
  pose proof (Z.log2_nonneg n). lia.
Qed.

(** A 32-byte word holding a natural number reads back as that number. *)
Lemma word_value n :
  0 <= n < 2 ^ 53 ->
  let word := JsString.padStart (JsString.numeral 16 n) 64 "0" in
  String.length word = 64%nat /\ Encoder.fromHex word = JsNumber.ofZ n.
Proof.
  intros Hn word. subst word. pose proof (numeral16_fits n Hn) as Hlen.
  split; [rewrite padStart_length; lia|].
  rewrite padStart_zeros. unfold Encoder.fromHex.
  rewrite parseInt16_digits.
  - rewrite digitsValue_zeros, numeral_value by lia. reflexivity.
  - apply allDigits_app; [apply allDigits_zeros; lia | apply numeral_allDigits; lia].
  - destruct (numeral_nonempty 16 n) as [ch [rest E]]. rewrite E.
    destruct (64 - String.length (String ch rest))%nat; discriminate.
Qed.

(** X6. The call data of [approve] for a 42-character spender and an amount
    that is a natural number below 2^53: the selector, 24 zero digits and the
    40 digits of the spender, and a 64-digit word that reads back (with
    [fromHex]) as the amount; 138 characters in all, whatever the engine. *)
Theorem approve_call_data engine (spender : string) (n : Z) :
  String.length spender = 42%nat -> 0 <= n < 2 ^ 53 ->
  exists word,
    Encoder.encodeFunctionCall engine "approve"
      {[ "spender" := VStr spender; "amount" := VNum (JsNumber.ofZ n) ]}
    = Normal (EStr ("0x095ea7b3" ++ zeros 24 ++ JsString.slice spender 2 ++ word))
    /\ String.length word = 64%nat
    /\ Encoder.fromHex word = JsNumber.ofZ n
    /\ String.length ("0x095ea7b3" ++ zeros 24 ++ JsString.slice spender 2 ++ word) = 138%nat.
Proof.
  intros Hs Hn. exists (JsString.padStart (JsString.numeral 16 n) 64 "0").
  destruct (word_value n Hn) as [Hlen Hval].
  split; [|split; [exact Hlen | split; [exact Hval|]]].
  - rewrite encode_approve, toString16_ofZ by lia.
    unfold JsString.numeralZ. destruct (Z.ltb_spec n 0); [lia|].
    rewrite (padStart_zeros (JsString.slice spender 2)), slice_length, Hs.
    change (64 - (42 - 2))%nat with 24%nat. rewrite append_assoc. reflexivity.
  - rewrite !length_append, zeros_length, slice_length, Hs, Hlen. reflexivity.
Qed.

Lemma approve_call_data_witness :
  exists word,
    Encoder.encodeFunctionCall ReferenceEngine.engine "approve"
      {[ "spender" := VStr "0xBd3fa81B58Ba92a82136038B25aDec7066af3155";
         "amount" := VNum (JsNumber.ofZ 10000000) ]}
    = Normal (EStr ("0x095ea7b3" ++ zeros 24
                      ++ JsString.slice "0xBd3fa81B58Ba92a82136038B25aDec7066af3155" 2
                      ++ word))
    /\ String.length word = 64%nat
    /\ Encoder.fromHex word = JsNumber.ofZ 10000000
    /\ String.length ("0x095ea7b3" ++ zeros 24
                        ++ JsString.slice "0xBd3fa81B58Ba92a82136038B25aDec7066af3155" 2
                        ++ word) = 138%nat.
Proof.
  apply (approve_call_data ReferenceEngine.engine
           "0xBd3fa81B58Ba92a82136038B25aDec7066af3155" 10000000); [reflexivity | lia].
Defined.

(** ** The registered chains *)

Lemma lookupIn_Some_In {A} (table : list (Z * A)) k v :
  Registry.lookupIn table k = Some v -> In (k, v) table.
Proof.
  induction table as [|[k' v'] rest IH]; simpl; [discriminate|].
  destruct (Z.eqb_spec k' k) as [->|_].
  - intros H. inversion H. left. reflexivity.
  - intros H. right. apply IH, H.
Qed.

(** What every entry of [CHAIN_CONFIG] has. *)
Definition wellFormedEntry (entry : Z * Registry.ChainConfig) : Prop :=
  let '(chainId, cfg) := entry in
  String.length (Registry.usdc cfg) = 42%nat
  /\ String.length (Registry.tokenMessenger cfg) = 42%nat
  /\ 0 <= Registry.domain cfg < 16
  /\ JsNumber.propertyKey (Encoder.fromHex (Registry.chainIdHex cfg)) = Some chainId.

Lemma registry_wellFormed : Forall wellFormedEntry Registry.CHAIN_CONFIG.
Proof.
  unfold Registry.CHAIN_CONFIG.
  repeat (constructor; [ unfold wellFormedEntry; repeat split; vm_compute; congruence | ]).
  constructor.
Qed.

Lemma registered_wellFormed chainId cfg :
  Registry.chainConfig chainId = Some cfg -> wellFormedEntry (chainId, cfg).
Proof.
  intros H. apply lookupIn_Some_In in H.
  pose proof registry_wellFormed as F. rewrite List.Forall_forall in F. apply F, H.
Qed.

Section BurnWords.

Variable engine : Engine.

Lemma toString16_safe x z :
  JsNumber.safeInteger x = Some z ->
  Encoder.toString16 engine x = JsString.numeralZ 16 z /\ Z.abs z < 2 ^ 53.
Proof.
  intros H. split.
  - unfold Encoder.toString16. rewrite H.
    destruct x; try reflexivity; discriminate H.
  - unfold JsNumber.safeInteger in H.
    destruct (JsNumber.integerValue x) as [v|]; [|discriminate].
    destruct (Z.ltb_spec (Z.abs v) (2 ^ 53)); [|discriminate]. inversion H; subst v.
    assumption.
Qed.

Lemma numeralZ16_fits z :
  Z.abs z < 2 ^ 53 -> (String.length (JsString.numeralZ 16 z) <= 64)%nat.
Proof.
  intros Hz. unfold JsString.numeralZ. destruct (Z.ltb_spec z 0).
  - simpl. pose proof (numeral16_fits (- z) ltac:(lia)). lia.
  - pose proof (numeral16_fits z ltac:(lia)). lia.
Qed.

(** The length of the call data of a burn without hook. The recipient word
    is [merchantAddress.slice(2)] after 24 zeros: it has 24 characters when
    the address has fewer than two. *)
Lemma callerData_length c src dst z :
  Registry.chainConfig (sourceChain c) = Some src ->
  Registry.chainConfig (destinationChain c) = Some dst ->
  JsNumber.safeInteger (Gateway.amountInUnits (amount c)) = Some z ->
  String.length (callerData engine c src dst)
  = (288 + Nat.max 2 (String.length (merchantAddress c)))%nat.
Proof.
  intros Hsrc Hdst Hz.
  destruct (registered_wellFormed _ _ Hsrc) as [Husdc _].
  destruct (registered_wellFormed _ _ Hdst) as [_ [_ [Hdom _]]].
  destruct (toString16_safe _ _ Hz) as [Ez Hzb].
  pose proof (numeralZ16_fits z Hzb) as Hlen.
  pose proof (numeralZ16_fits (Registry.domain dst) ltac:(lia)) as Hdlen.
  unfold callerData. rewrite Ez, toString16_ofZ by lia.
  rewrite !length_append, !padStart_length, !slice_length, Husdc.
  unfold Encoder.addressToBytes32. rewrite length_append, slice_length.
  simpl String.length. lia.
Qed.

End BurnWords.

(** X7. The burn call data is as long as the recipient makes it:
    [addressToBytes32] prepends 24 zero digits to [merchantAddress.slice(2)]
    without checking the address, and [mintRecipient] is not padded. For an
    amount that is a safe integer, the call data of
    [depositForBurnWithCaller] has [288 + max(2, merchantAddress.length)]
    characters: 290 for a recipient of fewer than two characters (the empty
    one included), whose [slice(2)] is empty, and two less than 290 plus the
    length of the recipient otherwise. It has the 330 characters of a
    selector and five 32-byte words exactly when [merchantAddress] has 42
    characters. *)
Theorem burn_call_data_length engine c d z :
  Gateway.burnData engine c = Normal (EStr d) ->
  JsNumber.safeInteger (Gateway.amountInUnits (amount c)) = Some z ->
  String.length d = (288 + Nat.max 2 (String.length (merchantAddress c)))%nat
  /\ ((String.length (merchantAddress c) < 2)%nat -> String.length d = 290%nat)
  /\ (String.length d = 330%nat <-> String.length (merchantAddress c) = 42%nat).
Proof.
  intros Hd Hz.
  assert (Hlen : String.length d
                 = (288 + Nat.max 2 (String.length (merchantAddress c)))%nat).
  { destruct (Gateway.hookSelected (selectedHook c) && fastTransferEnabled c) eqn:Hsel.
    - destruct (burnData_hook_throws engine c Hsel) as [e [E _]]. congruence.
    - destruct (Registry.chainConfig (sourceChain c)) as [src|] eqn:Hsrc;
        [ | unfold Gateway.burnData in Hd; rewrite Hsel, Hsrc in Hd;
            destruct (Registry.chainConfig (destinationChain c)); discriminate Hd ].
      destruct (Registry.chainConfig (destinationChain c)) as [dst|] eqn:Hdst;
        [ | unfold Gateway.burnData in Hd; rewrite Hsel, Hdst in Hd; discriminate Hd ].
      rewrite (burnData_caller engine c src dst Hsrc Hdst Hsel) in Hd.
      inversion Hd; subst d. apply (callerData_length engine c src dst z Hsrc Hdst Hz). }
  split; [exact Hlen|]. rewrite Hlen. split; [lia | lia].
Qed.

Lemma burn_call_data_length_witness :
  (String.length (callerData ReferenceEngine.engine standardPayment ethereum arbitrum)
   = (288 + Nat.max 2 (String.length (merchantAddress standardPayment)))%nat
   /\ ((String.length (merchantAddress standardPayment) < 2)%nat ->
       String.length (callerData ReferenceEngine.engine standardPayment ethereum arbitrum)
       = 290%nat)
   /\ (String.length (callerData ReferenceEngine.engine standardPayment ethereum arbitrum)
       = 330%nat
       <-> String.length (merchantAddress standardPayment) = 42%nat))
  /\ String.length (callerData ReferenceEngine.engine
                      (Form.setMerchantAddress "" standardPayment) ethereum arbitrum)
     = 290%nat.
Proof.
  split.
  - apply (burn_call_data_length ReferenceEngine.engine standardPayment
             (callerData ReferenceEngine.engine standardPayment ethereum arbitrum) 10000000);
      vm_compute; reflexivity.
  - apply (burn_call_data_length ReferenceEngine.engine
             (Form.setMerchantAddress "" standardPayment)
             (callerData ReferenceEngine.engine
                (Form.setMerchantAddress "" standardPayment) ethereum arbitrum) 10000000);
      vm_compute; (reflexivity || lia).
Defined.

(** ** Reading the answers of the node *)

Fixpoint noSpace (s : string) : bool :=
  match s with
  | EmptyString => true
  | String ch rest => negb (JsString.isWhiteSpace ch) && noSpace rest
  end.

Lemma append_nil_r (s : string) : s ++ "" = s.
Proof.
  induction s as [|ch s IH]; [reflexivity|]. rewrite append_cons, IH. reflexivity.
Qed.

Lemma rev_acc_twice s : forall a b,
  JsString.rev_acc (JsString.rev_acc s a) b = JsString.rev_acc a (s ++ b).
Proof.
  induction s as [|ch s IH]; intros a b; [reflexivity|].
  simpl JsString.rev_acc at 2. rewrite IH. reflexivity.
Qed.

Lemma rev_acc_noSpace s : forall acc,
  noSpace s = true -> noSpace acc = true -> noSpace (JsString.rev_acc s acc) = true.
Proof.
  induction s as [|ch s IH]; intros acc Hs Hacc; [exact Hacc|].
  simpl in Hs. apply andb_prop in Hs as [Hch Hs]. simpl. apply IH; [exact Hs|].
  simpl. rewrite Hch, Hacc. reflexivity.
Qed.

Lemma trimStart_noSpace s : noSpace s = true -> JsString.trimStart s = s.
Proof.
  destruct s as [|ch s]; [reflexivity|]. simpl. intros H.
  apply andb_prop in H as [Hch _]. apply negb_true_iff in Hch. rewrite Hch. reflexivity.
Qed.

Lemma trim_noSpace s : noSpace s = true -> JsString.trim s = s.
Proof.
  intros H. unfold JsString.trim. rewrite (trimStart_noSpace s H).
  rewrite trimStart_noSpace by (apply rev_acc_noSpace; [exact H | reflexivity]).
  rewrite rev_acc_twice. simpl. apply append_nil_r.
Qed.

Lemma allDigits_noSpace radix s : allDigits radix s -> noSpace s = true.
Proof.
  induction s as [|ch s IH]; intros H; [reflexivity|].
  apply allDigits_inv in H as [Hch H]. simpl.
  rewrite (digit_not_space radix ch Hch), (IH H). reflexivity.
Qed.

(** A decimal digit is not the letter of a radix prefix. *)
Lemma decimal_digit_not_letter ch :
  JsString.isDigitIn 10 ch = true ->
  Ascii.eqb "x" ch = false /\ Ascii.eqb "X" ch = false
  /\ Ascii.eqb "o" ch = false /\ Ascii.eqb "O" ch = false
  /\ Ascii.eqb "b" ch = false /\ Ascii.eqb "B" ch = false.
Proof.
  intros H. destruct ch as [[] [] [] [] [] [] [] []];
    try (repeat split; reflexivity); discriminate H.
Qed.

Lemma no_radix_prefix s (letter : ascii) :
  allDigits 10 s ->
  In letter ["x"; "X"; "o"; "O"; "b"; "B"]%char ->
  JsString.startsWith (String "0" (String letter "")) s = false.
Proof.
  intros H Hl. destruct s as [|a [|b s]]; [reflexivity | simpl; apply andb_false_r |].
  apply allDigits_inv in H as [_ H]. apply allDigits_inv in H as [Hb _].
  destruct (decimal_digit_not_letter b Hb) as [E1 [E2 [E3 [E4 [E5 E6]]]]].
  cbn [JsString.startsWith].
  simpl in Hl. destruct Hl as [<-|[<-|[<-|[<-|[<-|[<-|[]]]]]]];
    rewrite ?E1, ?E2, ?E3, ?E4, ?E5, ?E6; rewrite !andb_false_r; reflexivity.
Qed.

(** [BigInt] reads a decimal numeral back. *)
Lemma stringToBigInt_numeralZ z :
  Gateway.stringToBigInt (JsString.numeralZ 10 z) = Some z.
Proof.
  unfold JsString.numeralZ. destruct (Z.ltb_spec z 0) as [Hz|Hz].
  - pose proof (numeral_allDigits 10 (- z) ltac:(lia) ltac:(lia)) as Hd.
    unfold Gateway.stringToBigInt. rewrite trim_noSpace
      by (simpl; apply (allDigits_noSpace 10), Hd).
    cbn [JsString.startsWith Ascii.eqb Bool.eqb andb orb].
    rewrite wholeNumeral_numeral by lia. simpl. f_equal. lia.
  - pose proof (numeral_allDigits 10 z ltac:(lia) Hz) as Hd.
    unfold Gateway.stringToBigInt.
    rewrite trim_noSpace by (apply (allDigits_noSpace 10), Hd).
    rewrite !(no_radix_prefix _ _ Hd) by (simpl; tauto).
    cbn [orb].
    pose proof (wholeNumeral_numeral 10 z ltac:(lia) Hz) as Hw.
    destruct (JsString.numeral 10 z) as [|ch rest] eqn:E.
    + destruct (numeral_nonempty 10 z) as [ch [rest E']]. congruence.
    + apply allDigits_inv in Hd as [Hch _]. unfold JsString.isDigitIn in Hch.
      remember (Gateway.wholeNumeral 10 (String ch rest)) as whole eqn:Ew. clear Ew E.
      destruct ch as [[] [] [] [] [] [] [] []]; try discriminate Hch; exact Hw.
Qed.

Lemma stringToBigInt_hex n :
  0 <= n ->
  Gateway.stringToBigInt (String "0" (String "x" (JsString.numeral 16 n))) = Some n.
Proof.
  intros Hn. pose proof (numeral_allDigits 16 n ltac:(lia) Hn) as Hd.
  unfold Gateway.stringToBigInt.
  rewrite trim_noSpace by (simpl; apply (allDigits_noSpace 16), Hd).
  cbn [JsString.startsWith Ascii.eqb Bool.eqb andb orb JsString.slice].
  rewrite slice_zero. apply wholeNumeral_numeral; lia.
Qed.

Lemma parseHexResponse_numeral (hex : RpcValue) :
  match Gateway.parseHexResponse hex with
  | Normal text =>
      exists z, text = JsString.numeralZ 10 z /\ Gateway.stringToBigInt text = Some z
  | Throws e => errName e = SyntaxError
  end.
Proof.
  unfold Gateway.parseHexResponse.
  destruct (negb (truthy hex) || match hex with RStr "0x" => true | _ => false end) eqn:E.
  - exists 0. split; reflexivity.
  - unfold Gateway.BigInt. destruct hex as [|s|r]; [discriminate E | |].
    + destruct (Gateway.stringToBigInt (Gateway.rpcToString (RStr s))) as [z|].
      * simpl. exists z. split; [reflexivity | apply stringToBigInt_numeralZ].
      * reflexivity.
    + reflexivity.
Qed.

Lemma parseHexResponse_syntaxError (hex : RpcValue) :
  match Gateway.parseHexResponse hex with
  | Normal _ => True
  | Throws e => errName e = SyntaxError
  end.
Proof.
  pose proof (parseHexResponse_numeral hex) as H.
  destruct (Gateway.parseHexResponse hex); [exact I | exact H].
Qed.

(** X8. [parseHexResponse] turns the hexadecimal literal of any natural
    number, however large, into its decimal numeral: [BigInt] is exact, there
    is no 2^53 limit here. *)
Theorem parseHexResponse_converts_hex_to_decimal n :
  0 <= n ->
  Gateway.parseHexResponse (RStr ("0x" ++ JsString.numeral 16 n))
  = Normal (JsString.numeral 10 n).
Proof.
  intros Hn. change ("0x" ++ JsString.numeral 16 n)
    with (String "0" (String "x" (JsString.numeral 16 n))).
  unfold Gateway.parseHexResponse, Gateway.BigInt, Gateway.rpcToString.
  rewrite stringToBigInt_hex by exact Hn.
  destruct (numeral_nonempty 16 n) as [ch [rest ->]].
  simpl. unfold JsString.numeralZ. destruct (Z.ltb_spec n 0); [lia | reflexivity].
Qed.

Lemma parseHexResponse_converts_hex_to_decimal_witness :
  Gateway.parseHexResponse
    (RStr ("0x" ++ JsString.numeral 16 (2 ^ 256 - 1)))
  = Normal (JsString.numeral 10 (2 ^ 256 - 1)).
Proof. apply (parseHexResponse_converts_hex_to_decimal (2 ^ 256 - 1)). lia. Defined.

(** X9. [parseHexResponse] answers ["0"] for [null], the empty string and
    ["0x"]. Whatever it returns is the decimal numeral of an integer, which
    [BigInt] reads back as that integer; whatever it throws is a SyntaxError
    (a receipt object, or a string that is no integer literal). *)
Theorem parseHexResponse_returns_a_numeral (hex : RpcValue) :
  Gateway.parseHexResponse RNull = Normal "0"
  /\ Gateway.parseHexResponse (RStr "") = Normal "0"
  /\ Gateway.parseHexResponse (RStr "0x") = Normal "0"
  /\ match Gateway.parseHexResponse hex with
     | Normal text =>
         exists z, text = JsString.numeralZ 10 z /\ Gateway.stringToBigInt text = Some z
     | Throws e => errName e = SyntaxError
     end.
Proof.
  split; [reflexivity|]. split; [reflexivity|]. split; [reflexivity|].
  apply parseHexResponse_numeral.
Qed.

(** ** Balance queries and network switches, in full *)

(** The TypeError of reading a property of [undefined]. *)
Definition missingProperty (propName : string) : JsError :=
  typeError ("Cannot read properties of undefined (reading '" ++ propName ++ "')").

(** Every balance but the one of [chainId] is as it was. *)
Definition sameBalancesExcept (chainId : Z) : World -> World -> Prop :=
  fun w w' => forall id, id <> chainId -> st_balances w' !! id = st_balances w !! id.

#[global] Instance sameBalancesExcept_preorder chainId : PreOrder (sameBalancesExcept chainId).
Proof.
  split.
  - intros w id _. reflexivity.
  - intros a b c H1 H2 id Hid. rewrite (H2 id Hid). apply H1, Hid.
Qed.

Section QueriesInFull.

Variable engine : Engine.

Lemma getUSDCBalance_unregistered address chainId p w :
  Registry.chainConfig chainId = None ->
  Gateway.getUSDCBalance engine address chainId p w
  = (Fulfilled "0", logged (balanceLabel chainId) (missingProperty "usdc") w).
Proof.
  intros H. unfold Gateway.getUSDCBalance, tryCatch. rewrite H.
  erewrite run_bind_normal by apply encode_balanceOf.
  erewrite run_bind_throws by reflexivity.
  unfold console_error. rewrite run_bind_modify. reflexivity.
Qed.

(** A balance query ends in one of two ways: with the console as it was,
    or with the default ["0"] and one more console entry. *)
Lemma getUSDCBalance_console address chainId p w :
  let r := Gateway.getUSDCBalance engine address chainId p w in
  console r.2 = console w
  \/ (r.1 = Fulfilled "0"
      /\ exists e, console r.2 = (console w ++ [(balanceLabel chainId, e)])%list).
Proof.
  cbv zeta. unfold Gateway.getUSDCBalance.
  match goal with |- context [tryCatch ?b _] => set (body := b) end.
  assert (Hs : settles body) by (subst body; settles_walk).
  assert (Hk : respects (keeps console) p body).
  { subst body. respects_walk.
    all: match goal with w : World |- _ => destruct w end; reflexivity. }
  unfold tryCatch. specialize (Hs p w). specialize (Hk w). unfold keeps in Hk.
  destruct (body p w) as [[b|e|] w1]; simpl in *.
  - left. exact Hk.
  - right. split; [reflexivity|]. exists e. rewrite Hk. reflexivity.
  - congruence.
Qed.

Lemma switchNetwork_unregistered c chainId p w :
  Registry.chainConfig chainId = None ->
  Gateway.switchNetwork engine c chainId p w
  = (Fulfilled tt, logged "Error switching network:" (missingProperty "chainIdHex") w).
Proof.
  intros H. unfold Gateway.switchNetwork, tryCatch. rewrite H.
  erewrite run_bind_throws by reflexivity.
  simpl. reflexivity.
Qed.

Lemma switchNetwork_frame c chainId p :
  respects (sameBalancesExcept chainId) p (Gateway.switchNetwork engine c chainId).
Proof.
  unfold Gateway.switchNetwork. respects_walk.
  all: try (intros id Hid; reflexivity).
  - intros w id Hid.
    pose proof (getUSDCBalance_keeps engine st_balances p s chainId
                  ltac:(reflexivity) w) as Hk.
    unfold keeps in Hk. rewrite Hk. reflexivity.
  - intros id Hid. simpl. apply lookup_insert_ne. congruence.
Qed.

(** The requests of a network switch. *)
Lemma switchNetwork_requests c chainId cfg (p : Provider) w :
  Registry.chainConfig chainId = Some cfg ->
  let w' := (Gateway.switchNetwork engine c chainId p w).2 in
  let switch := wallet_switchEthereumChain (Registry.chainIdHex cfg) in
  exists calls,
    requests w' = (requests w ++ switch :: calls)%list
    /\ (calls = []
        \/ exists acct, Gateway.connected (account c) = Some acct
             /\ (exists v, p (requests w) switch = Resolves v)
             /\ (calls = [balanceOfRequest acct cfg]
                 \/ calls = [balanceOfRequest acct cfg; decimalsRequest cfg])).
Proof.
  intros Hcfg. cbv zeta.
  destruct (p (requests w) (wallet_switchEthereumChain (Registry.chainIdHex cfg)))
    as [v|e] eqn:Ep.
  - unfold Gateway.switchNetwork, tryCatch. rewrite Hcfg.
    erewrite run_bind_normal by reflexivity.
    erewrite run_bind_resolves by exact Ep.
    destruct (Gateway.connected (account c)) as [acct|] eqn:Hacct.
    + pose proof (getUSDCBalance_requests engine acct chainId cfg p
                    (sent (wallet_switchEthereumChain (Registry.chainIdHex cfg)) w) Hcfg)
        as Hr. cbv zeta in Hr.
      destruct (getUSDCBalance_run engine acct chainId p
                  (sent (wallet_switchEthereumChain (Registry.chainIdHex cfg)) w))
        as [b [w1 [E1 _]]].
      rewrite E1 in Hr. simpl in Hr.
      erewrite run_bind_fulfilled by exact E1. unfold setBalances, modify. simpl.
      destruct Hr as [Hr|Hr]; rewrite Hr, <- app_assoc; simpl; eexists;
        (split; [reflexivity|]); right; exists acct;
        (split; [reflexivity|]); (split; [exists v; reflexivity|]); auto.
    + simpl. exists []. split; [reflexivity | left; reflexivity].
  - destruct (nullish e) eqn:Hn.
    + destruct (switchNetwork_dismissed engine c chainId cfg e p w Hcfg Ep Hn)
        as [te [_ E]].
      rewrite E. simpl. exists []. split; [reflexivity | left; reflexivity].
    + rewrite (switchNetwork_rejected engine c chainId cfg e p w Hcfg Ep Hn). simpl.
      exists []. split; [reflexivity | left; reflexivity].
Qed.

(** The only alert of a network switch is the one for error 4902. *)
Lemma switchNetwork_alerts c chainId (p : Provider) w :
  let w' := (Gateway.switchNetwork engine c chainId p w).2 in
  alerts w' = alerts w
  \/ exists cfg (e : JsError),
       Registry.chainConfig chainId = Some cfg
       /\ p (requests w) (wallet_switchEthereumChain (Registry.chainIdHex cfg)) = Rejects e
       /\ errCode e = Some 4902
       /\ alerts w' = (alerts w ++ ["Please add this network to MetaMask"])%list.
Proof.
  cbv zeta. destruct (Registry.chainConfig chainId) as [cfg|] eqn:Hcfg.
  - destruct (p (requests w) (wallet_switchEthereumChain (Registry.chainIdHex cfg)))
      as [v|e] eqn:Ep.
    + left. unfold Gateway.switchNetwork, tryCatch. rewrite Hcfg.
      erewrite run_bind_normal by reflexivity.
      erewrite run_bind_resolves by exact Ep.
      destruct (Gateway.connected (account c)) as [acct|]; [|reflexivity].
      pose proof (getUSDCBalance_keeps engine alerts p acct chainId ltac:(reflexivity)
                    (sent (wallet_switchEthereumChain (Registry.chainIdHex cfg)) w)) as Hk.
      unfold keeps in Hk.
      destruct (getUSDCBalance_run engine acct chainId p
                  (sent (wallet_switchEthereumChain (Registry.chainIdHex cfg)) w))
        as [b [w1 [E1 _]]].
      rewrite E1 in Hk. erewrite run_bind_fulfilled by exact E1. exact Hk.
    + destruct (nullish e) eqn:Hn.
      * destruct (switchNetwork_dismissed engine c chainId cfg e p w Hcfg Ep Hn)
          as [te [_ E]].
        rewrite E. left. reflexivity.
      * rewrite (switchNetwork_rejected engine c chainId cfg e p w Hcfg Ep Hn).
        unfold switchFailed. cbn [snd alerts].
        destruct e as [v|e]; [left; apply app_nil_r|].
        cbn [hasCode]. case_bool_decide as Hcode.
        -- right. exists cfg, e. auto.
        -- left. apply app_nil_r.
  - left. rewrite (switchNetwork_unregistered c chainId p w Hcfg). reflexivity.
Qed.

End QueriesInFull.

(** A node that answers every request but rejects every [eth_call]. *)
Definition deafNode : Provider :=
  fun _ req =>
    match req with
    | eth_call _ _ =>
        Rejects (mkError ProviderRpcError (Some (-32603)) (Some "Internal JSON-RPC error"))
    | eth_chainId => Resolves (RStr "0x1")
    | _ => Resolves RNull
    end.

(** X10. [getUSDCBalance] never fails and never waits: it always returns a
    balance text. It touches nothing but the request log and the console,
    and the console grows (by one entry, labelled with the chain) exactly on
    the paths that return the default ["0"] for a caught error. For a chain
    that is not in [CHAIN_CONFIG] no request is sent at all; otherwise the
    [balanceOf] call is sent, followed at most by the [decimals] call. *)
Theorem balance_query_always_answers engine address chainId (p : Provider) w :
  exists balance w',
    Gateway.getUSDCBalance engine address chainId p w = (Fulfilled balance, w')
    /\ elapsed w' = elapsed w /\ alerts w' = alerts w
    /\ st_transactionStatus w' = st_transactionStatus w
    /\ st_isProcessing w' = st_isProcessing w
    /\ st_balances w' = st_balances w /\ timers w' = timers w
    /\ (console w' = console w
        \/ (balance = "0"
            /\ exists e, console w' = (console w ++ [(balanceLabel chainId, e)])%list))
    /\ match Registry.chainConfig chainId with
       | None => balance = "0"
                 /\ w' = logged (balanceLabel chainId) (missingProperty "usdc") w
       | Some cfg =>
           requests w' = (requests w ++ [balanceOfRequest address cfg])%list
           \/ requests w' = (requests w ++ [balanceOfRequest address cfg;
                                            decimalsRequest cfg])%list
       end.
Proof.
  destruct (getUSDCBalance_fulfils engine address chainId p w) as [b Hb].
  pose proof (getUSDCBalance_keeps engine elapsed p address chainId ltac:(reflexivity) w) as H1.
  pose proof (getUSDCBalance_keeps engine alerts p address chainId ltac:(reflexivity) w) as H2.
  pose proof (getUSDCBalance_keeps engine st_transactionStatus p address chainId
                ltac:(reflexivity) w) as H3.
  pose proof (getUSDCBalance_keeps engine st_isProcessing p address chainId
                ltac:(reflexivity) w) as H4.
  pose proof (getUSDCBalance_keeps engine st_balances p address chainId
                ltac:(reflexivity) w) as H5.
  pose proof (getUSDCBalance_keeps engine timers p address chainId ltac:(reflexivity) w) as H6.
  pose proof (getUSDCBalance_console engine address chainId p w) as H7.
  assert (H8 : match Registry.chainConfig chainId with
               | None => Gateway.getUSDCBalance engine address chainId p w
                         = (Fulfilled "0",
                            logged (balanceLabel chainId) (missingProperty "usdc") w)
               | Some cfg =>
                   let w' := (Gateway.getUSDCBalance engine address chainId p w).2 in
                   requests w' = (requests w ++ [balanceOfRequest address cfg])%list
                   \/ requests w' = (requests w ++ [balanceOfRequest address cfg;
                                                    decimalsRequest cfg])%list
               end).
  { destruct (Registry.chainConfig chainId) as [cfg|] eqn:Hcfg.
    - apply (getUSDCBalance_requests engine address chainId cfg p w Hcfg).
    - apply (getUSDCBalance_unregistered engine address chainId p w Hcfg). }
  unfold keeps in *. cbv zeta in H7, H8.
  destruct (Gateway.getUSDCBalance engine address chainId p w) as [o w']. simpl in *.
  subst o. exists b, w'.
  refine (conj eq_refl (conj H1 (conj H2 (conj H3 (conj H4 (conj H5 (conj H6 (conj _ _)))))))).
  - destruct H7 as [H7|[H7 H7']]; [left; exact H7 | right; split; [congruence | exact H7']].
  - destruct (Registry.chainConfig chainId); [exact H8|].
    inversion H8; subst. split; reflexivity.
Qed.

(** X11. [switchNetwork] for a chain that is not in [CHAIN_CONFIG]: reading
    [chainIdHex] of [undefined] throws inside the [try], so no request reaches
    the wallet, no alert is shown, the TypeError is logged once, and the
    function returns normally with every balance as it was. *)
Theorem switch_to_unregistered_chain_is_swallowed engine c chainId (p : Provider) w :
  Registry.chainConfig chainId = None ->
  Gateway.switchNetwork engine c chainId p w
  = (Fulfilled tt,
     mkWorld (requests w) (elapsed w) (alerts w)
             (console w ++ [("Error switching network:", ThrownError (missingProperty "chainIdHex"))])
             (st_transactionStatus w) (st_isProcessing w) (st_balances w) (timers w)).
Proof. intros H. apply (switchNetwork_unregistered engine c chainId p w H). Qed.

Lemma switch_to_unregistered_chain_is_swallowed_witness :
  Gateway.switchNetwork ReferenceEngine.engine (defaultComponent user) 5
    (Wallets.mining "0x1" "0x0" 0 "0x1") emptyWorld
  = (Fulfilled tt,
     mkWorld [] 0 []
             [("Error switching network:", ThrownError (missingProperty "chainIdHex"))]
             None false ∅ []).
Proof.
  apply (switch_to_unregistered_chain_is_swallowed ReferenceEngine.engine
           (defaultComponent user) 5 (Wallets.mining "0x1" "0x0" 0 "0x1") emptyWorld).
  reflexivity.
Defined.

(** X12. [switchNetwork] ends normally whatever the wallet answers, with one
    exception: when the wallet rejects the switch request with [undefined]
    or [null], the [catch] block throws at [error.code], nothing is logged,
    and [switchNetwork] rejects with that TypeError, the switch request being
    all that happened. Either way it leaves the transaction status, the
    clock, the processing flag and the timers alone; of the balances it can
    change only the entry of the chain it was asked to switch to; and it
    shows no alert, except the one asking to add the network when the
    wallet rejected the switch with an error object of code 4902. *)
Theorem network_switch_frame engine c chainId (p : Provider) w :
  exists o w',
    Gateway.switchNetwork engine c chainId p w = (o, w')
    /\ st_transactionStatus w' = st_transactionStatus w
    /\ elapsed w' = elapsed w
    /\ st_isProcessing w' = st_isProcessing w
    /\ timers w' = timers w
    /\ (forall id, id <> chainId -> st_balances w' !! id = st_balances w !! id)
    /\ (alerts w' = alerts w
        \/ exists cfg (e : JsError),
             Registry.chainConfig chainId = Some cfg
             /\ p (requests w) (wallet_switchEthereumChain (Registry.chainIdHex cfg))
                = Rejects e
             /\ errCode e = Some 4902
             /\ alerts w' = (alerts w ++ ["Please add this network to MetaMask"])%list)
    /\ (o = Fulfilled tt
        \/ exists cfg err e,
             Registry.chainConfig chainId = Some cfg
             /\ p (requests w) (wallet_switchEthereumChain (Registry.chainIdHex cfg))
                = Rejects err
             /\ nullish err = true
             /\ Gateway.codeOf err = Throws e
             /\ errName e = TypeError
             /\ o = Rejected (ThrownError e)
             /\ w' = sent (wallet_switchEthereumChain (Registry.chainIdHex cfg)) w)
    /\ (o = Fulfilled tt
        <-> forall cfg, Registry.chainConfig chainId = Some cfg ->
              dismissed (p (requests w)
                           (wallet_switchEthereumChain (Registry.chainIdHex cfg))) = false).
Proof.
  destruct (switchNetwork_outcome engine c chainId p w)
    as [o [w' [E [H1 [H2 [H3 [H4 [_ Ho]]]]]]]].
  pose proof (switchNetwork_frame engine c chainId p w) as H5. rewrite E in H5.
  pose proof (switchNetwork_alerts engine c chainId p w) as H6. cbv zeta in H6.
  rewrite E in H6.
  exists o, w'.
  refine (conj E (conj H1 (conj H2 (conj H3 (conj H4 (conj H5 (conj H6 (conj _ _)))))))).
  - destruct Ho as [Ho|[cfg [err [e [Hcfg [Ep [Hn [Hc [Hr Hw]]]]]]]]]; [left; exact Ho|].
    right. exists cfg, err, e.
    assert (errName e = TypeError).
    { destruct err as [[| | |]|]; simpl in Hc; inversion Hc; reflexivity. }
    auto 10.
  - split.
    + intros -> cfg Hcfg.
      destruct (p (requests w) (wallet_switchEthereumChain (Registry.chainIdHex cfg)))
        as [v|err] eqn:Ep; [reflexivity|]. simpl.
      destruct (nullish err) eqn:Hn; [|reflexivity].
      destruct (switchNetwork_dismissed engine c chainId cfg err p w Hcfg Ep Hn)
        as [te [_ E']]. congruence.
    + intros Hsw. destruct Ho as [Ho|[cfg [err [e [Hcfg [Ep [Hn _]]]]]]]; [exact Ho|].
      specialize (Hsw cfg Hcfg). rewrite Ep in Hsw. simpl in Hsw. congruence.
Qed.

(** A switch the wallet rejects with [undefined]. *)
Example dismissed_switch_rejects :
  Gateway.switchNetwork ReferenceEngine.engine (defaultComponent user) 1
    (Wallets.dismissesSwitch "0x1" "0x0") emptyWorld
  = (Rejected (ThrownError
                 (typeError "Cannot read properties of undefined (reading 'code')")),
     mkWorld [wallet_switchEthereumChain "0x1"] 0 [] [] None false ∅ []).
Proof. reflexivity. Qed.

(** X13. The requests of [switchNetwork] for a registered chain: exactly one
    [wallet_switchEthereumChain] with the chain's hexadecimal id (it is never
    repeated), followed by the [balanceOf] call and at most the [decimals]
    call to that chain's USDC contract, and these only when an account is
    connected and the wallet accepted the switch. *)
Theorem network_switch_requests engine c chainId cfg (p : Provider) w :
  Registry.chainConfig chainId = Some cfg ->
  let w' := (Gateway.switchNetwork engine c chainId p w).2 in
  let switch := wallet_switchEthereumChain (Registry.chainIdHex cfg) in
  exists calls,
    requests w' = (requests w ++ switch :: calls)%list
    /\ (calls = []
        \/ exists acct, Gateway.connected (account c) = Some acct
             /\ (exists v, p (requests w) switch = Resolves v)
             /\ (calls = [balanceOfRequest acct cfg]
                 \/ calls = [balanceOfRequest acct cfg; decimalsRequest cfg])).
Proof. intros H. apply (switchNetwork_requests engine c chainId cfg p w H). Qed.

Lemma network_switch_requests_witness :
  let w' := (Gateway.switchNetwork ReferenceEngine.engine (defaultComponent user) 1
               (Wallets.mining "0x1" "0x5f5e100" 0 "0x1") emptyWorld).2 in
  let switch := wallet_switchEthereumChain (Registry.chainIdHex ethereum) in
  exists calls,
    requests w' = (requests emptyWorld ++ switch :: calls)%list
    /\ (calls = []
        \/ exists acct, Gateway.connected (account (defaultComponent user)) = Some acct
             /\ (exists v, Wallets.mining "0x1" "0x5f5e100" 0 "0x1"
                             (requests emptyWorld) switch = Resolves v)
             /\ (calls = [balanceOfRequest acct ethereum]
                 \/ calls = [balanceOfRequest acct ethereum; decimalsRequest ethereum])).
Proof.
  apply (network_switch_requests ReferenceEngine.engine (defaultComponent user) 1 ethereum
           (Wallets.mining "0x1" "0x5f5e100" 0 "0x1") emptyWorld).
  reflexivity.
Defined.

(** X14. When the wallet accepts the switch but the node rejects the
    [balanceOf] call that follows, the error stays inside [getUSDCBalance]:
    it is logged under the balance label, no alert is shown, nothing is
    logged as a switching error, and the balance of the chain is overwritten
    with ["0"], whatever was cached for it. *)
Theorem failed_query_after_switch_zeroes_the_balance
    engine c chainId cfg acct v e (p : Provider) w :
  Registry.chainConfig chainId = Some cfg ->
  Gateway.connected (account c) = Some acct ->
  p (requests w) (wallet_switchEthereumChain (Registry.chainIdHex cfg)) = Resolves v ->
  p (requests w ++ [wallet_switchEthereumChain (Registry.chainIdHex cfg)])%list
    (balanceOfRequest acct cfg) = Rejects e ->
  Gateway.switchNetwork engine c chainId p w
  = (Fulfilled tt,
     mkWorld (requests w ++ [wallet_switchEthereumChain (Registry.chainIdHex cfg);
                             balanceOfRequest acct cfg])
             (elapsed w) (alerts w)
             (console w ++ [(balanceLabel chainId, e)])
             (st_transactionStatus w) (st_isProcessing w)
             (<[ chainId := "0" ]> (st_balances w)) (timers w)).
Proof.
  intros Hcfg Hacct Hsw Hbal. unfold Gateway.switchNetwork, tryCatch. rewrite Hcfg, Hacct.
  erewrite run_bind_normal by reflexivity.
  erewrite run_bind_resolves by exact Hsw.
  erewrite run_bind_fulfilled
    by (apply (getUSDCBalance_balanceOf_rejected engine acct chainId cfg e p); assumption).
  unfold setBalances, modify, logged, sent. simpl. rewrite <- app_assoc. reflexivity.
Qed.

Lemma failed_query_after_switch_zeroes_the_balance_witness :
  Gateway.switchNetwork ReferenceEngine.engine (defaultComponent user) 1 deafNode
    (mkWorld [] 0 [] [] None false {[ 1 := "250.00" ]} [])
  = (Fulfilled tt,
     mkWorld [wallet_switchEthereumChain "0x1"; balanceOfRequest user ethereum]
             0 []
             [(balanceLabel 1,
               ThrownError (mkError ProviderRpcError (Some (-32603))
                              (Some "Internal JSON-RPC error")))]
             None false (<[ 1 := "0" ]> {[ 1 := "250.00" ]}) []).
Proof.
  exact (failed_query_after_switch_zeroes_the_balance ReferenceEngine.engine
           (defaultComponent user) 1 ethereum user RNull
           (mkError ProviderRpcError (Some (-32603)) (Some "Internal JSON-RPC error"))
           deafNode (mkWorld [] 0 [] [] None false {[ 1 := "250.00" ]} [])
           eq_refl eq_refl eq_refl eq_refl).
Defined.

(** X15. An answer of the node that cannot be read does not break a balance
    query. When the [balanceOf] call is answered with something
    [parseHexResponse] cannot convert (a text that is no integer literal, or
    an object), the [decimals] call is still made, the error is then caught
    and logged, and the balance is the default ["0"]. *)
Theorem unreadable_answer_gives_zero_balance
    engine address chainId cfg answer decimals e (p : Provider) w :
  Registry.chainConfig chainId = Some cfg ->
  p (requests w) (balanceOfRequest address cfg) = Resolves answer ->
  p (requests w ++ [balanceOfRequest address cfg])%list (decimalsRequest cfg)
  = Resolves decimals ->
  Gateway.parseHexResponse answer = Throws e ->
  Gateway.getUSDCBalance engine address chainId p w
  = (Fulfilled "0",
     mkWorld (requests w ++ [balanceOfRequest address cfg; decimalsRequest cfg])
             (elapsed w) (alerts w) (console w ++ [(balanceLabel chainId, ThrownError e)])
             (st_transactionStatus w) (st_isProcessing w) (st_balances w) (timers w))
  /\ errName e = SyntaxError.
Proof.
  intros Hcfg Hp1 Hp2 He. split.
  - unfold Gateway.getUSDCBalance, tryCatch. rewrite Hcfg.
    erewrite run_bind_normal by apply encode_balanceOf.
    erewrite run_bind_normal by reflexivity.
    erewrite run_bind_resolves by exact Hp1.
    erewrite run_bind_normal by apply encode_decimals.
    erewrite run_bind_resolves by exact Hp2.
    erewrite run_bind_throws by exact He.
    unfold console_error, sent. rewrite run_bind_modify. cbn.
    rewrite <- app_assoc. reflexivity.
  - pose proof (parseHexResponse_syntaxError answer) as H. rewrite He in H. exact H.
Qed.

Lemma unreadable_answer_gives_zero_balance_witness :
  Gateway.getUSDCBalance ReferenceEngine.engine user 1
    (fun _ req => match req with
                  | eth_call _ (EStr "0x313ce567") => Resolves (RStr "0x6")
                  | _ => Resolves (RStr "execution reverted")
                  end)
    emptyWorld
  = (Fulfilled "0",
     mkWorld [balanceOfRequest user ethereum; decimalsRequest ethereum] 0 []
             [(balanceLabel 1,
               ThrownError (syntaxError "Cannot convert execution reverted to a BigInt"))]
             None false ∅ [])
  /\ errName (syntaxError "Cannot convert execution reverted to a BigInt") = SyntaxError.
Proof.
  exact (unreadable_answer_gives_zero_balance ReferenceEngine.engine user 1 ethereum
           (RStr "execution reverted") (RStr "0x6")
           (syntaxError "Cannot convert execution reverted to a BigInt")
           (fun _ req => match req with
                         | eth_call _ (EStr "0x313ce567") => Resolves (RStr "0x6")
                         | _ => Resolves (RStr "execution reverted")
                         end)
           emptyWorld eq_refl eq_refl eq_refl eq_refl).
Defined.

(** ** The keys of the balances *)

Lemma chainIds_registered id :
  In id Registry.chainIds <-> is_Some (Registry.chainConfig id).
Proof.
  split.
  - intros H. simpl in H.
    decompose [or] H; subst; try contradiction; eexists; reflexivity.
  - intros [cfg H]. eapply registered_chainId, H.
Qed.

Lemma fill_dom cached current ids (acc : gmap Z string) id :
  is_Some (fold_left (fillStep cached current) ids acc !! id)
  <-> is_Some (acc !! id) \/ (In id ids /\ current <> Some id).
Proof.
  destruct (in_dec Z.eq_dec id ids) as [Hin|Hin];
    [destruct (decide (current = Some id)) as [Hcur|Hcur]|].
  - rewrite fill_untouched by (left; exact Hcur). tauto.
  - rewrite fill_cached by assumption. split; [intros _; right; auto | eauto].
  - rewrite fill_untouched by (right; exact Hin). tauto.
Qed.

Section RefreshInFull.

Variable engine : Engine.

(** The balances [updateBalances] writes: the cached entries of the other
    chains on top of at most one live entry, the one of the active chain. *)
Lemma updateBalances_balances cached address (p : Provider) w v :
  p (requests w) eth_chainId = Resolves v ->
  let r := Gateway.updateBalances engine cached address p w in
  r.1 = Fulfilled tt
  /\ exists live : gmap Z string,
       st_balances r.2 = Gateway.cachedOthers cached (activeChain v) live
       /\ ((live = ∅ /\ forall cur, activeChain v = Some cur ->
                                    Registry.chainConfig cur = None)
           \/ exists cur balance,
                activeChain v = Some cur /\ is_Some (Registry.chainConfig cur)
                /\ live = {[ cur := balance ]}).
Proof.
  intros Hp. cbv zeta.
  assert (H : exists (live : gmap Z string) w1,
             Gateway.updateBalances engine cached address p w
             = (Fulfilled tt,
                mkWorld (requests w1) (elapsed w1) (alerts w1) (console w1)
                        (st_transactionStatus w1) (st_isProcessing w1)
                        (Gateway.cachedOthers cached (activeChain v) live) (timers w1))
             /\ ((live = ∅ /\ forall cur, activeChain v = Some cur ->
                                          Registry.chainConfig cur = None)
                 \/ exists cur balance,
                      activeChain v = Some cur /\ is_Some (Registry.chainConfig cur)
                      /\ live = {[ cur := balance ]})).
  { unfold Gateway.updateBalances.
    erewrite run_bind_resolves by exact Hp. fold (activeChain v).
    destruct (activeChain v) as [cur|] eqn:Hcur.
    - destruct (Registry.chainConfig cur) as [cfg|] eqn:Hcfg.
      + destruct (getUSDCBalance_run engine address cur p (sent eth_chainId w))
          as [b [w1 [E1 _]]].
        unfold bind at 1. unfold bind at 1. rewrite E1. cbv beta iota.
        unfold setBalances, modify. cbv beta iota.
        eexists. exists w1. split; [reflexivity|].
        right. exists cur, b. rewrite Hcfg. split; [reflexivity|].
        split; [eauto | reflexivity].
      + rewrite run_bind_ret. unfold setBalances, modify.
        eexists. exists (sent eth_chainId w). split; [reflexivity|].
        left. split; [reflexivity|]. intros cur' E. inversion E; subst. exact Hcfg.
    - rewrite run_bind_ret. unfold setBalances, modify.
      eexists. exists (sent eth_chainId w). split; [reflexivity|].
      left. split; [reflexivity|]. intros cur' E. discriminate E. }
  destruct H as [live [w1 [E Hlive]]]. rewrite E.
  split; [reflexivity|]. exists live. split; [reflexivity | exact Hlive].
Qed.

(** No key outside [CHAIN_CONFIG] is written. *)
Lemma updateBalances_unregistered cached address (p : Provider) w v id :
  p (requests w) eth_chainId = Resolves v ->
  Registry.chainConfig id = None ->
  st_balances (Gateway.updateBalances engine cached address p w).2 !! id = None.
Proof.
  intros Hp Hnone.
  destruct (updateBalances_balances cached address p w v Hp) as [_ [live [E Hlive]]].
  rewrite E. unfold Gateway.cachedOthers.
  change (fold_left _ Registry.chainIds live)
    with (fold_left (fillStep cached (activeChain v)) Registry.chainIds live).
  rewrite fill_untouched.
  - destruct Hlive as [[-> _]|[cur [b [_ [[cfg Hreg] ->]]]]]; [apply lookup_empty|].
    apply lookup_singleton_ne. congruence.
  - right. intros Hin. apply chainIds_registered in Hin as [cfg Hcfg]. congruence.
Qed.

(** The entry of the active chain is the answer of the live query. *)
Lemma updateBalances_live cached address (p : Provider) w v cur cfg :
  p (requests w) eth_chainId = Resolves v ->
  activeChain v = Some cur ->
  Registry.chainConfig cur = Some cfg ->
  exists live,
    (Gateway.getUSDCBalance engine address cur p (sent eth_chainId w)).1 = Fulfilled live
    /\ st_balances (Gateway.updateBalances engine cached address p w).2 !! cur = Some live.
Proof.
  intros Hp Hcur Hcfg.
  destruct (getUSDCBalance_run engine address cur p (sent eth_chainId w))
    as [b [w1 [E1 _]]].
  exists b. rewrite E1. split; [reflexivity|].
  unfold Gateway.updateBalances.
  erewrite run_bind_resolves by exact Hp. fold (activeChain v). rewrite Hcur, Hcfg.
  unfold bind at 1. unfold bind at 1. rewrite E1. cbv beta iota.
  unfold setBalances, modify, ret. cbn [snd st_balances].
  rewrite cachedOthers_current. apply lookup_insert_eq.
Qed.

End RefreshInFull.

(** X16. Whenever the wallet answers [eth_chainId], [updateBalances]
    completes and replaces the balances by a table whose keys are exactly
    the six registered chains, whatever was cached, whatever the wallet
    reports as its chain and however the balance calls end: cached entries
    under other keys are dropped, and no registered chain is left out. *)
Theorem refresh_lists_exactly_the_registered_chains
    engine cached address (p : Provider) w v :
  p (requests w) eth_chainId = Resolves v ->
  let r := Gateway.updateBalances engine cached address p w in
  r.1 = Fulfilled tt
  /\ forall id, is_Some (st_balances r.2 !! id) <-> In id Registry.chainIds.
Proof.
  intros Hp. cbv zeta.
  destruct (updateBalances_balances engine cached address p w v Hp) as [Ho [live [E Hlive]]].
  split; [exact Ho|]. intros id. rewrite E. unfold Gateway.cachedOthers.
  change (fold_left _ Registry.chainIds live)
    with (fold_left (fillStep cached (activeChain v)) Registry.chainIds live).
  rewrite fill_dom. split.
  - intros [Hl|[Hin _]]; [|exact Hin].
    destruct Hlive as [[-> _]|[cur [b [_ [Hreg ->]]]]].
    + rewrite lookup_empty in Hl. destruct Hl as [x Hx]. discriminate Hx.
    + destruct (decide (id = cur)) as [->|Hne].
      * apply chainIds_registered, Hreg.
      * rewrite lookup_singleton_ne in Hl by congruence.
        destruct Hl as [x Hx]. discriminate Hx.
  - intros Hin. destruct (decide (activeChain v = Some id)) as [Hact|Hact].
    + left. destruct Hlive as [[_ Hnone]|[cur [b [Hcur [_ ->]]]]].
      * apply chainIds_registered in Hin as [cfg Hcfg].
        rewrite (Hnone id Hact) in Hcfg. discriminate Hcfg.
      * assert (cur = id) by congruence. subst cur.
        rewrite lookup_singleton_eq. eauto.
    + right. split; assumption.
Qed.

Lemma refresh_lists_exactly_the_registered_chains_witness :
  let r := Gateway.updateBalances ReferenceEngine.engine {[ 5 := "12.00" ]} user
             (Wallets.mining "0x5" "0x5f5e100" 0 "0x1") emptyWorld in
  r.1 = Fulfilled tt
  /\ forall id, is_Some (st_balances r.2 !! id) <-> In id Registry.chainIds.
Proof.
  apply (refresh_lists_exactly_the_registered_chains ReferenceEngine.engine
           {[ 5 := "12.00" ]} user (Wallets.mining "0x5" "0x5f5e100" 0 "0x1") emptyWorld
           (RStr "0x5")).
  reflexivity.
Defined.

(** ** How far a payment gets *)

Section PaymentProgress.

Variable engine : Engine.

(** The loop leaves the world it found, a number of rounds later. *)
Lemma pollReceipt_trace fuel tx (p : Provider) : forall w,
  exists n, (n <= fuel)%nat
    /\ (Gateway.pollReceipt fuel tx p w).2 = afterPolls n tx w
    /\ ((Gateway.pollReceipt fuel tx p w).1 = Awaiting -> n = fuel).
Proof.
  induction fuel as [|fuel IH]; intros w.
  - exists O. rewrite afterPolls_zero. simpl. auto.
  - rewrite pollReceipt_round. cbv zeta.
    destruct (p (requests w) (eth_getTransactionReceipt tx)) as [v|e].
    + destruct (truthy v).
      * exists 1%nat. rewrite <- (afterPolls_succ 0), afterPolls_zero. simpl.
        split; [lia|]. split; [reflexivity | discriminate].
      * match goal with
        | |- context [Gateway.pollReceipt fuel tx p ?w1] =>
            destruct (IH w1) as [n [Hn [E Ha]]]
        end.
        exists (S n). rewrite E, afterPolls_succ.
        split; [lia|]. split; [reflexivity|]. intros H. f_equal. apply Ha, H.
    + exists 1%nat. rewrite <- (afterPolls_succ 0), afterPolls_zero. simpl.
      split; [lia|]. split; [reflexivity | discriminate].
Qed.

(** The burn transaction of a payment without FAST hook. *)
Definition burnRequest (c : Component) (acct : string) (src dst : Registry.ChainConfig)
  : Request :=
  eth_sendTransaction acct (Registry.tokenMessenger src) (EStr (callerData engine c src dst)).

(** The world once the approval was submitted and its receipt asked for
    [n] times. *)
Definition approved (c : Component) (acct : string) (src : Registry.ChainConfig)
    (n : nat) (tx : RpcValue) (w : World) : World :=
  afterPolls n tx (sent (approveRequest engine c acct src) (withStatus approving w)).

(** The world once the burn was submitted as well and its receipt asked
    for [n2] times. *)
Definition burned (c : Component) (acct : string) (src dst : Registry.ChainConfig)
    (n1 : nat) (tx1 : RpcValue) (n2 : nat) (tx2 : RpcValue) (w : World) : World :=
  afterPolls n2 tx2
    (sent (burnRequest c acct src dst)
       (withStatus (initiating c) (approved c acct src n1 tx1 w))).

(** The world once success was reported. *)
Definition reported (c : Component) (acct : string) (d : Details) (w : World) : World :=
  mkWorld (requests w) (elapsed w) (alerts w) (console w)
          (Some {| ts_status := success; ts_message := "Payment sent successfully!";
                   ts_details := Some d; ts_attestationReceived := false |})
          (st_isProcessing w) (st_balances w)
          (timers w ++ (if fastTransferEnabled c then [(5000, AttestationReceived)] else [])
                    ++ [(10000, RefreshBalances acct)]).

Lemma reportSuccess_cases c acct tx (p : Provider) w :
  match Gateway.successDetails c tx with
  | Normal d => Gateway.reportSuccess c acct tx p w = (Fulfilled tt, reported c acct d w)
  | Throws e => Gateway.reportSuccess c acct tx p w = (Rejected e, w)
  end.
Proof.
  unfold Gateway.reportSuccess.
  destruct (Gateway.successDetails c tx) as [d|e].
  - erewrite run_bind_normal by reflexivity.
    unfold setTransactionStatus, setTimeout, reported. rewrite run_bind_modify.
    destruct (fastTransferEnabled c).
    + rewrite run_bind_modify. unfold modify. simpl. rewrite <- app_assoc. reflexivity.
    + rewrite run_bind_ret. reflexivity.
  - erewrite run_bind_throws by reflexivity. reflexivity.
Qed.

(** The ways the [try] block of [processPayment] can go, once the network
    switch has returned in world [w1]. *)
Inductive progress (p : Provider) (c : Component) (acct : string) (w1 : World)
  : Outcome unit -> World -> Prop :=
| NoSource :
    Registry.chainConfig (sourceChain c) = None ->
    progress p c acct w1 (Rejected (missingProperty "tokenMessenger"))
             (withStatus approving w1)
| AtApproval src n tx o :
    Registry.chainConfig (sourceChain c) = Some src ->
    o <> Fulfilled tt ->
    progress p c acct w1 o (approved c acct src n tx w1)
| NoBurnData src n tx e :
    Registry.chainConfig (sourceChain c) = Some src ->
    Gateway.burnData engine c = Throws e ->
    progress p c acct w1 (Rejected e)
             (withStatus (initiating c) (approved c acct src n tx w1))
| AtBurn src dst n1 tx1 n2 tx2 o :
    Registry.chainConfig (sourceChain c) = Some src ->
    Registry.chainConfig (destinationChain c) = Some dst ->
    Gateway.hookSelected (selectedHook c) && fastTransferEnabled c = false ->
    o <> Fulfilled tt ->
    progress p c acct w1 o (burned c acct src dst n1 tx1 n2 tx2 w1)
| NoDetails src dst n1 tx1 n2 tx2 e :
    Registry.chainConfig (sourceChain c) = Some src ->
    Registry.chainConfig (destinationChain c) = Some dst ->
    Gateway.hookSelected (selectedHook c) && fastTransferEnabled c = false ->
    Gateway.successDetails c tx2 = Throws e ->
    progress p c acct w1 (Rejected e) (burned c acct src dst n1 tx1 n2 tx2 w1)
| Reported src dst n1 tx1 n2 tx2 d :
    Registry.chainConfig (sourceChain c) = Some src ->
    Registry.chainConfig (destinationChain c) = Some dst ->
    Gateway.hookSelected (selectedHook c) && fastTransferEnabled c = false ->
    Gateway.successDetails c tx2 = Normal d ->
    p (requests (approved c acct src n1 tx1 w1)) (burnRequest c acct src dst)
    = Resolves tx2 ->
    progress p c acct w1 (Fulfilled tt)
             (reported c acct d (burned c acct src dst n1 tx1 n2 tx2 w1)).

Lemma successDetails_txHash c tx d :
  Gateway.successDetails c tx = Normal d -> d_txHash d = tx.
Proof.
  unfold Gateway.successDetails.
  destruct (Registry.prop (Registry.chainConfig (sourceChain c)) _ _); [|discriminate].
  destruct (Registry.prop (Registry.chainConfig (destinationChain c)) _ _); [|discriminate].
  simpl. destruct (Gateway.hookSelected (selectedHook c)).
  - destruct (Registry.prop _ _ _); [|discriminate]. simpl. intros H. inversion H. reflexivity.
  - simpl. intros H. inversion H. reflexivity.
Qed.

Lemma burnData_normal c data :
  Gateway.burnData engine c = Normal data ->
  exists src dst,
    Registry.chainConfig (sourceChain c) = Some src
    /\ Registry.chainConfig (destinationChain c) = Some dst
    /\ Gateway.hookSelected (selectedHook c) && fastTransferEnabled c = false
    /\ data = EStr (callerData engine c src dst).
Proof.
  intros H. destruct (Gateway.hookSelected (selectedHook c) && fastTransferEnabled c) eqn:Hsel.
  - destruct (burnData_hook_throws engine c Hsel) as [e [E _]]. congruence.
  - destruct (Registry.chainConfig (sourceChain c)) as [src|] eqn:Hsrc;
      [ | unfold Gateway.burnData in H; rewrite Hsel, Hsrc in H;
          destruct (Registry.chainConfig (destinationChain c)); discriminate H ].
    destruct (Registry.chainConfig (destinationChain c)) as [dst|] eqn:Hdst;
      [ | unfold Gateway.burnData in H; rewrite Hsel, Hdst in H; discriminate H ].
    rewrite (burnData_caller engine c src dst Hsrc Hdst Hsel) in H. inversion H.
    exists src, dst. auto.
Qed.

Lemma approveStep_noSource fuel c acct (p : Provider) w :
  Registry.chainConfig (sourceChain c) = None ->
  Gateway.approveStep engine fuel c acct p w
  = (Rejected (missingProperty "tokenMessenger"), withStatus approving w).
Proof.
  intros H. unfold Gateway.approveStep, setTransactionStatus. rewrite H.
  rewrite run_bind_modify. erewrite run_bind_throws by reflexivity. reflexivity.
Qed.

Lemma burnStep_progress fuel c acct src n tx (p : Provider) w1 :
  Registry.chainConfig (sourceChain c) = Some src ->
  let r := Gateway.burnStep engine fuel c acct p (approved c acct src n tx w1) in
  progress p c acct w1 r.1 r.2.
Proof.
  intros Hsrc. cbv zeta.
  destruct (Gateway.burnData engine c) as [data|e] eqn:Hdata.
  - destruct (burnData_normal c data Hdata) as [src' [dst [Hsrc' [Hdst [Hsel ->]]]]].
    assert (src' = src) by congruence. subst src'.
    rewrite (burnStep_submits engine fuel c acct src _ p _ Hsrc Hdata). cbv zeta.
    fold (burnRequest c acct src dst).
    destruct (p _ (burnRequest c acct src dst)) as [tx2|e] eqn:Eburn.
    + unfold bind.
      match goal with
      | |- context [Gateway.pollReceipt fuel tx2 p ?w2] =>
          destruct (pollReceipt_trace fuel tx2 p w2) as [n2 [_ [E _]]];
          destruct (Gateway.pollReceipt fuel tx2 p w2) as [[r|e|] w3]
      end; simpl in E; subst w3.
      * pose proof (reportSuccess_cases c acct tx2 p
                      (burned c acct src dst n tx n2 tx2 w1)) as Hr.
        fold (burned c acct src dst n tx n2 tx2 w1).
        destruct (Gateway.successDetails c tx2) as [d|e] eqn:Hd; rewrite Hr; simpl.
        -- apply Reported; auto.
        -- apply NoDetails; auto.
      * simpl. apply (AtBurn p c acct w1 src dst n tx n2 tx2); auto; discriminate.
      * simpl. apply (AtBurn p c acct w1 src dst n tx n2 tx2); auto; discriminate.
    + simpl. rewrite <- (afterPolls_zero RNull (sent _ _)).
      apply (AtBurn p c acct w1 src dst n tx 0 RNull); auto; discriminate.
  - rewrite (burnStep_throws engine fuel c acct e p _ Hdata). simpl.
    apply NoBurnData; assumption.
Qed.

(** Every run of the [try] block is one of these, unless the network
    switch already rejected: then the switch request is all that
    happened. *)
Lemma paymentSteps_progress fuel c acct (p : Provider) w :
  let r := Gateway.paymentSteps engine fuel c acct p w in
  (exists w1,
      Gateway.switchNetwork engine c (sourceChain c) p w = (Fulfilled tt, w1)
      /\ progress p c acct w1 r.1 r.2)
  \/ (exists src err e,
        Registry.chainConfig (sourceChain c) = Some src
        /\ p (requests w) (wallet_switchEthereumChain (Registry.chainIdHex src))
           = Rejects err
        /\ nullish err = true
        /\ Gateway.codeOf err = Throws e
        /\ r = (Rejected (ThrownError e),
                sent (wallet_switchEthereumChain (Registry.chainIdHex src)) w)).
Proof.
  cbv zeta.
  destruct (switchNetwork_outcome engine c (sourceChain c) p w)
    as [so [w1 [E1 [_ [_ [_ [_ [_ Ho]]]]]]]].
  destruct Ho as [->|[src [err [e [Hsrc [Ep [Hn [Hc [-> ->]]]]]]]]].
  2:{ right. exists src, err, e. unfold Gateway.paymentSteps, bind. rewrite E1. auto 10. }
  left. exists w1. split; [exact E1|].
  destruct (Gateway.paymentSteps engine fuel c acct p w) as [o w'] eqn:E. simpl.
  unfold Gateway.paymentSteps in E. erewrite run_bind_fulfilled in E by exact E1.
  cbv beta in E.
  destruct (Registry.chainConfig (sourceChain c)) as [src|] eqn:Hsrc.
  - unfold bind at 1 in E.
    rewrite (approveStep_submits engine fuel c acct src p w1 Hsrc) in E.
    destruct (p (requests w1) (approveRequest engine c acct src)) as [tx|e].
    + unfold bind at 1 in E.
      match type of E with
      | context [Gateway.pollReceipt fuel tx p ?w2] =>
          destruct (pollReceipt_trace fuel tx p w2) as [n [_ [Et _]]];
          destruct (Gateway.pollReceipt fuel tx p w2) as [[r|e|] w3]
      end; simpl in Et; subst w3; cbv beta iota in E.
      * unfold ret in E. cbv beta iota in E.
        pose proof (burnStep_progress fuel c acct src n tx p w1 Hsrc) as Hb.
        cbv zeta in Hb. unfold approved in Hb at 1 2. rewrite E in Hb. exact Hb.
      * inversion E; subst.
        apply (AtApproval p c acct w1 src n tx); [exact Hsrc | discriminate].
      * inversion E; subst.
        apply (AtApproval p c acct w1 src n tx); [exact Hsrc | discriminate].
    + inversion E; subst. rewrite <- (afterPolls_zero RNull (sent _ _)).
      apply (AtApproval p c acct w1 src 0 RNull); [exact Hsrc | discriminate].
  - unfold bind in E. rewrite (approveStep_noSource fuel c acct p w1 Hsrc) in E.
    inversion E; subst. apply NoSource, Hsrc.
Qed.

End PaymentProgress.

(** ** What every payment does *)

Definition isPoll (r : Request) : bool :=
  match r with
  | eth_getTransactionReceipt _ => true
  | _ => false
  end.

Lemma no_poll_among (chainId : Z) (l : list Request) :
  Forall (switchOrCall chainId) l -> List.filter isPoll l = [].
Proof.
  intros Fl. induction Fl as [|r l Hr _ IH]; [reflexivity|].
  simpl. rewrite IH. destruct Hr as [[t ->]|[cfg [d [_ ->]]]]; reflexivity.
Qed.

Lemma polls_counted (n : nat) (tx : RpcValue) :
  List.length (List.filter isPoll (replicate n (eth_getTransactionReceipt tx))) = n.
Proof. induction n; simpl; congruence. Qed.

Section EveryPayment.

Variable engine : Engine.

(** [processPayment] with a connected account, in terms of how far the
    [try] block got. *)
Lemma processPayment_progress fuel c acct (p : Provider) w :
  Gateway.connected (account c) = Some acct ->
  (exists w1 o w2,
      Gateway.switchNetwork engine c (sourceChain c) p (started w) = (Fulfilled tt, w1)
      /\ progress engine p c acct w1 o w2
      /\ Gateway.processPayment engine fuel c p w
         = match o with
           | Fulfilled _ => (Fulfilled tt, withProcessing false w2)
           | Rejected err => caught err w2
           | Awaiting => (Awaiting, w2)
           end)
  \/ (exists src err e,
        Registry.chainConfig (sourceChain c) = Some src
        /\ p (requests w) (wallet_switchEthereumChain (Registry.chainIdHex src))
           = Rejects err
        /\ nullish err = true
        /\ Gateway.codeOf err = Throws e
        /\ Gateway.processPayment engine fuel c p w
           = caught (ThrownError e)
               (sent (wallet_switchEthereumChain (Registry.chainIdHex src)) (started w))).
Proof.
  intros Hacct.
  rewrite (processPayment_connected engine fuel c acct p w Hacct).
  destruct (paymentSteps_progress engine fuel c acct p (started w))
    as [[w1 [E1 Hp]]|[src [err [e [Hsrc [Ep [Hn [Hc E]]]]]]]].
  - left.
    destruct (Gateway.paymentSteps engine fuel c acct p (started w)) as [o w2].
    simpl in Hp. exists w1, o, w2. split; [exact E1|]. split; [exact Hp|].
    destruct o as [[]|e|]; reflexivity.
  - right. exists src, err, e. rewrite E. auto.
Qed.

Lemma approved_requests c acct src n tx w :
  requests (approved engine c acct src n tx w)
  = (requests w ++ approveRequest engine c acct src
                :: replicate n (eth_getTransactionReceipt tx))%list.
Proof.
  unfold approved, afterPolls, sent. cbn [requests withStatus].
  rewrite <- app_assoc. reflexivity.
Qed.

Lemma approved_elapsed c acct src n tx w :
  elapsed (approved engine c acct src n tx w) = elapsed w + 2000 * Z.of_nat n.
Proof. reflexivity. Qed.

Lemma burned_requests c acct src dst n1 tx1 n2 tx2 w :
  requests (burned engine c acct src dst n1 tx1 n2 tx2 w)
  = (requests w ++ (approveRequest engine c acct src
                      :: replicate n1 (eth_getTransactionReceipt tx1))
                ++ burnRequest engine c acct src dst
                :: replicate n2 (eth_getTransactionReceipt tx2))%list.
Proof.
  unfold burned, afterPolls, sent. cbn [requests withStatus].
  rewrite approved_requests, <- !app_assoc. reflexivity.
Qed.

Lemma burned_elapsed c acct src dst n1 tx1 n2 tx2 w :
  elapsed (burned engine c acct src dst n1 tx1 n2 tx2 w)
  = elapsed w + 2000 * Z.of_nat (n1 + n2).
Proof.
  unfold burned, afterPolls, sent. cbn [elapsed withStatus].
  rewrite approved_elapsed. lia.
Qed.

Lemma approval_filters c acct src n tx :
  let sent := approveRequest engine c acct src :: replicate n (eth_getTransactionReceipt tx) in
  List.length (List.filter isPoll sent) = n
  /\ List.filter isSubmission sent = [approveRequest engine c acct src].
Proof.
  cbv zeta. split.
  - change (List.filter isPoll (approveRequest engine c acct src :: ?l))
      with (List.filter isPoll (replicate n (eth_getTransactionReceipt tx))).
    apply polls_counted.
  - change (List.filter isSubmission (approveRequest engine c acct src
                                        :: replicate n (eth_getTransactionReceipt tx)))
      with (approveRequest engine c acct src
              :: List.filter isSubmission (replicate n (eth_getTransactionReceipt tx))).
    rewrite no_submission_in_polls. reflexivity.
Qed.

Lemma burn_filters c acct src dst n1 tx1 n2 tx2 :
  let sent := ((approveRequest engine c acct src
                  :: replicate n1 (eth_getTransactionReceipt tx1))
                 ++ burnRequest engine c acct src dst
                 :: replicate n2 (eth_getTransactionReceipt tx2))%list in
  List.length (List.filter isPoll sent) = (n1 + n2)%nat
  /\ List.filter isSubmission sent
     = [approveRequest engine c acct src; burnRequest engine c acct src dst].
Proof.
  cbv zeta. rewrite !List.filter_app.
  destruct (approval_filters c acct src n1 tx1) as [H1 H2]. cbv zeta in H1, H2.
  rewrite H2, List.length_app, H1. split.
  - change (List.filter isPoll (burnRequest engine c acct src dst :: ?l))
      with (List.filter isPoll (replicate n2 (eth_getTransactionReceipt tx2))).
    rewrite polls_counted. reflexivity.
  - change (List.filter isSubmission (burnRequest engine c acct src dst
                                        :: replicate n2 (eth_getTransactionReceipt tx2)))
      with (burnRequest engine c acct src dst
              :: List.filter isSubmission (replicate n2 (eth_getTransactionReceipt tx2))).
    rewrite no_submission_in_polls. reflexivity.
Qed.

(** The requests and the clock of a run of the [try] block. *)
Lemma progress_trace p c acct w1 o w2 :
  progress engine p c acct w1 o w2 ->
  exists sent n,
    requests w2 = (requests w1 ++ sent)%list
    /\ elapsed w2 = elapsed w1 + 2000 * Z.of_nat n
    /\ List.length (List.filter isPoll sent) = n
    /\ (List.filter isSubmission sent = []
        \/ exists src,
             Registry.chainConfig (sourceChain c) = Some src
             /\ (List.filter isSubmission sent = [approveRequest engine c acct src]
                 \/ exists dst,
                      Registry.chainConfig (destinationChain c) = Some dst
                      /\ Gateway.hookSelected (selectedHook c) && fastTransferEnabled c
                         = false
                      /\ List.filter isSubmission sent
                         = [approveRequest engine c acct src;
                            burnRequest engine c acct src dst])).
Proof.
  intros H. destruct H.
  - exists [], O. cbn [requests elapsed withStatus]. rewrite app_nil_r.
    repeat split; auto. lia.
  - destruct (approval_filters c acct src n tx) as [Fp Fs].
    eexists. exists n. split; [apply approved_requests|].
    split; [apply approved_elapsed|]. split; [exact Fp|]. right. eauto.
  - destruct (approval_filters c acct src n tx) as [Fp Fs].
    eexists. exists n. cbn [requests elapsed withStatus].
    split; [apply approved_requests|].
    split; [apply approved_elapsed|]. split; [exact Fp|]. right. eauto.
  - destruct (burn_filters c acct src dst n1 tx1 n2 tx2) as [Fp Fs].
    eexists. exists (n1 + n2)%nat. split; [apply burned_requests|].
    split; [apply burned_elapsed|]. split; [exact Fp|]. right. eauto 10.
  - destruct (burn_filters c acct src dst n1 tx1 n2 tx2) as [Fp Fs].
    eexists. exists (n1 + n2)%nat. split; [apply burned_requests|].
    split; [apply burned_elapsed|]. split; [exact Fp|]. right. eauto 10.
  - destruct (burn_filters c acct src dst n1 tx1 n2 tx2) as [Fp Fs].
    eexists. exists (n1 + n2)%nat. unfold reported. cbn [requests elapsed].
    split; [apply burned_requests|].
    split; [apply burned_elapsed|]. split; [exact Fp|]. right. eauto 10.
Qed.

(** The same for the whole of [processPayment]. *)
Lemma processPayment_trace fuel c (p : Provider) w :
  let r := Gateway.processPayment engine fuel c p w in
  exists sent n,
    requests r.2 = (requests w ++ sent)%list
    /\ elapsed r.2 = elapsed w + 2000 * Z.of_nat n
    /\ List.length (List.filter isPoll sent) = n
    /\ (List.filter isSubmission sent = []
        \/ exists acct src,
             Gateway.connected (account c) = Some acct
             /\ Registry.chainConfig (sourceChain c) = Some src
             /\ (List.filter isSubmission sent = [approveRequest engine c acct src]
                 \/ exists dst,
                      Registry.chainConfig (destinationChain c) = Some dst
                      /\ Gateway.hookSelected (selectedHook c) && fastTransferEnabled c
                         = false
                      /\ List.filter isSubmission sent
                         = [approveRequest engine c acct src;
                            burnRequest engine c acct src dst])).
Proof.
  cbv zeta. destruct (Gateway.connected (account c)) as [acct|] eqn:Hacct.
  - destruct (processPayment_progress fuel c acct p w Hacct)
      as [[w1 [o [w2 [E1 [Hp E]]]]]|[src [err [e [Hsrc [Ep [Hn [Hc E]]]]]]]].
    + destruct (switchNetwork_outcome engine c (sourceChain c) p (started w))
        as [so [w1' [E1' [_ [Hel [_ [_ [[l [Hl Fl]] _]]]]]]]].
      assert (w1' = w1) by congruence. subst w1'.
      destruct (progress_trace p c acct w1 o w2 Hp) as [sent [n [Hr [He [Hn Hs]]]]].
      exists (l ++ sent)%list, n.
      assert (Hw : requests (Gateway.processPayment engine fuel c p w).2 = requests w2
                   /\ elapsed (Gateway.processPayment engine fuel c p w).2 = elapsed w2).
      { rewrite E. destruct o as [[]|e|]; try (split; reflexivity).
        destruct (caught_frame e w2) as [H1 [H2 _]]. auto. }
      destruct Hw as [-> ->]. rewrite Hr, Hl, He, Hel. simpl.
      rewrite !List.filter_app, (no_poll_among _ _ Fl), (no_submission_among _ _ Fl).
      simpl. split; [rewrite app_assoc; reflexivity|]. split; [reflexivity|].
      split; [exact Hn|].
      destruct Hs as [Hs|[src [Hsrc Hs]]]; [left; exact Hs|].
      right. exists acct, src. auto.
    + rewrite E, caught_error.
      exists [wallet_switchEthereumChain (Registry.chainIdHex src)], O. simpl.
      repeat split; auto. lia.
  - rewrite (processPayment_disconnected engine fuel c p w Hacct). simpl.
    exists [], O. rewrite app_nil_r. simpl. repeat split; auto. lia.
Qed.

Lemma progress_frame p c acct w1 o w2 :
  progress engine p c acct w1 o w2 ->
  st_isProcessing w2 = st_isProcessing w1
  /\ alerts w2 = alerts w1 /\ console w2 = console w1
  /\ st_balances w2 = st_balances w1
  /\ match o with
     | Fulfilled _ =>
         succeeded w2
         /\ Gateway.hookSelected (selectedHook c) && fastTransferEnabled c = false
         /\ timers w2 = (timers w1
                           ++ (if fastTransferEnabled c
                               then [(5000, AttestationReceived)] else [])
                           ++ [(10000, RefreshBalances acct)])%list
     | _ =>
         timers w2 = timers w1
         /\ (st_transactionStatus w2 = approving
             \/ st_transactionStatus w2 = initiating c)
     end.
Proof.
  intros H. destruct H; simpl; repeat split; auto.
  - destruct o as [[]|e|]; [congruence | |]; split; auto.
  - destruct o as [[]|e|]; [congruence | |]; split; auto.
  - eexists. reflexivity.
Qed.

End EveryPayment.

(** X17. Every receipt request of a payment comes after a two-second sleep,
    and nothing else takes time: whatever the wallet answers and however far
    the payment gets, the time slept is 2000 ms times the number of
    [eth_getTransactionReceipt] requests it made. *)
Theorem payment_sleeps_two_seconds_per_receipt_request engine fuel c (p : Provider) w :
  let r := Gateway.processPayment engine fuel c p w in
  exists sent,
    requests r.2 = (requests w ++ sent)%list
    /\ elapsed r.2 = elapsed w + 2000 * Z.of_nat (List.length (List.filter isPoll sent)).
Proof.
  cbv zeta. destruct (processPayment_trace engine fuel c p w) as [sent [n [Hr [He [Hn _]]]]].
  exists sent. rewrite Hn. auto.
Qed.

(** X18. A payment submits at most two transactions, in this order: the
    approval, sent from the connected account to the USDC contract of the
    source chain, and then the [depositForBurnWithCaller] burn, sent from
    the same account to the token messenger of the source chain (the spender
    of the approval). The burn is only submitted for a registered
    destination and without a FAST hook. *)
Theorem payment_submits_approval_then_burn engine fuel c (p : Provider) w :
  let r := Gateway.processPayment engine fuel c p w in
  exists sent,
    requests r.2 = (requests w ++ sent)%list
    /\ (List.filter isSubmission sent = []
        \/ exists acct src,
             Gateway.connected (account c) = Some acct
             /\ Registry.chainConfig (sourceChain c) = Some src
             /\ (List.filter isSubmission sent = [approveRequest engine c acct src]
                 \/ exists dst,
                      Registry.chainConfig (destinationChain c) = Some dst
                      /\ Gateway.hookSelected (selectedHook c) && fastTransferEnabled c
                         = false
                      /\ List.filter isSubmission sent
                         = [approveRequest engine c acct src;
                            burnRequest engine c acct src dst])).
Proof.
  cbv zeta. destruct (processPayment_trace engine fuel c p w) as [sent [n [Hr [_ [_ Hs]]]]].
  exists sent. auto.
Qed.

Section PaymentEnds.

Variable engine : Engine.

Lemma not_succeeded_error message w :
  st_transactionStatus w = statusOf error message -> ~ succeeded w.
Proof. intros H [d Hd]. rewrite H in Hd. discriminate Hd. Qed.

Lemma not_succeeded_pending c w :
  st_transactionStatus w = approving \/ st_transactionStatus w = initiating c ->
  ~ succeeded w.
Proof. intros [H|H] [d Hd]; rewrite H in Hd; discriminate Hd. Qed.

(** How a payment with a connected account ends. It rejects only when what
    it caught was [undefined] or [null]: the value is logged, reading its
    [message] throws, and the status is left pending. *)
Lemma processPayment_ends fuel c acct (p : Provider) w :
  Gateway.connected (account c) = Some acct ->
  let r := Gateway.processPayment engine fuel c p w in
  match r.1 with
  | Awaiting =>
      st_isProcessing r.2 = true /\ timers r.2 = timers w
      /\ (st_transactionStatus r.2 = approving
          \/ st_transactionStatus r.2 = initiating c)
  | Fulfilled _ =>
      st_isProcessing r.2 = false
      /\ ((succeeded r.2
           /\ Gateway.hookSelected (selectedHook c) && fastTransferEnabled c = false
           /\ timers r.2 = (timers w
                              ++ (if fastTransferEnabled c
                                  then [(5000, AttestationReceived)] else [])
                              ++ [(10000, RefreshBalances acct)])%list)
          \/ ((exists message,
                  st_transactionStatus r.2 = statusOf error ("Payment failed: " ++ message))
              /\ timers r.2 = timers w))
  | Rejected err =>
      st_isProcessing r.2 = false /\ timers r.2 = timers w
      /\ (st_transactionStatus r.2 = approving
          \/ st_transactionStatus r.2 = initiating c)
      /\ exists thrown e,
           nullish thrown = true
           /\ Gateway.caughtMessage thrown = Throws e
           /\ errName e = TypeError
           /\ err = ThrownError e
           /\ exists before, console r.2 = (before ++ [("Payment error:", thrown)])%list
  end.
Proof.
  intros Hacct. cbv zeta.
  destruct (processPayment_progress engine fuel c acct p w Hacct)
    as [[w1 [o [w2 [E1 [Hp E]]]]]|[src [err [e [Hsrc [Ep [Hn [Hc E]]]]]]]].
  - destruct (switchNetwork_outcome engine c (sourceChain c) p (started w))
      as [so [w1' [E1' [_ [_ [Hproc [Htim _]]]]]]].
    assert (w1' = w1) by congruence. subst w1'.
    destruct (progress_frame engine p c acct w1 o w2 Hp) as [Hip [_ [_ [_ Ho]]]].
    rewrite E. destruct o as [[]|thrown|]; cbn [fst snd].
    + destruct Ho as [Hs [Hsel Ht]]. split; [reflexivity|]. left.
      split; [destruct Hs as [d Hd]; exists d; exact Hd|]. split; [exact Hsel|].
      cbn [timers withProcessing]. rewrite Ht, Htim. reflexivity.
    + destruct Ho as [Ht Hst].
      destruct (caught_cases thrown w2) as [[_ [message [_ ->]]]|[Hn [e [Hm [He ->]]]]];
        cbn [fst snd].
      * split; [reflexivity|]. right. split; [exists message; reflexivity|].
        cbn [timers withProcessing withStatus logged]. rewrite Ht, Htim. reflexivity.
      * split; [reflexivity|]. cbn [timers withProcessing logged].
        split; [rewrite Ht, Htim; reflexivity|]. split; [exact Hst|].
        exists thrown, e. repeat split; auto. exists (console w2). reflexivity.
    + destruct Ho as [Ht Hst]. rewrite Hip, Hproc, Ht, Htim. auto.
  - rewrite E, caught_error. cbn [fst snd]. split; [reflexivity|]. right.
    split; [eexists; reflexivity | reflexivity].
Qed.

End PaymentEnds.

(** X19. The follow-up timers (the attestation callback after 5 s in FAST
    mode, the balance refresh after 10 s) are scheduled exactly by the
    payments that report success; a payment that fails, that is still
    waiting, or that was refused for lack of an account schedules nothing.
    Since success needs a burn without FAST hook, the attestation callback
    is only ever scheduled for FAST payments without a hook. *)
Theorem follow_up_timers_only_after_success engine fuel c (p : Provider) w :
  let r := Gateway.processPayment engine fuel c p w in
  match Gateway.connected (account c) with
  | None => timers r.2 = timers w
  | Some acct =>
      (succeeded r.2
       /\ r.1 = Fulfilled tt
       /\ Gateway.hookSelected (selectedHook c) && fastTransferEnabled c = false
       /\ timers r.2 = (timers w
                          ++ (if fastTransferEnabled c
                              then [(5000, AttestationReceived)] else [])
                          ++ [(10000, RefreshBalances acct)])%list)
      \/ (~ succeeded r.2 /\ timers r.2 = timers w)
  end.
Proof.
  cbv zeta. destruct (Gateway.connected (account c)) as [acct|] eqn:Hacct.
  - pose proof (processPayment_ends engine fuel c acct p w Hacct) as H. cbv zeta in H.
    destruct (Gateway.processPayment engine fuel c p w) as [[[]|e|] w']; cbn [fst snd] in *.
    + destruct H as [_ [[Hs [Hsel Ht]]|[[m He] Ht]]].
      * left. auto.
      * right. split; [eapply not_succeeded_error, He | exact Ht].
    + destruct H as [_ [Ht [Hst _]]]. right.
      split; [eapply not_succeeded_pending, Hst | exact Ht].
    + destruct H as [_ [Ht Hst]]. right.
      split; [eapply not_succeeded_pending, Hst | exact Ht].
  - rewrite (processPayment_disconnected engine fuel c p w Hacct). reflexivity.
Qed.



(** ** Payments between chains that are not registered *)

(** X21. A payment whose source chain is not in [CHAIN_CONFIG] sends nothing
    to the wallet: [switchNetwork] swallows its TypeError, reading
    [tokenMessenger] of [undefined] then throws before the approval is
    built, and the payment ends at once in the error status with both errors
    logged and the processing flag cleared. *)
Theorem payment_from_unregistered_chain_sends_nothing engine fuel c acct (p : Provider) w :
  Gateway.connected (account c) = Some acct ->
  Registry.chainConfig (sourceChain c) = None ->
  Gateway.processPayment engine fuel c p w
  = (Fulfilled tt,
     mkWorld (requests w) (elapsed w) (alerts w)
             (console w ++ [("Error switching network:", ThrownError (missingProperty "chainIdHex"));
                            ("Payment error:", ThrownError (missingProperty "tokenMessenger"))])
             (statusOf error
                "Payment failed: Cannot read properties of undefined (reading 'tokenMessenger')")
             false (st_balances w) (timers w)).
Proof.
  intros Hacct Hsrc. rewrite (processPayment_connected engine fuel c acct p w Hacct).
  unfold Gateway.paymentSteps.
  erewrite run_bind_fulfilled by (apply switchNetwork_unregistered; exact Hsrc).
  cbv beta. unfold bind. rewrite (approveStep_noSource engine fuel c acct p _ Hsrc).
  rewrite caught_error.
  unfold withProcessing, withStatus, logged, started. cbn.
  rewrite <- app_assoc. reflexivity.
Qed.

Lemma payment_from_unregistered_chain_sends_nothing_witness :
  Gateway.processPayment ReferenceEngine.engine 5%nat
    {| account := Some user; sourceChain := 5; destinationChain := 42161;
       amount := "10"; merchantAddress := "0x742d35Cc6634C0532925a3b844Bc9e7595f8C2B2";
       selectedHook := None; fastTransferEnabled := false; isProcessing := false;
       balances := ∅ |}
    (Wallets.mining "0x1" "0x0" 0 "0x1") emptyWorld
  = (Fulfilled tt,
     mkWorld [] 0 []
             [("Error switching network:", ThrownError (missingProperty "chainIdHex"));
              ("Payment error:", ThrownError (missingProperty "tokenMessenger"))]
             (statusOf error
                "Payment failed: Cannot read properties of undefined (reading 'tokenMessenger')")
             false ∅ []).
Proof.
  exact (payment_from_unregistered_chain_sends_nothing ReferenceEngine.engine 5%nat
           {| account := Some user; sourceChain := 5; destinationChain := 42161;
              amount := "10"; merchantAddress := "0x742d35Cc6634C0532925a3b844Bc9e7595f8C2B2";
              selectedHook := None; fastTransferEnabled := false; isProcessing := false;
              balances := ∅ |}
           user (Wallets.mining "0x1" "0x0" 0 "0x1") emptyWorld eq_refl eq_refl).
Defined.

Section NoDestination.

Variable engine : Engine.

Lemma burnData_noDestination c :
  Registry.chainConfig (destinationChain c) = None ->
  Gateway.burnData engine c = Throws (missingProperty "domain").
Proof.
  intros H. unfold Gateway.burnData. rewrite H.
  destruct (Gateway.hookSelected (selectedHook c) && fastTransferEnabled c); reflexivity.
Qed.

End NoDestination.

(** X22. A payment to a destination that is not in [CHAIN_CONFIG] is not
    refused up front. Once the wallet has answered the switch request, the
    approval is submitted, unless that answer already ended the payment (a
    rejection with [undefined] or [null], on which [switchNetwork] itself
    throws); and only when the burn call is built does reading [domain] of
    [undefined] throw. So the approval is the only transaction such a
    payment ever submits, and it never ends in the success status. *)
Theorem payment_to_unregistered_chain_stops_after_approval
    engine fuel c acct src (p : Provider) w :
  Gateway.connected (account c) = Some acct ->
  Registry.chainConfig (sourceChain c) = Some src ->
  Registry.chainConfig (destinationChain c) = None ->
  let r := Gateway.processPayment engine fuel c p w in
  let switch := wallet_switchEthereumChain (Registry.chainIdHex src) in
  Gateway.burnData engine c = Throws (missingProperty "domain")
  /\ (exists sent, requests r.2 = (requests w ++ sent)%list
                   /\ List.filter isSubmission sent
                      = if dismissed (p (requests w) switch) then []
                        else [approveRequest engine c acct src])
  /\ ~ succeeded r.2.
Proof.
  intros Hacct Hsrc Hdst. cbv zeta.
  split; [apply burnData_noDestination, Hdst|].
  destruct (processPayment_progress engine fuel c acct p w Hacct)
    as [[w1 [o [w2 [E1 [Hp E]]]]]|[src' [err [e [Hsrc' [Ep [Hn [Hc E]]]]]]]].
  2:{ assert (src' = src) by congruence. subst src'.
      rewrite E, caught_error, Ep. cbn [dismissed]. rewrite Hn. split.
      - exists [wallet_switchEthereumChain (Registry.chainIdHex src)].
        split; reflexivity.
      - apply (not_succeeded_error ("Payment failed: " ++ Gateway.messageOf e)).
        reflexivity. }
  pose proof (switchNetwork_returned engine c (sourceChain c) src p (started w) w1 Hsrc E1)
    as Hsw.
  change (requests (started w)) with (requests w) in Hsw. rewrite Hsw.
  destruct (switchNetwork_outcome engine c (sourceChain c) p (started w))
    as [so [w1' [E1' [_ [_ [_ [_ [[l [Hl Fl]] _]]]]]]]].
  assert (w1' = w1) by congruence. subst w1'.
  assert (Hreq : requests (Gateway.processPayment engine fuel c p w).2 = requests w2).
  { rewrite E. destruct o as [[]|e|]; try reflexivity. apply caught_frame. }
  assert (Hcases : (exists n tx, w2 = approved engine c acct src n tx w1 /\ o <> Fulfilled tt)
                   \/ (exists n tx (e : JsError),
                          w2 = withStatus (initiating c)
                                 (approved engine c acct src n tx w1)
                          /\ o = Rejected (ThrownError e))).
  { destruct Hp; try congruence.
    - left. assert (src0 = src) by congruence. subst. eauto.
    - right. assert (src0 = src) by congruence. subst. eauto. }
  split.
  - rewrite Hreq. cbn [requests started withStatus withProcessing] in Hl.
    destruct Hcases as [[n [tx [-> _]]]|[n [tx [e [-> _]]]]];
      exists (l ++ approveRequest engine c acct src
                :: replicate n (eth_getTransactionReceipt tx))%list;
      cbn [requests withStatus]; rewrite approved_requests, Hl, <- app_assoc,
        List.filter_app, (no_submission_among _ _ Fl);
      (split; [reflexivity|]); apply (approval_filters engine c acct src).
  - rewrite E.
    destruct Hcases as [[n [tx [-> Ho]]]|[n [tx [e [-> ->]]]]].
    + destruct o as [[]|thrown|]; [congruence | |].
      * destruct (caught_cases thrown (approved engine c acct src n tx w1))
          as [[_ [message [_ ->]]]|[_ [e [_ [_ ->]]]]].
        -- apply (not_succeeded_error ("Payment failed: " ++ message)). reflexivity.
        -- apply (not_succeeded_pending c). left. reflexivity.
      * apply (not_succeeded_pending c). left. reflexivity.
    + rewrite caught_error.
      apply (not_succeeded_error ("Payment failed: " ++ Gateway.messageOf e)). reflexivity.
Qed.
Lemma payment_to_unregistered_chain_stops_after_approval_witness :
  let c := {| account := Some user; sourceChain := 1; destinationChain := 5;
              amount := "10";
              merchantAddress := "0x742d35Cc6634C0532925a3b844Bc9e7595f8C2B2";
              selectedHook := None; fastTransferEnabled := false; isProcessing := false;
              balances := ∅ |} in
  let r := Gateway.processPayment ReferenceEngine.engine 5%nat c
             (Wallets.mining "0x1" "0x0" 0 "0x1") emptyWorld in
  Gateway.burnData ReferenceEngine.engine c = Throws (missingProperty "domain")
  /\ (exists sent, requests r.2 = (requests emptyWorld ++ sent)%list
                   /\ List.filter isSubmission sent
                      = [approveRequest ReferenceEngine.engine c user ethereum])
  /\ ~ succeeded r.2.
Proof.
  apply (payment_to_unregistered_chain_stops_after_approval ReferenceEngine.engine 5%nat
           {| account := Some user; sourceChain := 1; destinationChain := 5;
              amount := "10";
              merchantAddress := "0x742d35Cc6634C0532925a3b844Bc9e7595f8C2B2";
              selectedHook := None; fastTransferEnabled := false; isProcessing := false;
              balances := ∅ |}
           user ethereum (Wallets.mining "0x1" "0x0" 0 "0x1") emptyWorld);
    reflexivity.
Defined.

(** ** What the success status reports *)

Section SuccessReport.

Variable engine : Engine.

Lemma progress_succeeded p c acct w1 o w2 :
  progress engine p c acct w1 o w2 ->
  succeeded w2 ->
  exists src dst n1 tx1 n2 tx2 d,
    o = Fulfilled tt
    /\ w2 = reported c acct d (burned engine c acct src dst n1 tx1 n2 tx2 w1)
    /\ Registry.chainConfig (sourceChain c) = Some src
    /\ Registry.chainConfig (destinationChain c) = Some dst
    /\ Gateway.hookSelected (selectedHook c) && fastTransferEnabled c = false
    /\ Gateway.successDetails c tx2 = Normal d
    /\ p (requests (approved engine c acct src n1 tx1 w1)) (burnRequest engine c acct src dst)
       = Resolves tx2.
Proof.
  intros Hp [d Hd].
  destruct Hp;
    try (unfold burned, approved, afterPolls, sent, withStatus in Hd;
         cbn [st_transactionStatus] in Hd; discriminate Hd).
  repeat eexists; eauto.
Qed.

Lemma successDetails_fields c tx d src dst :
  Registry.chainConfig (sourceChain c) = Some src ->
  Registry.chainConfig (destinationChain c) = Some dst ->
  Gateway.successDetails c tx = Normal d ->
  exists hook,
    d = {| d_from := Registry.name src; d_to := Registry.name dst;
           d_amount := amount c ++ " USDC"; d_recipient := merchantAddress c;
           d_txHash := tx;
           d_estimatedTime :=
             if fastTransferEnabled c then "~10 seconds" else "~15 minutes";
           d_hook := hook |}
    /\ (if Gateway.hookSelected (selectedHook c)
        then exists template,
               Registry.hookTemplate (default "" (selectedHook c)) = Some template
               /\ hook = Registry.hookName template
        else hook = "None").
Proof.
  intros Hsrc Hdst. unfold Gateway.successDetails. rewrite Hsrc, Hdst. simpl.
  destruct (Gateway.hookSelected (selectedHook c)).
  - destruct (Registry.hookTemplate (default "" (selectedHook c))) as [t|]; simpl;
      [|discriminate].
    intros H. inversion H. eexists. split; [reflexivity|]. eauto.
  - simpl. intros H. inversion H. eexists. split; reflexivity.
Qed.

(** A payment that shows the success status got all the way. *)
Lemma processPayment_succeeded fuel c acct (p : Provider) w :
  Gateway.connected (account c) = Some acct ->
  succeeded (Gateway.processPayment engine fuel c p w).2 ->
  exists w1 src dst n1 tx1 n2 tx2 d,
    Gateway.processPayment engine fuel c p w
    = (Fulfilled tt,
       withProcessing false
         (reported c acct d (burned engine c acct src dst n1 tx1 n2 tx2 w1)))
    /\ Registry.chainConfig (sourceChain c) = Some src
    /\ Registry.chainConfig (destinationChain c) = Some dst
    /\ Gateway.hookSelected (selectedHook c) && fastTransferEnabled c = false
    /\ Gateway.successDetails c tx2 = Normal d
    /\ p (requests (approved engine c acct src n1 tx1 w1)) (burnRequest engine c acct src dst)
       = Resolves tx2.
Proof.
  intros Hacct Hsucc.
  destruct (processPayment_progress engine fuel c acct p w Hacct)
    as [[w1 [o [w2 [E1 [Hp E]]]]]|[src' [err [e [Hsrc' [Ep [Hn [Hc E]]]]]]]].
  2:{ exfalso. revert Hsucc. rewrite E, caught_error.
      apply (not_succeeded_error ("Payment failed: " ++ Gateway.messageOf e)).
      reflexivity. }
  rewrite E in Hsucc |- *.
  assert (Hs2 : succeeded w2).
  { destruct o as [[]|thrown|]; cbn [snd] in Hsucc.
    - destruct Hsucc as [d Hd]. exists d. exact Hd.
    - exfalso. revert Hsucc.
      destruct (progress_frame engine p c acct w1 _ w2 Hp) as [_ [_ [_ [_ [_ Hst]]]]].
      destruct (caught_cases thrown w2) as [[_ [message [_ ->]]]|[_ [e [_ [_ ->]]]]].
      + apply (not_succeeded_error ("Payment failed: " ++ message)). reflexivity.
      + apply (not_succeeded_pending c). exact Hst.
    - exact Hsucc. }
  destruct (progress_succeeded p c acct w1 o w2 Hp Hs2)
    as [src [dst [n1 [tx1 [n2 [tx2 [d [-> [-> [Hsrc [Hdst [Hsel [Hd Hburn]]]]]]]]]]]]].
  exists w1, src, dst, n1, tx1, n2, tx2, d. auto 10.
Qed.

End SuccessReport.

(** X23. What a reported success shows. The details give the names of the
    source and destination chains, the amount as it was typed followed by
    " USDC" (not the amount in units that was sent), the recipient as typed,
    the hash the wallet returned for the burn, and as hook the name of the
    selected template or "None". The hook shown is the one selected, whether
    or not it was used: success needs a burn without FAST hook, so a hook
    that is shown belongs to a STANDARD payment, whose burn carried none. *)
Theorem success_report_shows_the_form_values engine fuel c acct (p : Provider) w :
  Gateway.connected (account c) = Some acct ->
  let r := Gateway.processPayment engine fuel c p w in
  succeeded r.2 ->
  exists src dst tx hook history,
    Registry.chainConfig (sourceChain c) = Some src
    /\ Registry.chainConfig (destinationChain c) = Some dst
    /\ p history (burnRequest engine c acct src dst) = Resolves tx
    /\ In (burnRequest engine c acct src dst) (requests r.2)
    /\ st_transactionStatus r.2
       = Some {| ts_status := success; ts_message := "Payment sent successfully!";
                 ts_details :=
                   Some {| d_from := Registry.name src; d_to := Registry.name dst;
                           d_amount := amount c ++ " USDC";
                           d_recipient := merchantAddress c;
                           d_txHash := tx;
                           d_estimatedTime :=
                             if fastTransferEnabled c then "~10 seconds"
                             else "~15 minutes";
                           d_hook := hook |};
                 ts_attestationReceived := false |}
    /\ (if Gateway.hookSelected (selectedHook c)
        then fastTransferEnabled c = false
             /\ exists template,
                  Registry.hookTemplate (default "" (selectedHook c)) = Some template
                  /\ hook = Registry.hookName template
        else hook = "None").
Proof.
  intros Hacct. cbv zeta. intros Hsucc.
  destruct (processPayment_succeeded engine fuel c acct p w Hacct Hsucc)
    as [w1 [src [dst [n1 [tx1 [n2 [tx2 [d [E [Hsrc [Hdst [Hsel [Hd Hburn]]]]]]]]]]]]].
  rewrite E.
  destruct (successDetails_fields c tx2 d src dst Hsrc Hdst Hd) as [hook [-> Hhook]].
  exists src, dst, tx2, hook. eexists.
  split; [exact Hsrc|]. split; [exact Hdst|]. split; [exact Hburn|].
  split; [|split; [reflexivity|]].
  - cbn [snd requests withProcessing reported]. rewrite burned_requests.
    rewrite !in_app_iff. right. right. left. reflexivity.
  - destruct (Gateway.hookSelected (selectedHook c)); [|exact Hhook].
    split; [|exact Hhook]. simpl in Hsel. exact Hsel.
Qed.

Lemma success_report_shows_the_form_values_witness :
  let c := {| account := Some user; sourceChain := 1; destinationChain := 42161;
              amount := "1.2345678";
              merchantAddress := "0x742d35Cc6634C0532925a3b844Bc9e7595f8C2B2";
              selectedHook := Some "treasuryRebalance"; fastTransferEnabled := false;
              isProcessing := false; balances := ∅ |} in
  let p := Wallets.mining "0x1" "0x0" 0 "0x1" in
  let r := Gateway.processPayment ReferenceEngine.engine 1%nat c p emptyWorld in
  exists src dst tx hook history,
    Registry.chainConfig (sourceChain c) = Some src
    /\ Registry.chainConfig (destinationChain c) = Some dst
    /\ p history (burnRequest ReferenceEngine.engine c user src dst) = Resolves tx
    /\ In (burnRequest ReferenceEngine.engine c user src dst) (requests r.2)
    /\ st_transactionStatus r.2
       = Some {| ts_status := success; ts_message := "Payment sent successfully!";
                 ts_details :=
                   Some {| d_from := Registry.name src; d_to := Registry.name dst;
                           d_amount := amount c ++ " USDC";
                           d_recipient := merchantAddress c;
                           d_txHash := tx;
                           d_estimatedTime :=
                             if fastTransferEnabled c then "~10 seconds"
                             else "~15 minutes";
                           d_hook := hook |};
                 ts_attestationReceived := false |}
    /\ (if Gateway.hookSelected (selectedHook c)
        then fastTransferEnabled c = false
             /\ exists template,
                  Registry.hookTemplate (default "" (selectedHook c)) = Some template
                  /\ hook = Registry.hookName template
        else hook = "None").
Proof.
  apply (success_report_shows_the_form_values ReferenceEngine.engine 1%nat
           {| account := Some user; sourceChain := 1; destinationChain := 42161;
              amount := "1.2345678";
              merchantAddress := "0x742d35Cc6634C0532925a3b844Bc9e7595f8C2B2";
              selectedHook := Some "treasuryRebalance"; fastTransferEnabled := false;
              isProcessing := false; balances := ∅ |}
           user (Wallets.mining "0x1" "0x0" 0 "0x1") emptyWorld).
  - reflexivity.
  - eexists. vm_compute. reflexivity.
Defined.

(** ** Amounts that do not parse *)

Section UnparsableAmounts.

Variable engine : Engine.

Lemma progress_approval p c acct src w1 o w2 :
  progress engine p c acct w1 o w2 ->
  Registry.chainConfig (sourceChain c) = Some src ->
  In (approveRequest engine c acct src) (requests w2).
Proof.
  intros Hp Hsrc.
  destruct Hp as [Hn|src' n tx o Hs _|src' n tx e Hs _|src' dst n1 tx1 n2 tx2 o Hs _ _ _
                 |src' dst n1 tx1 n2 tx2 e Hs _ _ _|src' dst n1 tx1 n2 tx2 d Hs _ _ _ _];
    [congruence | | | | |];
    (assert (src' = src) by congruence); subst src';
    cbn [requests withStatus reported];
    rewrite ?approved_requests, ?burned_requests, !in_app_iff; simpl; tauto.
Qed.

Lemma approveData_NaN c src :
  Registry.chainConfig (sourceChain c) = Some src ->
  JsNumber.parseFloat (amount c) = JsNumber.NaN ->
  approveData engine c src
  = "0x095ea7b3" ++ zeros 24 ++ JsString.slice (Registry.tokenMessenger src) 2
      ++ zeros 61 ++ "NaN".
Proof.
  intros Hsrc Hnan. unfold approveData, Gateway.amountInUnits. rewrite Hnan.
  destruct (registered_wellFormed _ _ Hsrc) as [_ [Hlen _]].
  rewrite (padStart_zeros (JsString.slice _ 2)), slice_length, Hlen.
  change (64 - (42 - 2))%nat with 24%nat. rewrite append_assoc. reflexivity.
Qed.

End UnparsableAmounts.

(** X24. An amount that does not parse is not stopped anywhere. The button
    is disabled for an empty amount and for one that parses to a number
    [<= 0], but [NaN <= 0] is false, so with an account connected the click
    goes through; [NaN * 1e6] floored is NaN, [NaN.toString(16)] is ["NaN"],
    and, unless the network switch already ended the payment (the wallet
    rejected it with [undefined] or [null]), the approval is submitted with
    an amount word of 61 zeros followed by the letters NaN. *)
Theorem unparsable_amount_is_approved_as_NaN engine fuel c acct src (p : Provider) w :
  Gateway.connected (account c) = Some acct ->
  isProcessing c = false ->
  amount c <> "" ->
  JsNumber.parseFloat (amount c) = JsNumber.NaN ->
  Registry.chainConfig (sourceChain c) = Some src ->
  dismissed (p (requests w) (wallet_switchEthereumChain (Registry.chainIdHex src))) = false ->
  Gateway.payDisabled c = false
  /\ In (eth_sendTransaction acct (Registry.usdc src)
           (EStr ("0x095ea7b3" ++ zeros 24 ++ JsString.slice (Registry.tokenMessenger src) 2
                    ++ zeros 61 ++ "NaN")))
        (requests (Gateway.clickProcessPayment engine fuel c p w).2).
Proof.
  intros Hacct Hproc Hamt Hnan Hsrc Hsw.
  assert (Hd : Gateway.payDisabled c = false).
  { unfold Gateway.payDisabled. rewrite Hacct, Hproc, Hnan.
    rewrite bool_decide_eq_true_2 by eauto.
    destruct (String.eqb_spec (amount c) ""); [contradiction | reflexivity]. }
  split; [exact Hd|].
  unfold Gateway.clickProcessPayment. rewrite Hd.
  destruct (processPayment_progress engine fuel c acct p w Hacct)
    as [[w1 [o [w2 [E1 [Hp E]]]]]|[src' [err [e [Hsrc' [Ep [Hn [Hc E]]]]]]]].
  2:{ assert (src' = src) by congruence. subst src'.
      rewrite Ep in Hsw. simpl in Hsw. congruence. }
  pose proof (progress_approval engine p c acct src w1 o w2 Hp Hsrc) as Hin.
  unfold approveRequest in Hin. rewrite (approveData_NaN engine c src Hsrc Hnan) in Hin.
  rewrite E. destruct o as [[]|thrown|]; try exact Hin.
  destruct (caught_frame thrown w2) as [-> _]. exact Hin.
Qed.

Lemma unparsable_amount_is_approved_as_NaN_witness :
  let c := {| account := Some user; sourceChain := 1; destinationChain := 42161;
              amount := "abc";
              merchantAddress := "0x742d35Cc6634C0532925a3b844Bc9e7595f8C2B2";
              selectedHook := None; fastTransferEnabled := false; isProcessing := false;
              balances := ∅ |} in
  Gateway.payDisabled c = false
  /\ In (eth_sendTransaction user (Registry.usdc ethereum)
           (EStr ("0x095ea7b3" ++ zeros 24
                    ++ JsString.slice (Registry.tokenMessenger ethereum) 2
                    ++ zeros 61 ++ "NaN")))
        (requests (Gateway.clickProcessPayment ReferenceEngine.engine 2%nat c
                     (Wallets.mining "0x1" "0x0" 0 "0x1") emptyWorld).2).
Proof.
  apply (unparsable_amount_is_approved_as_NaN ReferenceEngine.engine 2%nat
           {| account := Some user; sourceChain := 1; destinationChain := 42161;
              amount := "abc";
              merchantAddress := "0x742d35Cc6634C0532925a3b844Bc9e7595f8C2B2";
              selectedHook := None; fastTransferEnabled := false; isProcessing := false;
              balances := ∅ |}
           user ethereum (Wallets.mining "0x1" "0x0" 0 "0x1") emptyWorld);
    try reflexivity.
  discriminate.
Defined.

(** ** The states the form can reach *)

Lemma chainKey_parses k :
  existsb (String.eqb k) Form.chainKeys = true ->
  exists chain, JsNumber.integerValue (JsNumber.parseInt k None) = Some chain
                /\ In chain Registry.chainIds
                /\ k = JsString.numeralZ 10 chain.
Proof.
  intros H. apply existsb_exists in H as [key [Hin Hk]].
  apply String.eqb_eq in Hk. subst key.
  unfold Form.chainKeys in Hin. simpl in Hin.
  decompose [or] Hin; try contradiction; subst k;
    eexists; (split; [vm_compute; reflexivity|]); split; try reflexivity; simpl; tauto.
Qed.

Lemma hookKey_known key :
  existsb (String.eqb key) Form.hookKeys = true -> is_Some (Registry.hookTemplate key).
Proof.
  intros H. apply existsb_exists in H as [k [Hin Hk]].
  apply String.eqb_eq in Hk. subst k.
  simpl in Hin. decompose [or] Hin; try contradiction; subst key; eexists; reflexivity.
Qed.

(** What the form keeps true. *)
Definition formInvariant (c : Component) : Prop :=
  is_Some (Registry.chainConfig (sourceChain c))
  /\ is_Some (Registry.chainConfig (destinationChain c))
  /\ match selectedHook c with
     | None => True
     | Some key => is_Some (Registry.hookTemplate key)
     end.

Lemma reachable_invariant c : Form.reachable c -> formInvariant c.
Proof.
  induction 1 as [c H1 H2 _ _ H3 _|c control c' _ IH Hoff Hh|c c' _ IH Hs].
  - unfold formInvariant. rewrite H1, H2, H3. repeat split; eexists; reflexivity.
  - destruct IH as [Is [Id Ih]]. destruct control; simpl in Hoff, Hh.
    + destruct (chainKey_parses _ Hoff) as [chain [E [Hin _]]]. rewrite E in Hh.
      inversion Hh; subst. repeat split; auto. simpl. apply chainIds_registered, Hin.
    + apply andb_prop in Hoff as [Hoff _].
      destruct (chainKey_parses _ Hoff) as [chain [E [Hin _]]]. rewrite E in Hh.
      inversion Hh; subst. repeat split; auto. simpl. apply chainIds_registered, Hin.
    + inversion Hh; subst. repeat split; auto.
    + inversion Hh; subst. repeat split; auto.
    + inversion Hh; subst. repeat split; auto.
    + apply andb_prop in Hoff as [_ Hoff]. inversion Hh; subst.
      repeat split; auto. simpl. case_bool_decide; [exact I | apply hookKey_known, Hoff].
  - destruct IH as [Is [Id Ih]]. destruct Hs as [E1 [E2 [_ [_ [E3 _]]]]].
    unfold formInvariant. rewrite E1, E2, E3. auto.
Qed.

(** X25. The form only ever holds registered chains and known hooks. In
    every state reachable from the [useState] defaults through the controls
    the render offers, [CHAIN_CONFIG[sourceChain]] and
    [CHAIN_CONFIG[destinationChain]] are defined and [selectedHook] is
    [null] or a key of [HOOK_TEMPLATES]; and the handler of every offered
    control stores a chain id that is an integer. *)
Theorem form_keeps_chains_and_hook_registered c :
  Form.reachable c ->
  is_Some (Registry.chainConfig (sourceChain c))
  /\ is_Some (Registry.chainConfig (destinationChain c))
  /\ match selectedHook c with
     | None => True
     | Some key => is_Some (Registry.hookTemplate key)
     end
  /\ forall control, Form.offered c control = true -> is_Some (Form.handle control c).
Proof.
  intros H. destruct (reachable_invariant c H) as [Is [Id Ih]].
  split; [exact Is|]. split; [exact Id|]. split; [exact Ih|].
  intros control Hoff. destruct control; simpl in *; eauto.
  - destruct (chainKey_parses _ Hoff) as [chain [E _]]. rewrite E. simpl. eauto.
  - apply andb_prop in Hoff as [Hoff _].
    destruct (chainKey_parses _ Hoff) as [chain [E _]]. rewrite E. simpl. eauto.
Qed.

Lemma form_keeps_chains_and_hook_registered_witness :
  let c := Form.setSourceChain 8453 (defaultComponent user) in
  is_Some (Registry.chainConfig (sourceChain c))
  /\ is_Some (Registry.chainConfig (destinationChain c))
  /\ match selectedHook c with
     | None => True
     | Some key => is_Some (Registry.hookTemplate key)
     end
  /\ forall control, Form.offered c control = true -> is_Some (Form.handle control c).
Proof.
  apply (form_keeps_chains_and_hook_registered (Form.setSourceChain 8453 (defaultComponent user))).
  apply (Form.operated (defaultComponent user) (Form.PayFrom "8453")).
  - apply Form.mounted; reflexivity.
  - reflexivity.
  - reflexivity.
Defined.

(** X26. Source and destination are only kept apart in one direction. The
    "Settle To" button of the current source chain is disabled, so choosing
    a destination never makes it equal to the source; but every "Pay From"
    button stays enabled, and from any reachable state choosing as source
    the chain that is the current destination yields a reachable state with
    [sourceChain = destinationChain]. *)
Theorem form_can_reach_equal_source_and_destination c :
  Form.reachable c ->
  (forall chainId c',
      Form.offered c (Form.SettleTo chainId) = true ->
      Form.handle (Form.SettleTo chainId) c = Some c' ->
      destinationChain c' <> sourceChain c')
  /\ exists chainId c',
       Form.offered c (Form.PayFrom chainId) = true
       /\ Form.handle (Form.PayFrom chainId) c = Some c'
       /\ Form.reachable c'
       /\ sourceChain c' = destinationChain c'.
Proof.
  intros H. split.
  - intros chainId c' Hoff Hh. simpl in Hoff, Hh.
    apply andb_prop in Hoff as [_ Hne]. apply negb_true_iff in Hne.
    unfold Form.isChain in Hne.
    destruct (JsNumber.integerValue (JsNumber.parseInt chainId None)) as [chain|];
      [|discriminate Hh].
    inversion Hh; subst c'. simpl. intros E. subst chain.
    rewrite bool_decide_eq_true_2 in Hne by reflexivity. discriminate Hne.
  - destruct (reachable_invariant c H) as [_ [Id _]].
    apply chainIds_registered in Id.
    exists (JsString.numeralZ 10 (destinationChain c)),
           (Form.setSourceChain (destinationChain c) c).
    assert (Hoff : Form.offered c (Form.PayFrom (JsString.numeralZ 10 (destinationChain c)))
                   = true).
    { unfold Form.offered. apply existsb_exists. exists (JsString.numeralZ 10 (destinationChain c)).
      split; [unfold Form.chainKeys; apply in_map, Id | apply String.eqb_refl]. }
    assert (Hh : Form.handle (Form.PayFrom (JsString.numeralZ 10 (destinationChain c))) c
                 = Some (Form.setSourceChain (destinationChain c) c)).
    { simpl. simpl in Id.
      decompose [or] Id; try contradiction;
        match goal with E : _ = destinationChain c |- _ => rewrite <- E end; reflexivity. }
    split; [exact Hoff|]. split; [exact Hh|]. split; [|reflexivity].
    eapply Form.operated; eassumption.
Qed.

Lemma form_can_reach_equal_source_and_destination_witness :
  (forall chainId c',
      Form.offered (defaultComponent user) (Form.SettleTo chainId) = true ->
      Form.handle (Form.SettleTo chainId) (defaultComponent user) = Some c' ->
      destinationChain c' <> sourceChain c')
  /\ exists chainId c',
       Form.offered (defaultComponent user) (Form.PayFrom chainId) = true
       /\ Form.handle (Form.PayFrom chainId) (defaultComponent user) = Some c'
       /\ Form.reachable c'
       /\ sourceChain c' = destinationChain c'.
Proof.
  apply (form_can_reach_equal_source_and_destination (defaultComponent user)).
  apply Form.mounted; reflexivity.
Defined.

(** ** A refresh after a switch *)

(** X27. The hexadecimal chain ids of [CHAIN_CONFIG] agree with its keys:
    when the wallet reports the [chainIdHex] of a registered chain (as it
    does after [switchNetwork] switched to it), [updateBalances] takes that
    very chain as the active one: it sends the [balanceOf] call (and at most
    the [decimals] call) to that chain's USDC contract and fills every other
    registered chain from the cache. *)
Theorem refresh_queries_the_chain_the_wallet_switched_to
    engine cached address chainId cfg (p : Provider) w :
  Registry.chainConfig chainId = Some cfg ->
  p (requests w) eth_chainId = Resolves (RStr (Registry.chainIdHex cfg)) ->
  let r := Gateway.updateBalances engine cached address p w in
  r.1 = Fulfilled tt
  /\ (requests r.2 = (requests w ++ [eth_chainId; balanceOfRequest address cfg])%list
      \/ requests r.2 = (requests w ++ [eth_chainId; balanceOfRequest address cfg;
                                        decimalsRequest cfg])%list)
  /\ is_Some (st_balances r.2 !! chainId)
  /\ forall id, In id Registry.chainIds -> id <> chainId ->
                st_balances r.2 !! id = Some (Gateway.orZero (cached !! id)).
Proof.
  intros Hcfg Hp. cbv zeta.
  destruct (registered_wellFormed _ _ Hcfg) as [_ [_ [_ Hkey]]].
  assert (Hact : activeChain (RStr (Registry.chainIdHex cfg)) = Some chainId) by exact Hkey.
  destruct (updateBalances_run engine cached address p w _ Hp) as [w' [E [Hothers Hlive]]].
  rewrite E. rewrite Hact, Hcfg in Hlive. destruct Hlive as [Hreq Hsome].
  split; [reflexivity|]. split; [exact Hreq|]. split; [exact Hsome|].
  intros id Hin Hne. apply chainIds_registered in Hin as [cfg' Hcfg'].
  apply (Hothers id cfg' Hcfg'). rewrite Hact. congruence.
Qed.

Lemma refresh_queries_the_chain_the_wallet_switched_to_witness :
  let r := Gateway.updateBalances ReferenceEngine.engine {[ 1 := "250.00" ]} user
             (Wallets.mining "0xa4b1" "0x5f5e100" 0 "0x1") emptyWorld in
  r.1 = Fulfilled tt
  /\ (requests r.2 = (requests emptyWorld ++ [eth_chainId; balanceOfRequest user arbitrum])%list
      \/ requests r.2 = (requests emptyWorld ++ [eth_chainId; balanceOfRequest user arbitrum;
                                                 decimalsRequest arbitrum])%list)
  /\ is_Some (st_balances r.2 !! 42161)
  /\ forall id, In id Registry.chainIds -> id <> 42161 ->
                st_balances r.2 !! id
                = Some (Gateway.orZero (({[ 1 := "250.00" ]} : gmap Z string) !! id)).
Proof.
  apply (refresh_queries_the_chain_the_wallet_switched_to ReferenceEngine.engine
           {[ 1 := "250.00" ]} user 42161 arbitrum
           (Wallets.mining "0xa4b1" "0x5f5e100" 0 "0x1") emptyWorld);
    reflexivity.
Defined.

(** ** Reading the call data back *)

Lemma substring_skip (s1 s2 : string) (n m : nat) :
  substring (String.length s1 + n) m (s1 ++ s2) = substring n m s2.
Proof.
  induction s1 as [|ch s1 IH]; [reflexivity|].
  rewrite append_cons. simpl. exact IH.
Qed.

(** The piece of [length s2] characters after the first [length s1]. *)
Lemma substring_mid (s1 s2 s3 : string) :
  substring (String.length s1) (String.length s2) (s1 ++ s2 ++ s3) = s2.
Proof.
  rewrite <- (Nat.add_0_r (String.length s1)), substring_skip. apply substring_prefix.
Qed.

Section WordsOfAPayment.

Variable engine : Engine.

Lemma amount_word c z :
  JsNumber.safeInteger (Gateway.amountInUnits (amount c)) = Some z -> 0 <= z ->
  let word := JsString.padStart
                (Encoder.toString16 engine (Gateway.amountInUnits (amount c))) 64 "0" in
  String.length word = 64%nat /\ Encoder.fromHex word = JsNumber.ofZ z.
Proof.
  intros Hz Hpos. cbv zeta. destruct (toString16_safe engine _ _ Hz) as [-> Hb].
  unfold JsString.numeralZ. destruct (Z.ltb_spec z 0); [lia|].
  apply word_value. lia.
Qed.

Lemma domain_word dst chainId :
  Registry.chainConfig chainId = Some dst ->
  let word := JsString.padStart
                (Encoder.toString16 engine (JsNumber.ofZ (Registry.domain dst))) 64 "0" in
  String.length word = 64%nat /\ Encoder.fromHex word = JsNumber.ofZ (Registry.domain dst).
Proof.
  intros Hdst. cbv zeta. destruct (registered_wellFormed _ _ Hdst) as [_ [_ [Hdom _]]].
  rewrite toString16_ofZ by lia.
  unfold JsString.numeralZ. destruct (Z.ltb_spec (Registry.domain dst) 0); [lia|].
  apply word_value. lia.
Qed.

End WordsOfAPayment.

(** X28. The words of the two transactions read back as the values of the
    payment. For an amount whose value in units is a natural number below
    2^53: the second word of the approval and the first word of the burn
    both read (with [fromHex]) as that amount, so the allowance approved is
    the amount burned; the first word of the approval ends in the 40 digits
    of the source chain's token messenger, to which the burn is sent; and
    the second word of the burn reads as the domain of the destination. *)
Theorem payment_words_read_back engine c src dst z :
  Registry.chainConfig (sourceChain c) = Some src ->
  Registry.chainConfig (destinationChain c) = Some dst ->
  JsNumber.safeInteger (Gateway.amountInUnits (amount c)) = Some z ->
  0 <= z ->
  Encoder.fromHex (substring 74 64 (approveData engine c src)) = JsNumber.ofZ z
  /\ Encoder.fromHex (substring 10 64 (callerData engine c src dst)) = JsNumber.ofZ z
  /\ substring 34 40 (approveData engine c src)
     = JsString.slice (Registry.tokenMessenger src) 2
  /\ Encoder.fromHex (substring 74 64 (callerData engine c src dst))
     = JsNumber.ofZ (Registry.domain dst).
Proof.
  intros Hsrc Hdst Hz Hpos.
  destruct (amount_word engine c z Hz Hpos) as [Hlen Hval]. cbv zeta in Hlen, Hval.
  destruct (domain_word engine dst _ Hdst) as [Hdlen Hdval]. cbv zeta in Hdlen, Hdval.
  destruct (registered_wellFormed _ _ Hsrc) as [_ [Htm _]].
  unfold approveData, callerData.
  set (amountWord := JsString.padStart
                       (Encoder.toString16 engine (Gateway.amountInUnits (amount c))) 64 "0")
    in *.
  set (domainWord := JsString.padStart
                       (Encoder.toString16 engine (JsNumber.ofZ (Registry.domain dst))) 64 "0")
    in *.
  rewrite (padStart_zeros (JsString.slice (Registry.tokenMessenger src) 2)).
  rewrite slice_length, Htm. change (64 - (42 - 2))%nat with 24%nat.
  assert (Hs : String.length (JsString.slice (Registry.tokenMessenger src) 2) = 40%nat)
    by (rewrite slice_length, Htm; reflexivity).
  split; [|split; [|split]].
  - rewrite <- (append_assoc "0x095ea7b3"), <- (append_nil_r amountWord) at 1.
    replace 74%nat
      with (String.length ("0x095ea7b3"
                             ++ zeros 24 ++ JsString.slice (Registry.tokenMessenger src) 2))
      by (rewrite !length_append, zeros_length, Hs; reflexivity).
    rewrite <- Hlen at 1. rewrite substring_mid. exact Hval.
  - change 10%nat with (String.length "0x8c7af8a5"). rewrite <- Hlen at 1.
    rewrite substring_mid. exact Hval.
  - rewrite (append_assoc (zeros 24)). rewrite <- (append_assoc "0x095ea7b3" (zeros 24)).
    replace 34%nat with (String.length ("0x095ea7b3" ++ zeros 24))
      by (rewrite length_append, zeros_length; reflexivity).
    rewrite <- Hs at 1. apply substring_mid.
  - rewrite <- (append_assoc "0x8c7af8a5").
    replace 74%nat with (String.length ("0x8c7af8a5" ++ amountWord))
      by (rewrite length_append, Hlen; reflexivity).
    rewrite <- Hdlen at 1. rewrite substring_mid. exact Hdval.
Qed.

Lemma payment_words_read_back_witness :
  Encoder.fromHex (substring 74 64 (approveData ReferenceEngine.engine standardPayment ethereum))
  = JsNumber.ofZ 10000000
  /\ Encoder.fromHex
       (substring 10 64 (callerData ReferenceEngine.engine standardPayment ethereum arbitrum))
     = JsNumber.ofZ 10000000
  /\ substring 34 40 (approveData ReferenceEngine.engine standardPayment ethereum)
     = JsString.slice (Registry.tokenMessenger ethereum) 2
  /\ Encoder.fromHex
       (substring 74 64 (callerData ReferenceEngine.engine standardPayment ethereum arbitrum))
     = JsNumber.ofZ (Registry.domain arbitrum).
Proof.
  apply (payment_words_read_back ReferenceEngine.engine standardPayment ethereum arbitrum
           10000000); [reflexivity | reflexivity | vm_compute; reflexivity | lia].
Defined.

(** ** The explorer link *)

Lemma explorer_injective id1 id2 cfg1 cfg2 :
  Registry.chainConfig id1 = Some cfg1 ->
  Registry.chainConfig id2 = Some cfg2 ->
  Registry.explorer cfg1 = Registry.explorer cfg2 -> id1 = id2.
Proof.
  unfold Registry.chainConfig, Registry.CHAIN_CONFIG, Registry.lookupIn.
  intros H1 H2.
  repeat match type of H1 with
         | context [Z.eqb ?a id1] => destruct (Z.eqb_spec a id1)
         end;
    try discriminate; inversion H1; subst; clear H1;
    repeat match type of H2 with
           | context [Z.eqb ?a id2] => destruct (Z.eqb_spec a id2)
           end;
    try discriminate; inversion H2; subst; clear H2;
    simpl; intros E; try reflexivity; discriminate.
Qed.

(** X29. The explorer link of a reported success follows the form, not the
    payment. The status keeps the name of the chain the payment was sent
    from, but the link is built from the explorer of the [sourceChain] of
    the current render: once another "Pay From" chain is selected, the link
    to the burn transaction points to that chain's explorer, which is a
    different one. *)
Theorem explorer_link_follows_the_selected_source
    engine fuel c acct (p : Provider) w chainId c' :
  Gateway.connected (account c) = Some acct ->
  let r := Gateway.processPayment engine fuel c p w in
  succeeded r.2 ->
  Form.offered c (Form.PayFrom chainId) = true ->
  Form.handle (Form.PayFrom chainId) c = Some c' ->
  exists src selected details,
    Registry.chainConfig (sourceChain c) = Some src
    /\ Registry.chainConfig (sourceChain c') = Some selected
    /\ (st_transactionStatus r.2 ≫= ts_details) = Some details
    /\ d_from details = Registry.name src
    /\ Form.explorerLink c' (st_transactionStatus r.2)
       = Normal (if truthy (d_txHash details)
                 then Some (Registry.explorer selected ++ "/tx/"
                              ++ Gateway.rpcToString (d_txHash details))
                 else None)
    /\ (sourceChain c' <> sourceChain c ->
        Registry.explorer selected <> Registry.explorer src).
Proof.
  intros Hacct. cbv zeta. intros Hsucc Hoff Hh.
  destruct (processPayment_succeeded engine fuel c acct p w Hacct Hsucc)
    as [w1 [src [dst [n1 [tx1 [n2 [tx2 [d [E [Hsrc [Hdst [Hsel [Hd Hburn]]]]]]]]]]]]].
  rewrite E.
  destruct (successDetails_fields c tx2 d src dst Hsrc Hdst Hd) as [hook [Ed _]].
  simpl in Hoff, Hh.
  destruct (chainKey_parses _ Hoff) as [chain [Ek [Hin _]]]. rewrite Ek in Hh.
  inversion Hh; subst c'. clear Hh.
  apply chainIds_registered in Hin as [selected Hselected].
  exists src, selected, d.
  split; [exact Hsrc|]. split; [exact Hselected|]. split; [reflexivity|].
  split; [rewrite Ed; reflexivity|]. split.
  - unfold Form.explorerLink. cbn [snd st_transactionStatus withProcessing reported ts_details].
    destruct (truthy (d_txHash d)); [|reflexivity].
    cbn [sourceChain Form.setSourceChain]. rewrite Hselected. reflexivity.
  - cbn [sourceChain Form.setSourceChain]. intros Hne Hex. apply Hne.
    eapply explorer_injective; eassumption.
Qed.

Lemma explorer_link_follows_the_selected_source_witness :
  let p := Wallets.mining "0x1" "0x0" 0 "0x1" in
  let r := Gateway.processPayment ReferenceEngine.engine 1%nat standardPayment p emptyWorld in
  exists src selected details,
    Registry.chainConfig (sourceChain standardPayment) = Some src
    /\ Registry.chainConfig (sourceChain (Form.setSourceChain 8453 standardPayment))
       = Some selected
    /\ (st_transactionStatus r.2 ≫= ts_details) = Some details
    /\ d_from details = Registry.name src
    /\ Form.explorerLink (Form.setSourceChain 8453 standardPayment) (st_transactionStatus r.2)
       = Normal (if truthy (d_txHash details)
                 then Some (Registry.explorer selected ++ "/tx/"
                              ++ Gateway.rpcToString (d_txHash details))
                 else None)
    /\ (sourceChain (Form.setSourceChain 8453 standardPayment) <> sourceChain standardPayment ->
        Registry.explorer selected <> Registry.explorer src).
Proof.
  apply (explorer_link_follows_the_selected_source ReferenceEngine.engine 1%nat
           standardPayment user (Wallets.mining "0x1" "0x0" 0 "0x1") emptyWorld "8453"
           (Form.setSourceChain 8453 standardPayment)).
  - reflexivity.
  - eexists. vm_compute. reflexivity.
  - reflexivity.
  - reflexivity.
Defined.
(** ** The fields the encoder reads *)

(** The fields of [params] each branch of the encoder reads. *)
Definition fieldsRead (functionName : string) : list string :=
  if String.eqb functionName "approve" then ["spender"; "amount"]
  else if String.eqb functionName "balanceOf" then ["account"]
  else if String.eqb functionName "depositForBurnWithCaller"
  then ["amount"; "destinationDomain"; "mintRecipient"; "burnToken"; "destinationCaller"]
  else if String.eqb functionName "depositForBurnWithHook"
  then ["amount"; "destinationDomain"; "mintRecipient"; "burnToken"; "hookData"]
  else [].

(** X30. [encodeFunctionCall] looks at [params] only through the fields of
    the branch it takes: [spender] and [amount] for [approve], [account] for
    [balanceOf], nothing for [decimals] or for a name outside the selector
    table, and the five fields of their calls for the two burns. Two
    parameter objects that agree on those fields give the same outcome (the
    same string, the same non-string value or the same thrown error),
    whatever else they hold or lack: a misspelt or superfluous field is
    never noticed. *)
Theorem encoder_reads_only_the_fields_of_its_branch engine functionName (p1 p2 : Params) :
  (forall k, In k (fieldsRead functionName) -> field p1 k = field p2 k) ->
  Encoder.encodeFunctionCall engine functionName p1
  = Encoder.encodeFunctionCall engine functionName p2.
Proof.
  unfold fieldsRead, Encoder.encodeFunctionCall. intros H.
  destruct (Encoder.signatureOf functionName) as [data| |]; try reflexivity.
  destruct (String.eqb functionName "approve").
  { rewrite !(H _) by (simpl; tauto). reflexivity. }
  destruct (String.eqb functionName "balanceOf").
  { rewrite !(H _) by (simpl; tauto). reflexivity. }
  destruct (String.eqb functionName "depositForBurnWithCaller").
  { rewrite !(H _) by (simpl; tauto). reflexivity. }
  destruct (String.eqb functionName "depositForBurnWithHook").
  { rewrite !(H _) by (simpl; tauto). reflexivity. }
  reflexivity.
Qed.

Lemma encoder_reads_only_the_fields_of_its_branch_witness :
  Encoder.encodeFunctionCall ReferenceEngine.engine "approve"
    {[ "spender" := VStr (Registry.tokenMessenger ethereum);
       "amount" := VNum (JsNumber.ofZ 10000000) ]}
  = Encoder.encodeFunctionCall ReferenceEngine.engine "approve"
      {[ "spender" := VStr (Registry.tokenMessenger ethereum);
         "amount" := VNum (JsNumber.ofZ 10000000);
         "ammount" := VNum (JsNumber.ofZ 5);
         "hookData" := VStr "0x04" ]}.
Proof.
  apply (encoder_reads_only_the_fields_of_its_branch ReferenceEngine.engine "approve").
  intros k Hk. simpl in Hk. destruct Hk as [<-|[<-|[]]]; vm_compute; reflexivity.
Defined.
(** * The claims on error handling and on refreshes *)

(** ** Errors that surface, and errors that are swallowed *)

Section Rejections.

Variable engine : Engine.





End Rejections.




(** ** Refreshing from a stale closure *)

(** A payment from Arbitrum to Ethereum, by a render that closes over the
    balances [shown]. *)
Definition arbitrumPayment (shown : gmap Z string) : Component :=
  {| account := Some user;
     sourceChain := 42161;
     destinationChain := 1;
     amount := "10";
     merchantAddress := "0x742d35Cc6634C0532925a3b844Bc9e7595f8C2B2";
     selectedHook := None;
     fastTransferEnabled := false;
     isProcessing := false;
     balances := shown |}.

(** C9 (the code departs from the claim when the closure is stale). A
    refresh asks the wallet for its chain id (and stops there, with the
    balances untouched, when that request is rejected) and then queries only
    that chain: every further request is the [balanceOf] or the [decimals]
    call to the USDC contract of the active chain (the [balanceOf] call is
    always among them when the chain is registered), and no call goes to the
    USDC contract of any other registered chain. The new entry of the active
    chain is the answer of that live query, and no key outside
    [CHAIN_CONFIG] is kept. The new balance of every other registered chain
    is [balances[chainId] || '0'], where [balances] is the state the closure
    that runs [updateBalances] captured, not the state on display: when the
    two agree, every other chain keeps the balance it showed (or shows ["0"]
    when it had none); when the closure is older, what is on display is
    overwritten. The second part evaluates such a run: after connecting on
    Ethereum, a payment from Arbitrum shows the live Arbitrum balance
    250.00; a second payment, from Base, is started from the next render;
    and when the refresh timer of the first payment fires, the wallet being
    on Base, the Arbitrum balance on display becomes ["0"], the value the
    first render had closed over. *)
Theorem refresh_queries_only_the_active_chain :
  (forall engine cached address (p : Provider) w,
      let r := Gateway.updateBalances engine cached address p w in
      match p (requests w) eth_chainId with
      | Rejects e => r = (Rejected e, sent eth_chainId w)
      | Resolves v =>
          let active := activeChain v in
          r.1 = Fulfilled tt
          /\ (exists queries,
                requests r.2 = (requests w ++ eth_chainId :: queries)%list
                /\ (forall q, In q queries ->
                      exists id cfg, active = Some id /\ Registry.chainConfig id = Some cfg
                                     /\ (q = balanceOfRequest address cfg
                                         \/ q = decimalsRequest cfg))
                /\ (forall id cfg data,
                      Registry.chainConfig id = Some cfg -> active <> Some id ->
                      ~ In (eth_call (Registry.usdc cfg) data) queries)
                /\ (forall id cfg,
                      active = Some id -> Registry.chainConfig id = Some cfg ->
                      In (balanceOfRequest address cfg) queries))
          /\ (forall id cfg,
                Registry.chainConfig id = Some cfg -> active = Some id ->
                exists live,
                  (Gateway.getUSDCBalance engine address id p (sent eth_chainId w)).1
                  = Fulfilled live
                  /\ st_balances r.2 !! id = Some live)
          /\ (forall id cfg,
                Registry.chainConfig id = Some cfg -> active <> Some id ->
                st_balances r.2 !! id = Some (Gateway.orZero (cached !! id))
                /\ (cached !! id = None -> st_balances r.2 !! id = Some "0")
                /\ (forall s, cached !! id = Some s -> s <> "" ->
                      st_balances r.2 !! id = Some s)
                /\ (cached = st_balances w ->
                    st_balances r.2 !! id
                    = Some (Gateway.orZero (st_balances w !! id))))
          /\ (forall id, Registry.chainConfig id = None -> st_balances r.2 !! id = None)
      end)
  /\ (let engine := ReferenceEngine.engine in
      let wallet := Wallets.following "0x1" "0xee6b280" in
      let afterConnect := (Gateway.updateBalances engine ∅ user wallet emptyWorld).2 in
      let first := arbitrumPayment (st_balances afterConnect) in
      let paid := (Gateway.processPayment engine 1 first wallet afterConnect).2 in
      let second := Form.setSourceChain 8453 (arbitrumPayment (st_balances paid)) in
      let paidAgain := (Gateway.processPayment engine 1 second wallet paid).2 in
      let refreshed :=
        (Gateway.fireTimer engine first (RefreshBalances user) wallet paidAgain).2 in
      st_balances afterConnect !! 42161 = Some "0"
      /\ st_balances paid !! 42161 = Some "250.00"
      /\ timers paid = [(10000, RefreshBalances user)]
      /\ st_balances paidAgain !! 42161 = Some "250.00"
      /\ Wallets.lastSwitch "0x1" (requests paidAgain) = "0x2105"
      /\ st_balances refreshed !! 8453 = Some "250.00"
      /\ st_balances refreshed !! 42161 = Some "0").
Proof.
  split.
  - intros engine cached address p w. cbv zeta.
    destruct (p (requests w) eth_chainId) as [v|e] eqn:Hp.
    2:{ unfold Gateway.updateBalances. erewrite run_bind_rejects by exact Hp. reflexivity. }
    pose proof (updateBalances_unregistered engine cached address p w v) as Hkeys.
    specialize (Hkeys) with (1 := Hp).
    pose proof (updateBalances_live engine cached address p w v) as Hlive.
    destruct (updateBalances_run engine cached address p w v Hp) as [w' [E [Hothers Hreq]]].
    specialize (Hlive) with (1 := Hp).
    rewrite E in Hkeys, Hlive |- *. cbn [fst snd] in *.
    split; [reflexivity|]. split; [|split; [|split]].
    + assert (Hq : exists queries,
                 requests w' = (requests w ++ eth_chainId :: queries)%list
                 /\ (forall q, In q queries ->
                       exists id cfg, activeChain v = Some id
                                      /\ Registry.chainConfig id = Some cfg
                                      /\ (q = balanceOfRequest address cfg
                                          \/ q = decimalsRequest cfg))
                 /\ (forall id cfg, activeChain v = Some id ->
                       Registry.chainConfig id = Some cfg ->
                       In (balanceOfRequest address cfg) queries)).
      { destruct (activeChain v) as [cur|] eqn:Hcur.
        - destruct (Registry.chainConfig cur) as [cfg|] eqn:Hcfg.
          + destruct Hreq as [[Hr|Hr] _].
            * exists [balanceOfRequest address cfg]. split; [exact Hr|]. split.
              -- intros q [<-|[]]. exists cur, cfg. auto.
              -- intros id cfg' Hid Hcfg'. inversion Hid; subst.
                 rewrite Hcfg in Hcfg'. inversion Hcfg'; subst. left. reflexivity.
            * exists [balanceOfRequest address cfg; decimalsRequest cfg].
              split; [exact Hr|]. split.
              -- intros q [<-|[<-|[]]]; exists cur, cfg; auto.
              -- intros id cfg' Hid Hcfg'. inversion Hid; subst.
                 rewrite Hcfg in Hcfg'. inversion Hcfg'; subst. left. reflexivity.
          + exists []. split; [exact Hreq|]. split.
            * intros q [].
            * intros id cfg' Hid Hcfg'. inversion Hid; subst. congruence.
        - exists []. split; [exact Hreq|]. split.
          + intros q [].
          + intros id cfg' Hid. discriminate. }
      destruct Hq as [queries [Hr [Hall Hbal]]].
      exists queries. split; [exact Hr|]. split; [exact Hall|]. split; [|exact Hbal].
      intros id cfg data Hcfg Hne Hin.
      destruct (Hall _ Hin) as [id' [cfg' [Hact [Hcfg' Hq]]]].
      assert (Husdc : Registry.usdc cfg' = Registry.usdc cfg).
      { destruct Hq as [Hq|Hq]; inversion Hq; reflexivity. }
      apply Hne. rewrite Hact. f_equal.
      eapply usdc_injective; eassumption.
    + intros id cfg Hcfg Hact. apply (Hlive id cfg Hact Hcfg).
    + intros id cfg Hcfg Hne. rewrite (Hothers id cfg Hcfg Hne).
      split; [reflexivity|]. split; [|split].
      * intros ->. reflexivity.
      * intros s -> Hs. destruct s; [congruence | reflexivity].
      * intros ->. reflexivity.
    + intros id Hnone. apply (Hkeys id Hnone).
  - vm_compute. repeat split.
Qed.

Lemma refresh_queries_only_the_active_chain_witness :
  activeChain (RStr "0xa4b1") = Some 42161
  /\ (let r := Gateway.updateBalances ReferenceEngine.engine
                 (<[ 8453 := "7.00" ]> ∅) user
                 (Wallets.mining "0xa4b1" "0x5f5e100" 0 "0x1") emptyWorld in
      r.1 = Fulfilled tt
      /\ st_balances r.2 !! 42161 = Some "100.00"
      /\ st_balances r.2 !! 8453 = Some "7.00"
      /\ st_balances r.2 !! 1 = Some "0"
      /\ st_balances r.2 !! 5 = None).
Proof.
  split; [reflexivity|].
  pose proof (proj1 refresh_queries_only_the_active_chain ReferenceEngine.engine
                (<[ 8453 := "7.00" ]> ∅) user
                (Wallets.mining "0xa4b1" "0x5f5e100" 0 "0x1") emptyWorld) as H.
  cbv zeta in H.
  change (Wallets.mining "0xa4b1" "0x5f5e100" 0 "0x1" (requests emptyWorld) eth_chainId)
    with (Resolves (RStr "0xa4b1")) in H.
  cbv beta iota in H. destruct H as [Hout [_ [Hlive [Hothers Hnone]]]].
  split; [exact Hout|]. split; [|split; [|split]].
  - destruct (Hlive 42161 arbitrum eq_refl eq_refl) as [live [Eq Hl]].
    rewrite Hl. f_equal. vm_compute in Eq. inversion Eq. reflexivity.
  - refine (proj1 (Hothers 8453 _ eq_refl _)). vm_compute. discriminate.
  - refine (proj1 (Hothers 1 _ eq_refl _)). vm_compute. discriminate.
  - apply Hnone. reflexivity.
Defined.
